(** * The conversation engine of the hiring-intake bot (app.py)

    A shallow embedding of [validate_llm_response], [process_conversation],
    [process_slack_events] and [handle_interaction], with the two global
    dictionaries [conversation_states] and [recently_completed] as finite
    maps, and every call that leaves the process (Slack, the classifier, the
    description generator, the LinkedIn poster, the draft file) recorded in a
    trace.  What a collaborator answers is an input of the step.  Calls of
    the logger are left out, and a call of Slack is taken to return. *)

From Stdlib Require Import ZArith Bool Ascii String.
From Stdlib Require PrimFloat.
From stdpp Require Import base option list gmap strings pretty.

Local Open Scope string_scope.
Local Open Scope Z_scope.
Set Warnings "-register-all".

(** ** Python values that [json.loads] produces *)

(** A dict is kept as an association list in insertion order, one entry per
    key, as CPython keeps it. *)
Inductive json : Type :=
| JNull
| JBool (b : bool)
| JInt (z : Z)
| JFloat (f : PrimFloat.float)
| JStr (s : string)
| JArr (items : list json)
| JObj (fields : list (string * json)).

Abbreviation pydict := (list (string * json)).

(** [k in d] *)
Fixpoint dict_mem (k : string) (d : pydict) : bool :=
  match d with
  | [] => false
  | (k', _) :: d' => if String.eqb k k' then true else dict_mem k d'
  end.

(** [d.get(k)], with [None] standing for the missing key *)
Fixpoint dict_lookup (k : string) (d : pydict) : option json :=
  match d with
  | [] => None
  | (k', v) :: d' => if String.eqb k k' then Some v else dict_lookup k d'
  end.

(** [d[k] = v]: an existing key keeps its place, a new one goes last *)
Fixpoint dict_set (k : string) (v : json) (d : pydict) : pydict :=
  match d with
  | [] => [(k, v)]
  | (k', v') :: d' =>
      if String.eqb k k' then (k', v) :: d' else (k', v') :: dict_set k v d'
  end.

(** [d.get(k)] as Python sees it: a missing key reads as [None] *)
Definition dict_get (k : string) (d : pydict) : json :=
  default JNull (dict_lookup k d).

(** [d.get(k, dflt)] *)
Definition dict_get_or (k : string) (dflt : json) (d : pydict) : json :=
  default dflt (dict_lookup k d).

Definition is_none (v : json) : bool :=
  match v with JNull => true | _ => false end.

(** Truth value of a Python object, as [not v] and [if v] test it. *)
Definition truthy (v : json) : bool :=
  match v with
  | JNull => false
  | JBool b => b
  | JInt z => negb (z =? 0)
  | JFloat f => negb (PrimFloat.eqb f PrimFloat.zero)
  | JStr s => negb (String.eqb s "")
  | JArr l => match l with [] => false | _ => true end
  | JObj d => match d with [] => false | _ => true end
  end.

(** ** [str.strip() == ""] on UTF-8 text

    Python strips the characters for which [str.isspace] holds: U+0009 to
    U+000D, U+001C to U+0020, U+0085, U+00A0, U+1680, U+2000 to U+200A,
    U+2028, U+2029, U+202F, U+205F and U+3000.  The text is held as its
    UTF-8 bytes, so the characters past U+007F are byte sequences. *)
Definition byte_of (c : ascii) : N := Ascii.N_of_ascii c.

Definition ascii_space (c : ascii) : bool :=
  let n := byte_of c in
  ((9 <=? n) && (n <=? 13) || (28 <=? n) && (n <=? 32))%N.

Fixpoint blank (s : string) : bool :=
  match s with
  | EmptyString => true
  | String c rest =>
      if ascii_space c then blank rest
      else
        match rest with
        | String c2 rest2 =>
            if ((byte_of c =? 194) && ((byte_of c2 =? 133) || (byte_of c2 =? 160)))%N
            then blank rest2
            else
              match rest2 with
              | String c3 rest3 =>
                  let b1 := byte_of c in
                  let b2 := byte_of c2 in
                  let b3 := byte_of c3 in
                  if ((b1 =? 225) && (b2 =? 154) && (b3 =? 128)
                      || (b1 =? 226) && (b2 =? 128)
                         && ((128 <=? b3) && (b3 <=? 138)
                             || (b3 =? 168) || (b3 =? 169) || (b3 =? 175))
                      || (b1 =? 226) && (b2 =? 129) && (b3 =? 159)
                      || (b1 =? 227) && (b2 =? 128) && (b3 =? 128))%N
                  then blank rest3
                  else false
              | EmptyString => false
              end
        | EmptyString => false
        end
  end.

(** [s.replace('**', '')]: occurrences are taken left to right without
    overlap. *)
Fixpoint remove_double_star (s : string) : string :=
  match s with
  | EmptyString => EmptyString
  | String c rest =>
      match rest with
      | String c2 rest2 =>
          if (Ascii.eqb c "*" && Ascii.eqb c2 "*")%bool
          then remove_double_star rest2
          else String c (remove_double_star rest)
      | EmptyString => String c EmptyString
      end
  end.

(** The line feed, ["\n"] in the source. *)
Definition nl : string := String "010"%char EmptyString.

(** ["\n".join(messages)] *)
Fixpoint join_lines (l : list string) : string :=
  match l with
  | [] => ""
  | [m] => m
  | m :: rest => m +:+ nl +:+ join_lines rest
  end.

(** [str(v)], which is what an f-string field shows.  A string shows as
    itself; how a float, a list or a dict prints is the interpreter's
    business and is taken as [py_repr]. *)
Definition py_str (py_repr : json → string) (v : json) : string :=
  match v with
  | JNull => "None"
  | JBool true => "True"
  | JBool false => "False"
  | JInt z => pretty z
  | JStr s => s
  | _ => py_repr v
  end.

(** ** Requests, effects and the two global dictionaries *)

Record message_event := MessageEvent {
  ev_user : string;
  ev_channel : string;
  ev_text : string;
  ev_subtype : option string
}.

(** What the socket-mode client hands to the listeners: a message event of
    the events API, a button press, or anything else. *)
Inductive request : Type :=
| EventsApiMessage (event : message_event)
| Interactive (action_id channel_id user_id : string)
| OtherRequest.

Record button := Button {
  btn_text : string;
  btn_style : option string;
  btn_action_id : string
}.

Inductive block : Type :=
| SectionBlock (mrkdwn : string)
| ActionsBlock (block_id : string) (elements : list button).

(** Every call that leaves the process, in the order it is made. *)
Inductive effect : Type :=
| PostText (channel text : string)
| PostBlocks (channel : string) (blocks : list block) (text : string)
| SocketAck
| Classify (query : string)
| GenerateJD (kwargs : pydict)
| PostJob (job_details : pydict)
| SaveJob (entities : pydict).

(** One entry of [conversation_states].  The keys ["final_entities"],
    ["processed"], ["editing"] and ["original_entities"] are absent from a
    fresh entry. *)
Record conversation := Conversation {
  user_id : string;
  messages : list string;
  final_entities : option pydict;
  processed : option bool;
  editing : option bool;
  original_entities : option pydict
}.

Definition fresh_conversation (user text : string) : conversation :=
  {| user_id := user; messages := [text]; final_entities := None;
     processed := None; editing := None; original_entities := None |}.

Record world := World {
  conversation_states : gmap string conversation;
  recently_completed : gmap string bool;
  trace : list effect
}.

(** What the collaborators answer during one request; [None] is a call that
    raises. *)
Record replies := Replies {
  llm_reply : option string;
  jd_reply : option string;
  post_reply : option (bool * string);
  draft_reply : option bool
}.

Inductive exception : Type :=
| AttributeError
| KeyError
| CollaboratorError.

Inductive outcome : Type :=
| Returned
| Raised (e : exception).

Definition emit (e : effect) (w : world) : world :=
  {| conversation_states := conversation_states w;
     recently_completed := recently_completed w;
     trace := trace w ++ [e] |}.

(** [slack_client.chat_postMessage(channel=..., text=...)] *)
Definition chat_postMessage (channel text : string) (w : world) : world :=
  emit (PostText channel text) w.

Definition set_states (m : gmap string conversation) (w : world) : world :=
  {| conversation_states := m;
     recently_completed := recently_completed w;
     trace := trace w |}.

(** The entry after [state["final_entities"] = entities]. *)
Definition with_final_entities (entities : pydict) (c : conversation) : conversation :=
  {| user_id := user_id c; messages := messages c;
     final_entities := Some entities; processed := processed c;
     editing := editing c; original_entities := original_entities c |}.

(** The entry after [state["messages"].append(text)]. *)
Definition with_message (text : string) (c : conversation) : conversation :=
  {| user_id := user_id c; messages := messages c ++ [text];
     final_entities := final_entities c; processed := processed c;
     editing := editing c; original_entities := original_entities c |}.

(** The entry after the three assignments of the [jd_edit] branch:
    [processed] is [False], [editing] is [True] and [original_entities] is
    a copy of [entities]. *)
Definition edit_started (entities : pydict) (c : conversation) : conversation :=
  {| user_id := user_id c; messages := messages c;
     final_entities := final_entities c; processed := Some false;
     editing := Some true; original_entities := Some entities |}.

(** [del conversation_states[channel_id]] *)
Definition del_conversation (channel : string) (w : world) : world :=
  set_states (delete channel (conversation_states w)) w.

(** [recently_completed[channel_id] = True] *)
Definition mark_completed (channel : string) (w : world) : world :=
  {| conversation_states := conversation_states w;
     recently_completed := <[channel := true]> (recently_completed w);
     trace := trace w |}.

(** ** The validator and the engine *)

Definition required_entities : list string :=
  ["job_title"; "experience"; "skills"; "job_type"; "location"].

(** The loop of [validate_llm_response] over [required_entities]: a key
    that is not in the dict is added with [None]; a key that is there is
    left as it is. *)
Definition fill_required (entities : pydict) : pydict :=
  foldl (λ d entity, if dict_mem entity d then d else dict_set entity JNull d)
        entities required_entities.

Definition all_null : pydict :=
  [("job_title", JNull); ("experience", JNull); ("skills", JNull);
   ("job_type", JNull); ("location", JNull)].

(** The dict both [except] clauses return. *)
Definition fallback_response : pydict :=
  [("intent", JStr "not_hiring"); ("entities", JObj all_null)].

(** [data.get("intent") == name] *)
Definition intent_is (name : string) (data : pydict) : bool :=
  match dict_get "intent" data with
  | JStr s => String.eqb s name
  | _ => false
  end.

Definition follow_up_order : list string :=
  ["job_title"; "experience"; "skills"; "job_type"; "location"].

Definition questions : list (string * string) :=
  [("job_title", "What is the job title/role you're hiring for?");
   ("experience", "What is the required level of experience (e.g., 2 years, Senior)?");
   ("skills", "What specific skills are required for this role?");
   ("job_type", "Is this a full-time, part-time, or contract position?");
   ("location", "What is the location for this role (e.g., Remote, specific city)?")].

Fixpoint question_for (entity : string) (table : list (string * string)) : option string :=
  match table with
  | [] => None
  | (k, q) :: table' => if String.eqb entity k then Some q else question_for entity table'
  end.

(** [next((e for e in follow_up_order if entities.get(e) is None), None)] *)
Definition first_missing_entity (entities : pydict) : option string :=
  List.find (λ entity, is_none (dict_get entity entities)) follow_up_order.

Definition quota_notice : string :=
  "⚠️ I've reached my daily API limit. Please try again tomorrow or contact support to upgrade the plan.".
Definition title_clarification : string :=
  "I couldn't determine the job title. Could you please specify what role you're hiring for?".
Definition generating_notice : string := "Now, I will generate a job description...".
Definition generation_error : string :=
  "Sorry, I encountered an error while generating the job description. Please try again.".
Definition not_hiring_notice : string :=
  "I didn't detect a hiring request. If you're looking to hire someone, please let me know the job details!".
Definition unclear_notice : string :=
  "I'm having trouble understanding your request. Could you please clarify if you're looking to hire someone?".
Definition lost_context_notice : string :=
  "Sorry, I seem to have lost the context. Please start over.".
Definition edit_prompt : string :=
  "✏️ Let's edit the job details. Please provide the updated information:".

Definition approval_buttons : list button :=
  [ Button "Post Job" (Some "primary") "jd_post_yes";
    Button "Draft" None "jd_draft";
    Button "Edit" None "jd_edit";
    Button "No" (Some "danger") "jd_no" ].

Definition message_blocks (cleaned_description : string) : list block :=
  [ SectionBlock cleaned_description;
    ActionsBlock "jd_approval_buttons" approval_buttons ].

(** The labels of the five lines of a confirmation, with the key each one
    shows. *)
Definition detail_labels : list (string * string) :=
  [("Job Title", "job_title"); ("Experience", "experience"); ("Skills", "skills");
   ("Job Type", "job_type"); ("Location", "location")].

(** [generate_job_description] is called with the dict unpacked into keyword
    arguments.  The call binds when the dict has the five parameters as keys
    and no other key; otherwise it is a [TypeError] before the body runs. *)
Definition kwargs_bind (entities : pydict) : bool :=
  forallb (λ k, dict_mem k entities) required_entities
  && forallb (λ kv, existsb (String.eqb (fst kv)) required_entities) entities.

Section Engine.

(** [json.loads]: [None] when it raises. *)
Variable json_loads : string → option json.
(** [str] of a float, a list or a dict. *)
Variable py_repr : json → string.
(** The module constant [bot_user_id], read from Slack when the module
    loads. *)
Variable bot_user_id : string.

(** [validate_llm_response].  Each [raise ValueError] of the body and
    whatever [json.loads] raises end in one of the two [except] clauses,
    which return the same dict. *)
Definition validate_llm_response (llm_response : string) : pydict :=
  match json_loads llm_response with
  | Some (JObj data) =>
      if negb (dict_mem "intent" data) then fallback_response
      else
        match dict_lookup "entities" data with
        | None => fallback_response
        | Some (JObj entities) =>
            dict_set "entities" (JObj (fill_required entities)) data
        | Some _ => fallback_response
        end
  | Some _ => fallback_response
  | None => fallback_response
  end.

(** [{entities.get(key, 'N/A')}] *)
Definition shown (key : string) (entities : pydict) : string :=
  py_str py_repr (dict_get_or key (JStr "N/A") entities).

Definition plain_line (entities : pydict) (lk : string * string) : string :=
  "  • *" +:+ fst lk +:+ "*: " +:+ shown (snd lk) entities.

Definition was_line (entities original : pydict) (lk : string * string) : string :=
  "  • *" +:+ fst lk +:+ "*: " +:+ shown (snd lk) entities
    +:+ " (was: " +:+ shown (snd lk) original +:+ ")".

Definition plain_confirmation (entities : pydict) : string :=
  "Great! I have all the details. Here's the complete hiring request:" +:+ nl
    +:+ join_lines (map (plain_line entities) detail_labels).

Definition edit_confirmation (entities original : pydict) : string :=
  "✏️ Here are the updated job details:" +:+ nl
    +:+ join_lines (map (was_line entities original) detail_labels).

(** [conversation_states[channel_id]["final_entities"] = entities] *)
Definition store_final_entities (channel : string) (entities : pydict) (w : world) : world :=
  set_states (alter (with_final_entities entities) channel (conversation_states w)) w.

(** The [else] branch of [if first_missing_entity], once every entity is
    filled in. *)
Definition finalize (r : replies) (channel_id : string) (state : conversation)
    (entities : pydict) (w : world) : world * outcome :=
  let confirmation_text :=
    if default false (editing state)
    then edit_confirmation entities (default [] (original_entities state))
    else plain_confirmation entities in
  let w := chat_postMessage channel_id confirmation_text w in
  let w := chat_postMessage channel_id generating_notice w in
  if kwargs_bind entities then
    let w := emit (GenerateJD entities) w in
    match jd_reply r with
    | Some job_description =>
        let cleaned_description := remove_double_star job_description in
        let w := emit (PostBlocks channel_id (message_blocks cleaned_description)
                                  "Job description generated.") w in
        (store_final_entities channel_id entities w, Returned)
    | None => (chat_postMessage channel_id generation_error w, Returned)
    end
  else (chat_postMessage channel_id generation_error w, Returned).

Definition process_conversation (r : replies) (channel_id user : string)
    (w : world) : world * outcome :=
  match conversation_states w !! channel_id with
  | None => (w, Returned)
  | Some state =>
      match messages state with
      | [] => (w, Returned)
      | _ :: _ =>
          let full_conversation_text := join_lines (messages state) in
          let w := emit (Classify full_conversation_text) w in
          match llm_reply r with
          | None => (w, Raised CollaboratorError)
          | Some llm_response =>
              let data := validate_llm_response llm_response in
              if intent_is "quota_exceeded" data then
                (chat_postMessage channel_id quota_notice w, Returned)
              else if intent_is "hiring_request" data && dict_mem "entities" data then
                match dict_get "entities" data with
                | JObj entities =>
                    match first_missing_entity entities with
                    | Some missing =>
                        match question_for missing questions with
                        | Some question_to_ask =>
                            (chat_postMessage channel_id question_to_ask w, Returned)
                        | None => (w, Raised KeyError)
                        end
                    | None =>
                        let job_title := dict_get "job_title" entities in
                        if negb (truthy job_title) then
                          (chat_postMessage channel_id title_clarification w, Returned)
                        else
                          match job_title with
                          | JStr s =>
                              if blank s then
                                (chat_postMessage channel_id title_clarification w, Returned)
                              else finalize r channel_id state entities w
                          | _ => (w, Raised AttributeError)
                          end
                    end
                | _ => (w, Raised AttributeError)
                end
              else if intent_is "not_hiring" data then
                (chat_postMessage channel_id not_hiring_notice w, Returned)
              else (chat_postMessage channel_id unclear_notice w, Returned)
          end
      end
  end.

(** [conversation_states[channel_id]["messages"].append(message_text)] *)
Definition append_message (channel text : string) (w : world) : world :=
  set_states (alter (with_message text) channel (conversation_states w)) w.

(** [x in l] on a list of strings *)
Definition text_in (text : string) (l : list string) : bool :=
  existsb (String.eqb text) l.

(** [process_slack_events].  The [try] around the body swallows whatever
    [process_conversation] raises; what was done before the raise stays
    done. *)
Definition process_slack_events (r : replies) (req : request) (w : world) : world :=
  match req with
  | EventsApiMessage event =>
      if String.eqb (ev_user event) bot_user_id || bool_decide (is_Some (ev_subtype event))
      then w
      else
        let channel_id := ev_channel event in
        let message_text := ev_text event in
        match conversation_states w !! channel_id with
        | Some state =>
            if String.eqb (ev_user event) (user_id state) then
              if negb (text_in message_text (messages state)) then
                fst (process_conversation r channel_id (ev_user event)
                       (append_message channel_id message_text w))
              else w
            else
              fst (process_conversation r channel_id (ev_user event)
                     (set_states (<[channel_id := fresh_conversation (ev_user event) message_text]>
                                    (conversation_states w)) w))
        | None =>
            fst (process_conversation r channel_id (ev_user event)
                   (set_states (<[channel_id := fresh_conversation (ev_user event) message_text]>
                                  (conversation_states w)) w))
        end
  | _ => w
  end.

(** The three assignments of the [jd_edit] branch; [entities.copy()] is a
    dict with the same entries.  The test [channel_id in conversation_states]
    that guards them holds where the branch is reached. *)
Definition start_editing (channel : string) (entities : pydict) (w : world) : world :=
  set_states (alter (edit_started entities) channel (conversation_states w)) w.

(** [handle_interaction].  [entities] is [state.get("final_entities")],
    and [not entities] holds for a missing key and for an empty dict. *)
Definition handle_interaction (r : replies) (req : request) (w : world) : world :=
  match req with
  | Interactive action_id channel_id user =>
      let w := emit SocketAck w in
      match conversation_states w !! channel_id with
      | Some state =>
          if String.eqb user (user_id state) then
            match final_entities state with
            | None | Some [] => chat_postMessage channel_id lost_context_notice w
            | Some entities =>
                if String.eqb action_id "jd_post_yes" then
                  let w := emit (PostJob entities) w in
                  match post_reply r with
                  | Some (true, message) =>
                      let w := chat_postMessage channel_id
                                 ("✅ Job posted successfully! Link: " +:+ message) w in
                      let w := chat_postMessage channel_id
                                 "🎉 Job posted! Conversation ended." w in
                      del_conversation channel_id (mark_completed channel_id w)
                  | Some (false, message) =>
                      let w := chat_postMessage channel_id
                                 ("❌ Error posting to LinkedIn: " +:+ message) w in
                      del_conversation channel_id w
                  | None =>
                      let w := chat_postMessage channel_id
                                 "❌ An error occurred while posting to LinkedIn. Please try again." w in
                      del_conversation channel_id w
                  end
                else if String.eqb action_id "jd_draft" then
                  let w := emit (SaveJob entities) w in
                  match draft_reply r with
                  | Some true =>
                      let w := chat_postMessage channel_id
                                 ("✅ Job saved as draft. Job ID: " +:+ py_str py_repr (JBool true)) w in
                      let w := chat_postMessage channel_id
                                 "💾 Draft saved! Conversation ended." w in
                      del_conversation channel_id (mark_completed channel_id w)
                  | Some false | None =>
                      let w := chat_postMessage channel_id
                                 "❌ An error occurred while saving the draft. Please try again." w in
                      del_conversation channel_id w
                  end
                else if String.eqb action_id "jd_edit" then
                  let w := chat_postMessage channel_id edit_prompt w in
                  start_editing channel_id entities w
                else if String.eqb action_id "jd_no" then
                  let w := chat_postMessage channel_id "❌ Job posting cancelled." w in
                  let w := chat_postMessage channel_id
                             "🔄 Starting fresh. Please provide new job details:" w in
                  del_conversation channel_id w
                else del_conversation channel_id w
            end
          else w
      | None => w
      end
  | _ => w
  end.

(** The socket-mode client calls its listeners in the order they were
    registered: [process_slack_events], then [handle_interaction]. *)
Definition dispatch (r : replies) (req : request) (w : world) : world :=
  handle_interaction r req (process_slack_events r req w).

(** Requests handled one after the other, each with the answers the
    collaborators give during it. *)
Definition run (steps : list (replies * request)) (w : world) : world :=
  foldl (λ w step, dispatch (fst step) (snd step) w) w steps.

End Engine.

(** ** The specification's words for a malformed classifier output *)

(** The parse of a malformed output: invalid JSON, a top level that is not
    an object, an object without ["intent"] or without ["entities"], or an
    ["entities"] field that is not an object. *)
Definition malformed (parsed : option json) : bool :=
  match parsed with
  | None => true
  | Some (JObj data) =>
      negb (dict_mem "intent" data)
      || negb (dict_mem "entities" data)
      || match dict_lookup "entities" data with
         | Some (JObj _) => false
         | _ => true
         end
  | Some _ => true
  end.

(** ** Requests that leave a conversation going *)

(** A request that does not end or restart the conversation of [owner] in
    [channel]: a message of the owner, a message or a press in another
    channel, or a request that is neither a message nor a press. *)
Definition leaves_going (channel owner : string) (req : request) : bool :=
  match req with
  | EventsApiMessage event =>
      negb (String.eqb (ev_channel event) channel) || String.eqb (ev_user event) owner
  | Interactive _ channel' _ => negb (String.eqb channel' channel)
  | OtherRequest => true
  end.

(** The entry [c'] has the owner and the edit state of [c]. *)
Definition same_edit_state (c c' : conversation) : Prop :=
  user_id c' = user_id c
  ∧ editing c' = editing c
  ∧ original_entities c' = original_entities c.

(** ** Sample inputs *)

Module Samples.

Definition dq : string := String "034"%char EmptyString.
(** A JSON string literal *)
Definition q (s : string) : string := dq +:+ s +:+ dq.
(** A JSON member [key: value] *)
Definition member (k v : string) : string := q k +:+ ": " +:+ v.

Definition complete_entities : pydict :=
  [("job_title", JStr "Backend Developer"); ("experience", JStr "3 years");
   ("skills", JStr "Node.js"); ("job_type", JStr "full-time");
   ("location", JStr "Remote")].

Definition complete_text : string :=
  "{" +:+ member "intent" (q "hiring_request") +:+ ", "
      +:+ member "entities"
            ("{" +:+ member "job_title" (q "Backend Developer") +:+ ", "
                 +:+ member "experience" (q "3 years") +:+ ", "
                 +:+ member "skills" (q "Node.js") +:+ ", "
                 +:+ member "job_type" (q "full-time") +:+ ", "
                 +:+ member "location" (q "Remote") +:+ "}")
      +:+ "}".

Definition title_only_text : string :=
  "{" +:+ member "intent" (q "hiring_request") +:+ ", "
      +:+ member "entities" ("{" +:+ member "job_title" (q "Backend Developer") +:+ "}")
      +:+ "}".

Definition blank_title_text : string :=
  "{" +:+ member "intent" (q "hiring_request") +:+ ", "
      +:+ member "entities"
            ("{" +:+ member "job_title" (q "  ") +:+ ", "
                 +:+ member "experience" (q "3 years") +:+ ", "
                 +:+ member "skills" (q "Node.js") +:+ ", "
                 +:+ member "job_type" (q "full-time") +:+ ", "
                 +:+ member "location" (q "Remote") +:+ "}")
      +:+ "}".

Definition empty_title_text : string :=
  "{" +:+ member "intent" (q "not_hiring") +:+ ", "
      +:+ member "entities"
            ("{" +:+ member "job_title" (q "") +:+ ", "
                 +:+ member "experience" "3" +:+ "}")
      +:+ "}".

Definition salary_text : string :=
  "{" +:+ member "intent" (q "hiring_request") +:+ ", "
      +:+ member "entities"
            ("{" +:+ member "job_title" (q "Backend Developer") +:+ ", "
                 +:+ member "experience" (q "3 years") +:+ ", "
                 +:+ member "skills" (q "Node.js") +:+ ", "
                 +:+ member "job_type" (q "full-time") +:+ ", "
                 +:+ member "location" (q "Remote") +:+ ", "
                 +:+ member "salary" (q "90k") +:+ "}")
      +:+ "}".

Definition entities_not_object_text : string :=
  "{" +:+ member "intent" (q "hiring_request") +:+ ", "
      +:+ member "entities" (q "none") +:+ "}".

(** [json.loads] on the texts above and on a few more; any other text is
    taken as not JSON. *)
Definition parses : list (string * json) :=
  [ (complete_text,
     JObj [("intent", JStr "hiring_request"); ("entities", JObj complete_entities)]);
    (title_only_text,
     JObj [("intent", JStr "hiring_request");
           ("entities", JObj [("job_title", JStr "Backend Developer")])]);
    (blank_title_text,
     JObj [("intent", JStr "hiring_request");
           ("entities", JObj (dict_set "job_title" (JStr "  ") complete_entities))]);
    (empty_title_text,
     JObj [("intent", JStr "not_hiring");
           ("entities", JObj [("job_title", JStr ""); ("experience", JInt 3)])]);
    (salary_text,
     JObj [("intent", JStr "hiring_request");
           ("entities", JObj (complete_entities ++ [("salary", JStr "90k")]))]);
    (entities_not_object_text,
     JObj [("intent", JStr "hiring_request"); ("entities", JStr "none")]);
    ("[1, 2]", JArr [JInt 1; JInt 2]);
    ("{}", JObj []) ].

Definition loads (text : string) : option json :=
  snd <$> List.find (λ p, String.eqb text (fst p)) parses.

(** A stand-in for [repr]; none of the samples shows a float, a list or a
    dict. *)
Definition repr (v : json) : string := "?".

Definition bot : string := "UBOT".

Definition world_of (states : list (string * conversation)) : world :=
  {| conversation_states := list_to_map states;
     recently_completed := ∅;
     trace := [] |}.

Definition collecting (user : string) (history : list string) : conversation :=
  {| user_id := user; messages := history; final_entities := None;
     processed := None; editing := None; original_entities := None |}.

Definition confirming (user : string) (history : list string) : conversation :=
  {| user_id := user; messages := history;
     final_entities := Some complete_entities;
     processed := None; editing := None; original_entities := None |}.

Definition answers (llm jd : option string) : replies :=
  {| llm_reply := llm; jd_reply := jd;
     post_reply := Some (true, "https://www.linkedin.com/feed/update/urn:li:share:1");
     draft_reply := Some true |}.

Definition failing : replies :=
  {| llm_reply := None; jd_reply := None;
     post_reply := Some (false, "Failed: 401 - Unauthorized");
     draft_reply := Some false |}.

Definition message (user channel text : string) : request :=
  EventsApiMessage {| ev_user := user; ev_channel := channel; ev_text := text;
                      ev_subtype := None |}.

End Samples.

(** ** The state the process starts in, and what a request is about *)

(** The two module-level dicts are empty when the module is loaded. *)
Definition initial_world : world :=
  {| conversation_states := ∅; recently_completed := ∅; trace := [] |}.


(** A Slack message goes to [channel]; the other effects name no channel. *)
Definition addressed_to (channel : string) (e : effect) : Prop :=
  match e with
  | PostText c _ => c = channel
  | PostBlocks c _ _ => c = channel
  | _ => True
  end.

Definition is_post_text (e : effect) : bool :=
  match e with PostText _ _ => true | _ => false end.

Definition is_post_blocks (e : effect) : bool :=
  match e with PostBlocks _ _ _ => true | _ => false end.

(** A call of the classifier or of the description generator. *)
Definition is_model_call (e : effect) : bool :=
  match e with Classify _ | GenerateJD _ => true | _ => false end.

(** A call of the LinkedIn poster or of the draft file. *)
Definition is_publish_call (e : effect) : bool :=
  match e with PostJob _ | SaveJob _ => true | _ => false end.

(** Entities with which [process_conversation] reaches the assignment of
    [final_entities]: no attribute is [None], the keys are the five
    parameters of the generator, and the title is a string that is not
    blank. *)
Definition complete_request (entities : pydict) : bool :=
  match first_missing_entity entities with None => true | Some _ => false end
  && kwargs_bind entities
  && match dict_get "job_title" entities with
     | JStr s => negb (blank s)
     | _ => false
     end.

(** The shape of an entry of [conversation_states] that the handlers
    build: a history that is not empty and repeats no text, an owner that is
    not the bot, complete [final_entities] when there are any, and the three
    keys of the edit branch either all absent or all set, in which case
    [original_entities] is complete and [final_entities] is there. *)
Definition sound_conversation (bot : string) (c : conversation) : Prop :=
  messages c ≠ []
  ∧ NoDup (messages c)
  ∧ user_id c ≠ bot
  ∧ (∀ e, final_entities c = Some e → complete_request e = true)
  ∧ ((processed c = None ∧ editing c = None ∧ original_entities c = None)
     ∨ (processed c = Some false ∧ editing c = Some true
        ∧ is_Some (final_entities c)
        ∧ ∃ o, original_entities c = Some o ∧ complete_request o = true)).

Definition sound_store (bot : string) (w : world) : Prop :=
  map_Forall (λ _ c, sound_conversation bot c) (conversation_states w).

(** The world with another [recently_completed]. *)
Definition with_completed (m : gmap string bool) (w : world) : world :=
  {| conversation_states := conversation_states w;
     recently_completed := m;
     trace := trace w |}.

(** What is handed to the poster or to the draft file is a complete
    request. *)
Definition publishes_complete (e : effect) : Prop :=
  match e with
  | PostJob details => complete_request details = true
  | SaveJob details => complete_request details = true
  | _ => True
  end.

(** ** More sample inputs *)

Module MoreSamples.

Import Samples.

(** A hiring request whose title is the number 5. *)
Definition numeric_title_text : string :=
  "{" +:+ member "intent" (q "hiring_request") +:+ ", "
      +:+ member "entities"
            ("{" +:+ member "job_title" "5" +:+ ", "
                 +:+ member "experience" (q "3 years") +:+ ", "
                 +:+ member "skills" (q "Node.js") +:+ ", "
                 +:+ member "job_type" (q "full-time") +:+ ", "
                 +:+ member "location" (q "Remote") +:+ "}")
      +:+ "}".

Definition numeric_title_entities : pydict :=
  dict_set "job_title" (JInt 5) complete_entities.

Definition parses : list (string * json) :=
  (numeric_title_text,
   JObj [("intent", JStr "hiring_request"); ("entities", JObj numeric_title_entities)])
  :: Samples.parses.

Definition loads (text : string) : option json :=
  snd <$> List.find (λ p, String.eqb text (fst p)) parses.

(** A printer for a list of objects whose values are strings without
    quotes or backslashes, as the drafts of the samples are, and the reader
    of the one text the samples read back. *)
Fixpoint join_with (sep : string) (l : list string) : string :=
  match l with
  | [] => ""
  | [x] => x
  | x :: rest => x +:+ sep +:+ join_with sep rest
  end.

Definition print_member (kv : string * json) : string :=
  member (fst kv) (match snd kv with JStr s => q s | _ => "null" end).

Definition print_object (v : json) : string :=
  match v with
  | JObj d => "{" +:+ join_with ", " (print_member <$> d) +:+ "}"
  | _ => "null"
  end.

Definition dumps (v : json) : string :=
  match v with
  | JArr l => "[" +:+ join_with ", " (print_object <$> l) +:+ "]"
  | _ => "null"
  end.

Definition second_draft : pydict :=
  [("job_title", JStr "Data Analyst"); ("experience", JStr "Senior");
   ("skills", JStr "SQL, Python"); ("job_type", JStr "contract");
   ("location", JStr "Berlin")].

Definition draft_loads (text : string) : option json :=
  if String.eqb text (dumps (JArr [JObj complete_entities]))
  then Some (JArr [JObj complete_entities])
  else None.

(** A printer for the answers the classifier builds itself, an intent with
    the five attributes null, and the reader of the three texts it gives. *)
Definition intent_text (intent : string) : string :=
  "{" +:+ member "intent" (q intent) +:+ ", "
      +:+ member "entities"
            ("{" +:+ member "job_title" "null" +:+ ", "
                 +:+ member "experience" "null" +:+ ", "
                 +:+ member "skills" "null" +:+ ", "
                 +:+ member "job_type" "null" +:+ ", "
                 +:+ member "location" "null" +:+ "}")
      +:+ "}".

Definition answer_dumps (indent : option Z) (v : json) : string :=
  match v with
  | JObj (("intent", JStr intent) :: _) => intent_text intent
  | _ => "null"
  end.

Definition answer_loads (text : string) : option json :=
  snd <$> List.find (λ p, String.eqb text (fst p))
            [ (intent_text "quota_exceeded",
               JObj [("intent", JStr "quota_exceeded"); ("entities", JObj all_null)]);
              (intent_text "hiring_request",
               JObj [("intent", JStr "hiring_request"); ("entities", JObj all_null)]);
              (intent_text "not_hiring",
               JObj [("intent", JStr "not_hiring"); ("entities", JObj all_null)]) ].

(** [str.lower] on the letters A to Z; the samples hold no other upper
    case. *)
Definition ascii_lower (c : ascii) : ascii :=
  let n := byte_of c in
  if ((65 <=? n) && (n <=? 90))%N then Ascii.ascii_of_N (n + 32) else c.

Fixpoint lower (s : string) : string :=
  match s with
  | EmptyString => EmptyString
  | String c rest => String (ascii_lower c) (lower rest)
  end.

(** A compact printer of JSON values whose strings need no escape, and the
    reader of the two texts of the classifier sample: what the model says
    and what the classifier passes on. *)
Fixpoint print_json (v : json) : string :=
  match v with
  | JNull => "null"
  | JBool true => "true"
  | JBool false => "false"
  | JInt z => pretty z
  | JFloat _ => "0.0"
  | JStr s => q s
  | JArr l => "[" +:+ join_with ", " (map print_json l) +:+ "]"
  | JObj d =>
      "{" +:+ join_with ", "
                (map (λ kv, match kv with (k, x) => member k (print_json x) end) d)
          +:+ "}"
  end.

Definition classified_title_only : json :=
  JObj [("intent", JStr "hiring_request");
        ("entities",
         JObj [("job_title", JStr "Backend Developer"); ("experience", JNull);
               ("skills", JNull); ("job_type", JNull); ("location", JNull)])].

Definition pipeline_loads (text : string) : option json :=
  snd <$> List.find (λ p, String.eqb text (fst p))
            [ (title_only_text,
               JObj [("intent", JStr "hiring_request");
                     ("entities", JObj [("job_title", JStr "Backend Developer")])]);
              (print_json classified_title_only, classified_title_only) ].

End MoreSamples.

(** ** More of Python's [str] on UTF-8 text *)

(** [s.startswith(p)] *)
Fixpoint starts_with (p s : string) : bool :=
  match p, s with
  | EmptyString, _ => true
  | String a p', String b s' => Ascii.eqb a b && starts_with p' s'
  | String _ _, EmptyString => false
  end.

(** [p in s] for two strings: [p] occurs in [s]. *)
Fixpoint is_infix (p s : string) : bool :=
  starts_with p s
  || match s with
     | EmptyString => false
     | String _ rest => is_infix p rest
     end.

(** ** linkedin_poster.py *)

(** What [requests.post] gives: a response, of which [post_job] reads the
    status code, the header [x-restli-id] and the body, or an exception, of
    which it reads [str(e)]. *)
Inductive http_outcome : Type :=
| HttpResponse (status_code : Z) (restli_id : option string) (text : string)
| HttpRaises (message : string).

Record http_request := HttpRequest {
  hr_url : string;
  hr_headers : list (string * string);
  hr_json : json
}.

Definition API_URL : string := "https://api.linkedin.com/v2/ugcPosts".

Definition credentials_not_found : string :=
  "LinkedIn credentials (LINKEDIN_ACCESS_TOKEN or PERSON_URN) not found.".

(** A value of [os.environ.get] passes [all([...])] when it is a string
    that is not empty. *)
Definition env_truthy (v : option string) : bool :=
  match v with
  | Some s => negb (String.eqb s "")
  | None => false
  end.

Section Poster.

Variable py_repr : json → string.

(** The text of the post, one line per attribute. *)
Definition post_text (job_details : pydict) : string :=
  "🚀 New Job Opportunity!" +:+ nl +:+ nl
    +:+ "📌 Title: " +:+ shown py_repr "job_title" job_details +:+ nl
    +:+ "🧠 Experience: " +:+ shown py_repr "experience" job_details +:+ nl
    +:+ "📍 Location: " +:+ shown py_repr "location" job_details +:+ nl
    +:+ "🛠 Skills: " +:+ shown py_repr "skills" job_details +:+ nl
    +:+ "Job Type: " +:+ shown py_repr "job_type" job_details +:+ nl +:+ nl
    +:+ "#Hiring #JobOpening #Careers".

Definition post_payload (author_urn : string) (job_details : pydict) : json :=
  JObj [("author", JStr author_urn);
        ("lifecycleState", JStr "PUBLISHED");
        ("specificContent",
         JObj [("com.linkedin.ugc.ShareContent",
                JObj [("shareCommentary", JObj [("text", JStr (post_text job_details))]);
                      ("shareMediaCategory", JStr "NONE")])]);
        ("visibility",
         JObj [("com.linkedin.ugc.MemberNetworkVisibility", JStr "PUBLIC")])].

Definition post_headers (access_token : string) : list (string * string) :=
  [("Authorization", "Bearer " +:+ access_token);
   ("Content-Type", "application/json");
   ("X-Restli-Protocol-Version", "2.0.0")].

(** [post_job]: the request it sends, if it sends one, and the pair it
    returns.  [environ] is [os.environ.get], [answer] what [requests.post]
    gives for the request. *)
Definition post_job (environ : string → option string) (answer : http_outcome)
    (job_details : pydict) : option http_request * (bool * string) :=
  let access_token := environ "LINKEDIN_ACCESS_TOKEN" in
  let author_urn := environ "PERSON_URN" in
  if negb (env_truthy access_token && env_truthy author_urn) then
    (None, (false, credentials_not_found))
  else
    let request :=
      {| hr_url := API_URL;
         hr_headers := post_headers (default "" access_token);
         hr_json := post_payload (default "" author_urn) job_details |} in
    match answer with
    | HttpResponse status_code restli_id text =>
        if status_code =? 201 then
          let post_id := default "unknown" restli_id in
          (Some request, (true, "https://www.linkedin.com/feed/update/" +:+ post_id))
        else
          (Some request,
           (false, "Failed: " +:+ pretty status_code +:+ " - " +:+ text))
    | HttpRaises message => (Some request, (false, message))
    end.

End Poster.

(** ** state_manager.py *)

(** What writing [saved_jobs.json] comes to: the file is written, or
    [open(..., 'w')] raises and the file is as before, or [json.dump]
    raises after the file was truncated and leaves [left_behind] in it. *)
Inductive write_outcome : Type :=
| WriteOk
| OpenRaises
| DumpRaises (left_behind : string).

(** The file system during one call of [save_job_to_file]. *)
Record disk := Disk {
  read_raises : bool;
  write_answer : write_outcome
}.

Section Drafts.

(** [json.load] of the text of the file; [None] when it raises. *)
Variable json_loads : string → option json.
(** [json.dump(jobs, f, indent=4)]: the text written. *)
Variable json_dumps : json → string.

(** [save_job_to_file].  [file] is the text of [saved_jobs.json], or [None]
    when [os.path.exists] is false; the result is the file afterwards and
    the value returned.  Whatever is raised inside the [try], a failing
    read, a text that is not JSON, [append] on a value that is not a list, a
    failing write, ends in the [except] clause, which returns [False]. *)
Definition save_job_to_file (d : disk) (entities : pydict) (file : option string)
    : option string * bool :=
  let loaded :=
    match file with
    | Some text => if read_raises d then None else json_loads text
    | None => Some (JArr [])
    end in
  match loaded with
  | Some (JArr jobs) =>
      let jobs := (jobs ++ [JObj entities])%list in
      match write_answer d with
      | WriteOk => (Some (json_dumps (JArr jobs)), true)
      | OpenRaises => (file, false)
      | DumpRaises left_behind => (Some left_behind, false)
      end
  | _ => (file, false)
  end.

(** Calls of [save_job_to_file] one after the other on a disk that works,
    as the draft branch of [handle_interaction] makes them: the file
    afterwards and the values returned. *)
Definition save_jobs (drafts : list pydict) (file : option string)
    : option string * list bool :=
  foldl (λ acc entities,
           let saved := save_job_to_file (Disk false WriteOk) entities (fst acc) in
           (fst saved, (snd acc ++ [snd saved])%list))
        (file, []) drafts.

End Drafts.

(** [len(s)]: the characters of a UTF-8 text are its bytes that are not
    continuation bytes (0x80 to 0xBF). *)
Definition is_continuation (c : ascii) : bool :=
  ((128 <=? byte_of c) && (byte_of c <=? 191))%N.

Fixpoint py_len (s : string) : nat :=
  match s with
  | EmptyString => 0%nat
  | String c rest => if is_continuation c then py_len rest else S (py_len rest)
  end.

(** [s[:n]]: the first [n] characters, each with its continuation bytes. *)
Fixpoint take_chars (n : nat) (s : string) : string :=
  match s with
  | EmptyString => EmptyString
  | String c rest =>
      if is_continuation c then String c (take_chars n rest)
      else
        match n with
        | O => EmptyString
        | S n' => String c (take_chars n' rest)
        end
  end.

(** [s.lstrip()], with the whitespace of [blank]. *)
Fixpoint lstrip (s : string) : string :=
  match s with
  | EmptyString => EmptyString
  | String c rest =>
      if ascii_space c then lstrip rest
      else
        match rest with
        | String c2 rest2 =>
            if ((byte_of c =? 194) && ((byte_of c2 =? 133) || (byte_of c2 =? 160)))%N
            then lstrip rest2
            else
              match rest2 with
              | String c3 rest3 =>
                  let b1 := byte_of c in
                  let b2 := byte_of c2 in
                  let b3 := byte_of c3 in
                  if ((b1 =? 225) && (b2 =? 154) && (b3 =? 128)
                      || (b1 =? 226) && (b2 =? 128)
                         && ((128 <=? b3) && (b3 <=? 138)
                             || (b3 =? 168) || (b3 =? 169) || (b3 =? 175))
                      || (b1 =? 226) && (b2 =? 129) && (b3 =? 159)
                      || (b1 =? 227) && (b2 =? 128) && (b3 =? 128))%N
                  then lstrip rest3
                  else s
              | EmptyString => s
              end
        | EmptyString => s
        end
  end.

(** [s.rstrip()]: the text up to the point from which only whitespace
    follows. *)
Fixpoint rstrip (s : string) : string :=
  if blank s then EmptyString
  else
    match s with
    | EmptyString => EmptyString
    | String c rest => String c (rstrip rest)
    end.

(** [s.strip()] *)
Definition py_strip (s : string) : string := rstrip (lstrip s).

(** [sep.join(parts)] *)
Fixpoint py_join (sep : string) (parts : list string) : string :=
  match parts with
  | [] => ""
  | [x] => x
  | x :: rest => x +:+ sep +:+ py_join sep rest
  end.

(** ** vertex_search_rag.py *)

(** Where in the [try] block an exception is raised: while the client
    options, the client, the serving path or the request are built, which
    is before [client.search] is called, or by [client.search(request)]
    and the reading of its results. *)
Inductive search_stage : Type :=
| BeforeSearch
| AtSearch.

(** What the [try] block comes to: the [derived_struct_data] of the
    documents found, a [DefaultCredentialsError], or another exception,
    each exception with the place where it is raised. *)
Inductive search_outcome : Type :=
| SearchResults (documents : list pydict)
| CredentialsFail (stage : search_stage)
| SearchRaises (stage : search_stage).

(** Whether [client.search(request)] is called. *)
Definition search_called (answer : search_outcome) : bool :=
  match answer with
  | SearchResults _ => true
  | CredentialsFail AtSearch | SearchRaises AtSearch => true
  | CredentialsFail BeforeSearch | SearchRaises BeforeSearch => false
  end.

Record search_request := SearchRequest {
  sr_api_endpoint : string;
  sr_project : string;
  sr_location : string;
  sr_data_store : string;
  sr_serving_config : string;
  sr_query : string;
  sr_page_size : Z
}.

(** [v or ""] *)
Definition or_empty (v : json) : json := if truthy v then v else JStr "".

Section Rag.

Variable py_repr : json → string.

(** The part of the result that one document gives, if its content is
    truthy. *)
Definition formatted_part (doc_data : pydict) : option string :=
  let content := or_empty (dict_get "content" doc_data) in
  let title := or_empty (dict_get "title" doc_data) in
  let url := or_empty (dict_get "url" doc_data) in
  if truthy content then
    Some ("--- Retrieved Document ---" +:+ nl
            +:+ "Title: " +:+ py_str py_repr title +:+ nl
            +:+ "URL: " +:+ py_str py_repr url +:+ nl
            +:+ "Content: " +:+ py_str py_repr content +:+ nl)
  else None.

(** [perform_vertex_ai_search_rag]: the request given to [client.search],
    if the call is reached, and the text returned.  Both [except] clauses
    return the empty string. *)
Definition perform_vertex_ai_search_rag (environ : string → option string)
    (answer : search_outcome) (query_text : string) : option search_request * string :=
  let project_id := environ "GOOGLE_CLOUD_PROJECT_ID" in
  let data_store_id := environ "GOOGLE_CLOUD_DATA_STORE_ID" in
  let location := "global" in
  if negb (env_truthy project_id) || negb (env_truthy data_store_id) then (None, "")
  else
    let request :=
      {| sr_api_endpoint := location +:+ "-discoveryengine.googleapis.com";
         sr_project := default "" project_id;
         sr_location := location;
         sr_data_store := default "" data_store_id;
         sr_serving_config := "default_config";
         sr_query := query_text;
         sr_page_size := 3 |} in
    match answer with
    | SearchResults documents =>
        let retrieved_content_parts := omap formatted_part documents in
        match retrieved_content_parts with
        | [] => (Some request, "")
        | _ :: _ => (Some request, py_join (nl +:+ nl) retrieved_content_parts)
        end
    | CredentialsFail BeforeSearch => (None, "")
    | CredentialsFail AtSearch => (Some request, "")
    | SearchRaises BeforeSearch => (None, "")
    | SearchRaises AtSearch => (Some request, "")
    end.

End Rag.

(** ** job_description_agent.py *)

(** What opening and reading a file comes to: its text, a
    [FileNotFoundError], or another exception. *)
Inductive read_outcome : Type :=
| FileText (text : string)
| FileNotFound
| ReadFails.

Record knowledge := Knowledge {
  tech_stack : string;
  role_levels : string;
  job_template : string
}.

Definition default_knowledge : knowledge :=
  {| tech_stack := "Python, Django, PostgreSQL, React, TypeScript, AWS";
     role_levels := "Junior (0-2 years), Mid-level (2-5 years), Senior (5+ years)";
     job_template := "Standard job description template" |}.

(** [load_company_knowledge]: the three files are read in turn; the first
    [FileNotFoundError] replaces what has been read by the defaults, and any
    other exception leaves the function ([None]). *)
Definition load_company_knowledge (read : string → read_outcome) : option knowledge :=
  match read "gdg-cloud/tech_stack.txt" with
  | FileText stack =>
      match read "gdg-cloud/role_levels.txt" with
      | FileText levels =>
          match read "gdg-cloud/job_description_backend.txt" with
          | FileText template =>
              Some {| tech_stack := stack; role_levels := levels;
                      job_template := template |}
          | FileNotFound => Some default_knowledge
          | ReadFails => None
          end
      | FileNotFound => Some default_knowledge
      | ReadFails => None
      end
  | FileNotFound => Some default_knowledge
  | ReadFails => None
  end.

Section Generator.

Variable py_repr : json → string.

Local Abbreviation str := (py_str py_repr).

Definition generator_prompt (k : knowledge) (rag_context : string)
    (job_title experience skills job_type location : json) : string :=
  py_join nl
    [ "You are a professional job description writer. Create a LinkedIn job post based on the provided information.";
      "";
      "**COMPANY CONTEXT:**";
      "Tech Stack: " +:+ tech_stack k;
      "Role Levels: " +:+ role_levels k;
      "Job Template: " +:+ job_template k;
      "";
      "**RAG CONTEXT:**";
      (if negb (String.eqb rag_context "") then rag_context
       else "No additional context available.");
      "";
      "**JOB REQUIREMENTS:**";
      "- Title: " +:+ str job_title;
      "- Experience: " +:+ str experience;
      "- Skills: " +:+ str skills;
      "- Job Type: " +:+ str job_type;
      "- Location: " +:+ str location;
      "";
      "**INSTRUCTIONS:**";
      "1. Use ONLY the information provided above";
      "2. Do NOT add fictional company details, benefits, or requirements not mentioned";
      "3. Keep the tone professional and engaging";
      "4. Ensure the description is under 2500 characters";
      "5. Include relevant hashtags for LinkedIn";
      "6. Structure the post with clear sections";
      "";
      "**OUTPUT FORMAT:**";
      "Create a LinkedIn post with:";
      "- Engaging headline";
      "- Brief company intro (generic, don't make up company details)";
      "- Role description based on provided requirements";
      "- Required skills and experience";
      "- Job type and location";
      "- Call to action";
      "- Relevant hashtags";
      "";
      "**IMPORTANT:** Only use the information provided. Do not hallucinate company names, specific benefits, or requirements not mentioned in the input.";
      "" ].

Definition fallback_description
    (job_title experience skills job_type location : json) : string :=
  py_join nl
    [ "🚀 We're Hiring!";
      "";
      "📌 " +:+ str job_title;
      "📍 Location: " +:+ str location;
      "⏰ Type: " +:+ str job_type;
      "🧠 Experience: " +:+ str experience;
      "🛠 Skills: " +:+ str skills;
      "";
      "We're looking for a talented " +:+ str job_title
        +:+ " to join our team. If you have the required experience and skills, we'd love to hear from you!";
      "";
      "#Hiring #JobOpening #Careers" ].

(** The description made from the text of the model: stripped, and cut to
    2500 characters with three dots added when it is longer. *)
Definition cap_description (text : string) : string :=
  let description := py_strip text in
  if (2500 <? py_len description)%nat
  then take_chars 2500 description +:+ "..."
  else description.

(** What a call of [generate_job_description] does outside the process. *)
Record generation := Generation {
  gen_search : option search_request;
  gen_prompt : string;
  gen_description : string
}.

(** [generate_job_description].  [read] is the file system, [search] what
    the search client gives, [model] the text of the model's response or
    [None] when the call or the access to the text raises.  The result is
    [None] when the function itself raises, which it does only while
    loading the company knowledge. *)
Definition generate_job_description (read : string → read_outcome)
    (environ : string → option string) (search : search_outcome)
    (model : option string)
    (job_title experience skills job_type location : json) : option generation :=
  match load_company_knowledge read with
  | None => None
  | Some company_knowledge =>
      let search_query := str job_title +:+ " " +:+ str skills +:+ " " +:+ str experience in
      let rag := perform_vertex_ai_search_rag py_repr environ search search_query in
      let prompt :=
        generator_prompt company_knowledge (snd rag)
          job_title experience skills job_type location in
      Some {| gen_search := fst rag;
              gen_prompt := prompt;
              gen_description :=
                match model with
                | Some text => cap_description text
                | None =>
                    fallback_description job_title experience skills job_type location
                end |}
  end.

End Generator.

(** ** llm_agent.py *)

(** [s[n:]] where the first [n] characters are ASCII. *)
Fixpoint drop_bytes (n : nat) (s : string) : string :=
  match n, s with
  | O, _ => s
  | S n', String _ rest => drop_bytes n' rest
  | S _, EmptyString => EmptyString
  end.

(** [s.endswith(p)] *)
Definition ends_with (p s : string) : bool :=
  (String.length p <=? String.length s)%nat
  && String.eqb (drop_bytes (String.length s - String.length p) s) p.

(** [s[:-n]] where the last [n] characters are ASCII. *)
Definition drop_last (n : nat) (s : string) : string :=
  String.substring 0 (String.length s - n) s.

Definition double_quote : string := String "034"%char EmptyString.

Definition valid_titles : list string :=
  ["developer"; "engineer"; "programmer"; "architect"; "lead"; "manager";
   "frontend"; "backend"; "fullstack"; "full stack"; "ui"; "ux"; "designer";
   "devops"; "data"; "analyst"; "scientist"; "qa"; "tester"].

Definition valid_types : list string :=
  ["full-time"; "full time"; "part-time"; "part time"; "contract"; "freelance"; "remote"].

Definition hiring_keywords : list string :=
  ["hiring"; "hire"; "looking for"; "need"; "recruiting"; "job opening"].

Definition classifier_instruction : string :=
  py_join nl [
    "You are a precise hiring intent detection agent. Your task is to:";
    "";
    "1. **DETECT INTENT**: Determine if the message is a hiring request";
    "2. **EXTRACT ENTITIES**: Only extract the following entities if they are explicitly mentioned:";
    "   - job_title: The specific job role/title";
    "   - experience: Required experience level or years";
    "   - skills: Required technical skills or technologies";
    "   - job_type: Employment type (full-time, part-time, contract, etc.)";
    "   - location: Work location (remote, specific city, etc.)";
    "";
    "3. **VALIDATION RULES**:";
    "   - Only extract entities that are CLEARLY stated in the message";
    "   - If an entity is not explicitly mentioned, set it to null";
    "   - Do NOT infer or guess missing information";
    "   - Do NOT hallucinate or add information not present in the input";
    "";
    "4. **RESPONSE FORMAT**: Return ONLY valid JSON with this exact structure:";
    "{";
    "    " +:+ double_quote +:+ "intent" +:+ double_quote +:+ ": " +:+ double_quote +:+ "hiring_request" +:+ double_quote +:+ " or " +:+ double_quote +:+ "not_hiring" +:+ double_quote +:+ ",";
    "    " +:+ double_quote +:+ "entities" +:+ double_quote +:+ ": {";
    "        " +:+ double_quote +:+ "job_title" +:+ double_quote +:+ ": " +:+ double_quote +:+ "exact title mentioned" +:+ double_quote +:+ " or null,";
    "        " +:+ double_quote +:+ "experience" +:+ double_quote +:+ ": " +:+ double_quote +:+ "exact experience mentioned" +:+ double_quote +:+ " or null,";
    "        " +:+ double_quote +:+ "skills" +:+ double_quote +:+ ": " +:+ double_quote +:+ "exact skills mentioned" +:+ double_quote +:+ " or null,";
    "        " +:+ double_quote +:+ "job_type" +:+ double_quote +:+ ": " +:+ double_quote +:+ "exact job type mentioned" +:+ double_quote +:+ " or null,";
    "        " +:+ double_quote +:+ "location" +:+ double_quote +:+ ": " +:+ double_quote +:+ "exact location mentioned" +:+ double_quote +:+ " or null";
    "    }";
    "}";
    "";
    "**EXAMPLES**:";
    "Input: " +:+ double_quote +:+ "I need a Python developer with 3 years experience" +:+ double_quote;
    "Output: {";
    "    " +:+ double_quote +:+ "intent" +:+ double_quote +:+ ": " +:+ double_quote +:+ "hiring_request" +:+ double_quote +:+ ",";
    "    " +:+ double_quote +:+ "entities" +:+ double_quote +:+ ": {";
    "        " +:+ double_quote +:+ "job_title" +:+ double_quote +:+ ": " +:+ double_quote +:+ "Python developer" +:+ double_quote +:+ ",";
    "        " +:+ double_quote +:+ "experience" +:+ double_quote +:+ ": " +:+ double_quote +:+ "3 years" +:+ double_quote +:+ ",";
    "        " +:+ double_quote +:+ "skills" +:+ double_quote +:+ ": null,";
    "        " +:+ double_quote +:+ "job_type" +:+ double_quote +:+ ": null,";
    "        " +:+ double_quote +:+ "location" +:+ double_quote +:+ ": null";
    "    }";
    "}";
    "";
    "Input: " +:+ double_quote +:+ "Hello, how are you?" +:+ double_quote;
    "Output: {";
    "    " +:+ double_quote +:+ "intent" +:+ double_quote +:+ ": " +:+ double_quote +:+ "not_hiring" +:+ double_quote +:+ ",";
    "    " +:+ double_quote +:+ "entities" +:+ double_quote +:+ ": {";
    "        " +:+ double_quote +:+ "job_title" +:+ double_quote +:+ ": null,";
    "        " +:+ double_quote +:+ "experience" +:+ double_quote +:+ ": null,";
    "        " +:+ double_quote +:+ "skills" +:+ double_quote +:+ ": null,";
    "        " +:+ double_quote +:+ "job_type" +:+ double_quote +:+ ": null,";
    "        " +:+ double_quote +:+ "location" +:+ double_quote +:+ ": null";
    "    }";
    "}";
    ""
  ].

(** What [model.generate_content] and the access to [response.text] come
    to: a text, or an exception with its [str(e)]. *)
Inductive model_outcome : Type :=
| ModelText (text : string)
| ModelRaises (message : string).

Record classification := Classification {
  cls_search : option search_request;
  cls_prompt : string;
  cls_output : string
}.

Section Classifier.

Variable py_repr : json → string.
(** [str.lower] *)
Variable py_lower : string → string.
(** [re.search] of the pattern for experience in a text *)
Variable experience_pattern : string → bool.
Variable json_loads : string → option json.
(** [json.dumps] with the given [indent] *)
Variable json_dumps : option Z → json → string.

(** One field of [validate_entities]: a falsy value gives [None]; a string
    gives its stripped text when [keep] accepts it, else [None]; another
    truthy value has no [strip] and the function raises. *)
Definition validated_field (v : json) (keep : string → bool) : option json :=
  if truthy v then
    match v with
    | JStr s => Some (if keep s then JStr (py_strip s) else JNull)
    | _ => None
    end
  else Some JNull.

(** [validate_entities]; [None] when it raises. *)
Definition validate_entities (entities : pydict) : option pydict :=
  job_title ← validated_field (dict_get "job_title" entities)
    (λ s, let title := py_lower (py_strip s) in
          existsb (λ valid, is_infix valid title) valid_titles);
  experience ← validated_field (dict_get "experience" entities)
    (λ s, let exp := py_lower (py_strip s) in experience_pattern exp);
  skills ← validated_field (dict_get "skills" entities)
    (λ s, let skills := py_strip s in
          (3 <? py_len skills)%nat && negb (starts_with "i need" (py_lower skills)));
  job_type ← validated_field (dict_get "job_type" entities)
    (λ s, let job_type := py_lower (py_strip s) in
          existsb (λ valid, is_infix valid job_type) valid_types);
  location ← validated_field (dict_get "location" entities)
    (λ s, let location := py_strip s in
          (2 <? py_len location)%nat
          && negb (existsb (λ entity, is_infix entity (py_lower location))
                     ["skills:"; "experience:"; "job_type:"]));
  Some [("job_title", job_title); ("experience", experience); ("skills", skills);
        ("job_type", job_type); ("location", location)].

(** [simple_hiring_detection] *)
Definition simple_hiring_detection (text : string) : bool :=
  let text_lower := py_lower text in
  existsb (λ keyword, is_infix keyword text_lower) hiring_keywords.

Definition intent_with_nulls (intent : string) : json :=
  JObj [("intent", JStr intent); ("entities", JObj all_null)].

(** The markdown fence taken off the model's text. *)
Definition cleaned_response (response_text : string) : string :=
  let cleaned := py_strip response_text in
  let cleaned := if starts_with "```json" cleaned then drop_bytes 7 cleaned else cleaned in
  let cleaned := if starts_with "```" cleaned then drop_bytes 3 cleaned else cleaned in
  let cleaned := if ends_with "```" cleaned then drop_last 3 cleaned else cleaned in
  py_strip cleaned.

Definition classifier_prompt (k : knowledge) (rag_context query context : string) : string :=
  let context_parts :=
    ((if negb (String.eqb context "") then ["Previous Context: " +:+ context] else [])
     ++ (if negb (String.eqb rag_context "") then ["Company Knowledge: " +:+ rag_context]
         else [])
     ++ ["Tech Stack: " +:+ tech_stack k; "Role Levels: " +:+ role_levels k])%list in
  let full_context := py_join (nl +:+ nl) context_parts in
  py_join nl
    [ "**INSTRUCTION:**";
      classifier_instruction;
      "";
      "**COMPANY CONTEXT:**";
      full_context;
      "";
      "**USER MESSAGE:**";
      query;
      "";
      "**RESPONSE (JSON ONLY):**";
      "" ].

(** The end of the [except Exception] clause: the intent is guessed from
    the keywords in the query. *)
Definition keyword_answer (query : string) : string :=
  json_dumps None
    (intent_with_nulls
       (if simple_hiring_detection query then "hiring_request" else "not_hiring")).

(** The [except Exception] clause of [process_with_adk_agent] for an
    exception whose [str(e)] is [message]. *)
Definition on_exception (message query : string) : string :=
  if is_infix "quota" (py_lower message) || is_infix "429" message then
    json_dumps None (intent_with_nulls "quota_exceeded")
  else keyword_answer query.

(** [process_with_adk_agent].  The result is [None] when the function
    raises, which it does only while loading the company knowledge.  A
    model text that is not JSON gives the [not_hiring] answer.  The other
    exceptions of the inner [try] are raised by the body itself, on a value
    that is not an object or lacks a field and on entities that
    [validate_entities] cannot take: a [ValueError], [TypeError] or
    [AttributeError] whose message names no quota and holds no 429, so that
    the outer [except] clause goes on to the keywords. *)
Definition process_with_adk_agent (read : string → read_outcome)
    (environ : string → option string) (search : search_outcome)
    (model : model_outcome) (query context : string) : option classification :=
  match load_company_knowledge read with
  | None => None
  | Some company_knowledge =>
      let rag := perform_vertex_ai_search_rag py_repr environ search query in
      let output :=
        match model with
        | ModelRaises message => on_exception message query
        | ModelText text =>
            let response_text := py_strip text in
            match json_loads (cleaned_response response_text) with
            | None => json_dumps None (intent_with_nulls "not_hiring")
            | Some (JObj data) =>
                if negb (dict_mem "intent" data) || negb (dict_mem "entities" data)
                then keyword_answer query
                else if intent_is "hiring_request" data then
                  match dict_get "entities" data with
                  | JObj entities =>
                      match validate_entities entities with
                      | Some validated =>
                          json_dumps (Some 2)
                            (JObj (dict_set "entities" (JObj validated) data))
                      | None => keyword_answer query
                      end
                  | _ => keyword_answer query
                  end
                else json_dumps (Some 2) (JObj data)
            | Some _ => keyword_answer query
            end
        end in
      Some {| cls_search := fst rag;
              cls_prompt := classifier_prompt company_knowledge (snd rag) query context;
              cls_output := output |}
  end.

End Classifier.

(** ** Facts about dicts *)

Lemma dict_mem_lookup (k : string) (d : pydict) :
  dict_mem k d = true ↔ is_Some (dict_lookup k d).
Proof.
  induction d as [|[k' v] d IH]; simpl.
  - split; [discriminate | intros [? ?]; discriminate].
  - destruct (String.eqb k k'); [split; eauto | exact IH].
Qed.

Lemma dict_mem_false (k : string) (d : pydict) :
  dict_mem k d = false ↔ dict_lookup k d = None.
Proof.
  induction d as [|[k' v] d IH]; simpl; [done|].
  destruct (String.eqb k k'); [split; discriminate | exact IH].
Qed.

Lemma dict_lookup_set_eq (k : string) (v : json) (d : pydict) :
  dict_lookup k (dict_set k v d) = Some v.
Proof.
  induction d as [|[k' v'] d IH]; simpl.
  - by rewrite String.eqb_refl.
  - destruct (String.eqb k k') eqn:E; simpl; rewrite E; done.
Qed.

Lemma dict_lookup_set_ne (k k0 : string) (v : json) (d : pydict) :
  k ≠ k0 → dict_lookup k (dict_set k0 v d) = dict_lookup k d.
Proof.
  intros Hne. induction d as [|[k' v'] d IH]; simpl.
  - by apply String.eqb_neq in Hne as ->.
  - destruct (String.eqb k0 k') eqn:E; simpl.
    + apply String.eqb_eq in E as <-. by apply String.eqb_neq in Hne as ->.
    + destruct (String.eqb k k'); done.
Qed.

(** What the loop over a list of keys leaves under a key. *)
Lemma lookup_fill_keys (keys : list string) (d : pydict) (k : string) :
  dict_lookup k
    (foldl (λ d entity, if dict_mem entity d then d else dict_set entity JNull d) d keys)
  = match dict_lookup k d with
    | Some v => Some v
    | None => if existsb (String.eqb k) keys then Some JNull else None
    end.
Proof.
  revert d. induction keys as [|e keys IH]; intros d; simpl.
  - by destruct (dict_lookup k d).
  - rewrite IH. destruct (dict_mem e d) eqn:Hm.
    + destruct (dict_lookup k d) eqn:Hk; [done|].
      destruct (String.eqb k e) eqn:E; [|done].
      apply String.eqb_eq in E as ->.
      apply dict_mem_lookup in Hm as [? Hm]. congruence.
    + destruct (String.eqb k e) eqn:E.
      * apply String.eqb_eq in E as ->. rewrite dict_lookup_set_eq.
        apply dict_mem_false in Hm. by rewrite Hm.
      * apply String.eqb_neq in E. rewrite dict_lookup_set_ne by done.
        by destruct (dict_lookup k d).
Qed.

Lemma lookup_fill_required (entities : pydict) (k : string) :
  dict_lookup k (fill_required entities)
  = match dict_lookup k entities with
    | Some v => Some v
    | None => if existsb (String.eqb k) required_entities then Some JNull else None
    end.
Proof. apply lookup_fill_keys. Qed.

Lemma intent_is_exclusive (a b : string) (data : pydict) :
  a ≠ b → intent_is a data = true → intent_is b data = false.
Proof.
  unfold intent_is. destruct (dict_get "intent" data); try done.
  intros Hne Ha. apply String.eqb_eq in Ha as ->. by apply String.eqb_neq.
Qed.

Lemma text_in_spec (text : string) (l : list string) :
  text_in text l = true ↔ In text l.
Proof.
  unfold text_in. rewrite existsb_exists. split.
  - intros (x & Hx & E). by apply String.eqb_eq in E as ->.
  - intros H. exists text. by rewrite String.eqb_refl.
Qed.

(** ** The validator *)

Section Validator.

Variable json_loads : string → option json.

(** C2. A malformed classifier output (invalid JSON, a top level that is
    not an object, no [intent] field, no [entities] field, or an
    [entities] field that is not an object) never makes the validator
    raise: the validator is a total function, and on such an output it
    returns exactly the dict with intent [not_hiring] and the five
    entities set to null. *)
Theorem validate_malformed_falls_back (llm_response : string) :
  malformed (json_loads llm_response) = true →
  validate_llm_response json_loads llm_response
  = [("intent", JStr "not_hiring");
     ("entities", JObj [("job_title", JNull); ("experience", JNull);
                        ("skills", JNull); ("job_type", JNull);
                        ("location", JNull)])].
Proof.
  unfold validate_llm_response, malformed.
  destruct (json_loads llm_response) as [[| | | | | |data]|]; try done.
  destruct (dict_mem "intent" data); simpl; [|done].
  destruct (dict_lookup "entities" data) as [[]|] eqn:He; try done.
  assert (dict_mem "entities" data = true) as ->; [|done].
  apply dict_mem_lookup. by rewrite He.
Qed.

(** C9, as the code has it. For an output the validator accepts (it
    parses to an object with an [intent] field and an [entities] object),
    the returned entities hold all five recognized keys; a key the
    classifier left out is null; a value the classifier gave is returned
    as it is, whatever it is (an empty string and a non-string included);
    the other fields of the output are untouched. *)
Theorem validate_fills_missing_keys_only (llm_response : string) (data entities : pydict) :
  json_loads llm_response = Some (JObj data) →
  dict_mem "intent" data = true →
  dict_lookup "entities" data = Some (JObj entities) →
  ∃ validated : pydict,
    dict_lookup "entities" (validate_llm_response json_loads llm_response)
      = Some (JObj validated)
    ∧ (∀ k, In k required_entities → is_Some (dict_lookup k validated))
    ∧ (∀ k, In k required_entities → dict_lookup k entities = None →
            dict_lookup k validated = Some JNull)
    ∧ (∀ k v, dict_lookup k entities = Some v → dict_lookup k validated = Some v)
    ∧ (∀ k, k ≠ "entities" →
            dict_lookup k (validate_llm_response json_loads llm_response)
            = dict_lookup k data).
Proof.
  intros Hp Hi He. unfold validate_llm_response. rewrite Hp, Hi, He. simpl.
  exists (fill_required entities).
  split; [apply dict_lookup_set_eq|].
  assert (Hreq : ∀ k, In k required_entities →
                      existsb (String.eqb k) required_entities = true).
  { intros k Hk. apply existsb_exists. exists k. by rewrite String.eqb_refl. }
  repeat split.
  - intros k Hk. rewrite lookup_fill_required, (Hreq k Hk).
    destruct (dict_lookup k entities); eauto.
  - intros k Hk Hn. by rewrite lookup_fill_required, Hn, (Hreq k Hk).
  - intros k v Hk. by rewrite lookup_fill_required, Hk.
  - intros k Hk. by apply dict_lookup_set_ne.
Qed.

End Validator.

(** C2 at a sample: an [entities] field that is a string. *)
Lemma validate_malformed_falls_back_witness :
  malformed (Samples.loads Samples.entities_not_object_text) = true
  ∧ validate_llm_response Samples.loads Samples.entities_not_object_text
    = fallback_response.
Proof.
  split; [reflexivity|].
  apply (validate_malformed_falls_back Samples.loads Samples.entities_not_object_text).
  reflexivity.
Defined.

(** C9 as stated fails: the validator accepts an output whose [job_title]
    is the empty string and whose [experience] is a number, and returns
    both values as they are instead of null. *)
Lemma validate_keeps_empty_string :
  malformed (Samples.loads Samples.empty_title_text) = false
  ∧ dict_lookup "entities"
      (validate_llm_response Samples.loads Samples.empty_title_text)
    = Some (JObj [("job_title", JStr ""); ("experience", JInt 3);
                  ("skills", JNull); ("job_type", JNull); ("location", JNull)]).
Proof. split; reflexivity. Qed.

(** C9 at a sample: the classifier gives a job title and nothing else. *)
Lemma validate_fills_missing_keys_only_witness :
  ∃ validated : pydict,
    dict_lookup "entities"
      (validate_llm_response Samples.loads Samples.title_only_text)
      = Some (JObj validated)
    ∧ (∀ k, In k required_entities → is_Some (dict_lookup k validated))
    ∧ (∀ k, In k required_entities →
            dict_lookup k [("job_title", JStr "Backend Developer")] = None →
            dict_lookup k validated = Some JNull)
    ∧ (∀ k v, dict_lookup k [("job_title", JStr "Backend Developer")] = Some v →
              dict_lookup k validated = Some v)
    ∧ (∀ k, k ≠ "entities" →
            dict_lookup k (validate_llm_response Samples.loads Samples.title_only_text)
            = dict_lookup k [("intent", JStr "hiring_request");
                             ("entities", JObj [("job_title", JStr "Backend Developer")])]).
Proof.
  apply (validate_fills_missing_keys_only Samples.loads Samples.title_only_text
           [("intent", JStr "hiring_request");
            ("entities", JObj [("job_title", JStr "Backend Developer")])]
           [("job_title", JStr "Backend Developer")]); reflexivity.
Defined.

(** ** One turn of [process_conversation] *)

Lemma is_none_spec (v : json) : is_none v = true ↔ v = JNull.
Proof. destruct v; simpl; split; congruence. Qed.

Lemma find_first {A : Type} (f : A → bool) (before after : list A) (x : A) :
  (∀ y, In y before → f y = false) → f x = true →
  List.find f (before ++ x :: after)%list = Some x.
Proof.
  intros Hb Hx. induction before as [|y before IH]; simpl.
  - by rewrite Hx.
  - rewrite (Hb y) by (by left). apply IH. intros z Hz. apply Hb. by right.
Qed.

Lemma find_nowhere {A : Type} (f : A → bool) (l : list A) :
  (∀ y, In y l → f y = false) → List.find f l = None.
Proof.
  intros Hl. destruct (List.find f l) as [x|] eqn:E; [|done].
  apply List.find_some in E as [Hin Hx]. rewrite (Hl x Hin) in Hx. done.
Qed.

Lemma first_missing_at (entities : pydict) (before after : list string) (m : string) :
  follow_up_order = (before ++ m :: after)%list →
  (∀ k, In k before → dict_get k entities ≠ JNull) →
  dict_get m entities = JNull →
  first_missing_entity entities = Some m.
Proof.
  intros Ho Hb Hm. unfold first_missing_entity. rewrite Ho.
  apply find_first.
  - intros k Hk. specialize (Hb k Hk).
    destruct (is_none (dict_get k entities)) eqn:E; [|done].
    by apply is_none_spec in E.
  - by apply is_none_spec.
Qed.

Lemma first_missing_none (entities : pydict) :
  (∀ k, In k follow_up_order → dict_get k entities ≠ JNull) →
  first_missing_entity entities = None.
Proof.
  intros Hall. apply find_nowhere. intros k Hk. specialize (Hall k Hk).
  destruct (is_none (dict_get k entities)) eqn:E; [|done].
  by apply is_none_spec in E.
Qed.

Lemma question_for_known (m : string) :
  In m follow_up_order → is_Some (question_for m questions).
Proof.
  intros [<-|[<-|[<-|[<-|[<-|[]]]]]]; simpl; eauto.
Qed.

Lemma not_blank_truthy (s : string) : blank s = false → truthy (JStr s) = true.
Proof. by destruct s. Qed.

Lemma dict_get_obj_mem (k : string) (d e : pydict) :
  dict_get k d = JObj e → dict_mem k d = true.
Proof.
  unfold dict_get. intros H. apply dict_mem_lookup.
  destruct (dict_lookup k d); [eauto | discriminate].
Qed.

Section Turn.

Variable json_loads : string → option json.
Variable py_repr : json → string.

(** The start of a turn on a classifier answer that validates to a hiring
    request with entities [entities]: the classifier has been called on the
    joined history and the engine is at the test on
    [first_missing_entity]. *)
Lemma hiring_turn (r : replies) (channel user : string) (w : world)
    (state : conversation) (llm_response : string) (entities : pydict) :
  conversation_states w !! channel = Some state →
  messages state ≠ [] →
  llm_reply r = Some llm_response →
  intent_is "hiring_request" (validate_llm_response json_loads llm_response) = true →
  dict_get "entities" (validate_llm_response json_loads llm_response) = JObj entities →
  process_conversation json_loads py_repr r channel user w
  = let w := emit (Classify (join_lines (messages state))) w in
    match first_missing_entity entities with
    | Some missing =>
        match question_for missing questions with
        | Some question_to_ask => (chat_postMessage channel question_to_ask w, Returned)
        | None => (w, Raised KeyError)
        end
    | None =>
        let job_title := dict_get "job_title" entities in
        if negb (truthy job_title) then
          (chat_postMessage channel title_clarification w, Returned)
        else
          match job_title with
          | JStr s =>
              if blank s then (chat_postMessage channel title_clarification w, Returned)
              else finalize py_repr r channel state entities w
          | _ => (w, Raised AttributeError)
          end
    end.
Proof.
  intros Hs Hm Hl Hi He. unfold process_conversation. rewrite Hs.
  destruct (messages state) as [|m0 ms] eqn:Hms; [done|].
  rewrite Hl. cbv zeta.
  rewrite (intent_is_exclusive "hiring_request" "quota_exceeded" _ ltac:(done) Hi).
  rewrite Hi, (dict_get_obj_mem _ _ _ He), He. done.
Qed.

End Turn.

Section HiringRequest.

Variable json_loads : string → option json.
Variable py_repr : json → string.

(** C1, as the code has it. On a conversation with history whose classifier
    answer validates to a hiring request with entities [entities], after the
    classifier has been called on the joined history:
    - when some attribute is null, the engine sends the fixed question of
      the first null attribute in the order job_title, experience, skills,
      job_type, location, and the store is left as it was;
    - when no attribute is null and job_title is a string that is not
      blank, the engine sends the confirmation text and the generation
      notice; if the call of the description generator returns, it then
      sends the description with the four buttons post, draft, edit, reject
      and records the entities as [final_entities]; if the entities do not
      bind to the generator's parameters or the generator raises, it sends
      the generation error instead and the store is left as it was;
    - when no attribute is null and job_title is a blank string, the engine
      asks for the job title and the store is left as it was. *)
Theorem hiring_request_turn (r : replies) (channel user : string) (w : world)
    (state : conversation) (llm_response : string) (entities : pydict) :
  conversation_states w !! channel = Some state →
  messages state ≠ [] →
  llm_reply r = Some llm_response →
  intent_is "hiring_request" (validate_llm_response json_loads llm_response) = true →
  dict_get "entities" (validate_llm_response json_loads llm_response) = JObj entities →
  let asked := emit (Classify (join_lines (messages state))) w in
  let result := process_conversation json_loads py_repr r channel user w in
  let confirmation :=
    if default false (editing state)
    then edit_confirmation py_repr entities (default [] (original_entities state))
    else plain_confirmation py_repr entities in
  let announced :=
    chat_postMessage channel generating_notice
      (chat_postMessage channel confirmation asked) in
  (∀ before m after,
      follow_up_order = (before ++ m :: after)%list →
      (∀ k, In k before → dict_get k entities ≠ JNull) →
      dict_get m entities = JNull →
      ∃ question,
        question_for m questions = Some question
        ∧ result = (chat_postMessage channel question asked, Returned)
        ∧ conversation_states (fst result) = conversation_states w)
  ∧ (∀ s,
      (∀ k, In k follow_up_order → dict_get k entities ≠ JNull) →
      dict_get "job_title" entities = JStr s →
      blank s = false →
      (∀ description,
          kwargs_bind entities = true → jd_reply r = Some description →
          result
          = (store_final_entities channel entities
               (emit (PostBlocks channel
                        [SectionBlock (remove_double_star description);
                         ActionsBlock "jd_approval_buttons" approval_buttons]
                        "Job description generated.")
                  (emit (GenerateJD entities) announced)),
             Returned)
          ∧ conversation_states (fst result) !! channel
            = Some (with_final_entities entities state))
      ∧ (kwargs_bind entities = true → jd_reply r = None →
          result = (chat_postMessage channel generation_error
                      (emit (GenerateJD entities) announced), Returned)
          ∧ conversation_states (fst result) = conversation_states w)
      ∧ (kwargs_bind entities = false →
          result = (chat_postMessage channel generation_error announced, Returned)
          ∧ conversation_states (fst result) = conversation_states w))
  ∧ (∀ s,
      (∀ k, In k follow_up_order → dict_get k entities ≠ JNull) →
      dict_get "job_title" entities = JStr s →
      blank s = true →
      result = (chat_postMessage channel title_clarification asked, Returned)
      ∧ conversation_states (fst result) = conversation_states w)
  ∧ map btn_action_id approval_buttons = ["jd_post_yes"; "jd_draft"; "jd_edit"; "jd_no"].
Proof.
  intros Hs Hm Hl Hi He asked result confirmation announced.
  pose proof (hiring_turn json_loads py_repr r channel user w state
                llm_response entities Hs Hm Hl Hi He) as Hturn.
  fold result in Hturn. cbv zeta in Hturn. fold asked in Hturn.
  split; [|split; [|split; [|done]]].
  - intros before m after Ho Hb Hn.
    rewrite (first_missing_at entities before after m Ho Hb Hn) in Hturn.
    destruct (question_for_known m) as [question Hq].
    { rewrite Ho. apply in_or_app. right. by left. }
    rewrite Hq in Hturn. exists question. by rewrite Hturn.
  - intros s Hall Ht Hb.
    rewrite (first_missing_none entities Hall), Ht, (not_blank_truthy s Hb), Hb in Hturn.
    simpl in Hturn. unfold finalize in Hturn. cbv zeta in Hturn.
    fold confirmation in Hturn. fold announced in Hturn.
    split; [|split].
    + intros description Hk Hj. rewrite Hk, Hj in Hturn. rewrite Hturn.
      split; [done|]. simpl. by rewrite lookup_alter_eq, Hs.
    + intros Hk Hj. rewrite Hk, Hj in Hturn. by rewrite Hturn.
    + intros Hk. rewrite Hk in Hturn. by rewrite Hturn.
  - intros s Hall Ht Hb.
    rewrite (first_missing_none entities Hall), Ht in Hturn.
    destruct (negb (truthy (JStr s))); [by rewrite Hturn|].
    rewrite Hb in Hturn. by rewrite Hturn.
Qed.

End HiringRequest.

(** ** What a turn can change *)

Ltac trace_tail :=
  simpl; rewrite <- ?app_assoc; simpl; eexists; reflexivity.

Section Frame.

Variable json_loads : string → option json.
Variable py_repr : json → string.

(** A turn never touches [recently_completed], only adds to the trace, and
    leaves the store as it was or assigns [final_entities] of the channel
    with the entities of this turn's classifier answer. *)
Lemma process_conversation_frame (r : replies) (channel user : string) (w : world) :
  let w' := fst (process_conversation json_loads py_repr r channel user w) in
  recently_completed w' = recently_completed w
  ∧ (∃ rest, trace w' = (trace w ++ rest)%list)
  ∧ (conversation_states w' = conversation_states w
     ∨ ∃ llm_response entities,
         llm_reply r = Some llm_response
         ∧ dict_get "entities" (validate_llm_response json_loads llm_response)
           = JObj entities
         ∧ conversation_states w'
           = alter (with_final_entities entities) channel (conversation_states w)).
Proof.
  unfold process_conversation, finalize.
  destruct (conversation_states w !! channel) as [state|];
    [|simpl; split; [done|split; [by exists []; rewrite app_nil_r|by left]]].
  destruct (messages state) as [|m0 ms];
    [simpl; split; [done|split; [by exists []; rewrite app_nil_r|by left]]|].
  destruct (llm_reply r) as [llm_response|]; cbv zeta;
    [|split; [done|split; [trace_tail|by left]]].
  repeat case_match; (split; [done|split; [trace_tail|]]);
    try (by left).
  all: right; exists llm_response; eexists; split; [done|]; split; [eassumption|done].
Qed.

(** With a history, the first thing a turn does is to call the classifier
    on the history joined by line feeds. *)
Lemma process_conversation_classifies (r : replies) (channel user : string)
    (w : world) (state : conversation) :
  conversation_states w !! channel = Some state →
  messages state ≠ [] →
  ∃ rest,
    trace (fst (process_conversation json_loads py_repr r channel user w))
    = (trace w ++ Classify (join_lines (messages state)) :: rest)%list.
Proof.
  intros Hs Hm. unfold process_conversation, finalize. rewrite Hs.
  destruct (messages state) as [|m0 ms]; [done|].
  destruct (llm_reply r) as [llm_response|]; cbv zeta; [|trace_tail].
  repeat case_match; trace_tail.
Qed.

End Frame.

(** ** Inbound messages *)

Section Messages.

Variable json_loads : string → option json.
Variable py_repr : json → string.
Variable bot_user_id : string.

Local Abbreviation on_message := (process_slack_events json_loads py_repr bot_user_id).

Lemma guard_passes (event : message_event) :
  ev_user event ≠ bot_user_id → ev_subtype event = None →
  String.eqb (ev_user event) bot_user_id || bool_decide (is_Some (ev_subtype event))
  = false.
Proof.
  intros Hb Hs. rewrite Hs. by apply String.eqb_neq in Hb as ->.
Qed.

(** The branch that only logs: the text of the owner's message is already
    in the history. *)
Lemma known_text_skipped (r : replies) (event : message_event)
    (w : world) (state : conversation) :
  conversation_states w !! ev_channel event = Some state →
  ev_user event = user_id state →
  In (ev_text event) (messages state) →
  on_message r (EventsApiMessage event) w = w.
Proof.
  intros Hs Hu Hin. unfold process_slack_events.
  destruct (_ || _); [done|].
  rewrite Hs, Hu, String.eqb_refl.
  apply text_in_spec in Hin as ->. done.
Qed.

(** C10. A message of the stored owner whose text is equal to any message
    of the history, the last one or an earlier one, changes nothing: the
    store, the completed channels and the trace are as before, so no
    classifier call is made and nothing is sent.  The same holds for the
    pair of listeners the request goes through. *)
Theorem repeated_text_is_ignored (r : replies) (event : message_event)
    (w : world) (state : conversation) :
  conversation_states w !! ev_channel event = Some state →
  ev_user event = user_id state →
  In (ev_text event) (messages state) →
  on_message r (EventsApiMessage event) w = w
  ∧ dispatch json_loads py_repr bot_user_id r (EventsApiMessage event) w = w.
Proof.
  intros Hs Hu Hin.
  pose proof (known_text_skipped r event w state Hs Hu Hin) as Hw.
  split; [exact Hw|]. unfold dispatch. by rewrite Hw.
Qed.

(** C4, as the code has it. For a plain message (not from the bot, without
    subtype) of the stored owner: when its text is in no message of the
    history, it is appended to the history and the classifier is called on
    the whole history joined by line feeds; when its text is equal to some
    message of the history, the last one or an earlier one, nothing
    happens. *)
Theorem owner_message_turn (r : replies) (event : message_event)
    (w : world) (state : conversation) :
  conversation_states w !! ev_channel event = Some state →
  ev_user event = user_id state →
  ev_user event ≠ bot_user_id →
  ev_subtype event = None →
  let w' := on_message r (EventsApiMessage event) w in
  (¬ In (ev_text event) (messages state) →
     (∃ state',
         conversation_states w' !! ev_channel event = Some state'
         ∧ user_id state' = user_id state
         ∧ messages state' = (messages state ++ [ev_text event])%list)
     ∧ ∃ rest,
         trace w'
         = (trace w
              ++ Classify (join_lines (messages state ++ [ev_text event])) :: rest)%list)
  ∧ (In (ev_text event) (messages state) → w' = w).
Proof.
  intros Hs Hu Hb Hn w'. split.
  - intros Hnew.
    assert (w' = fst (process_conversation json_loads py_repr r (ev_channel event)
                        (ev_user event)
                        (append_message (ev_channel event) (ev_text event) w))) as ->.
    { unfold w', process_slack_events. rewrite (guard_passes event Hb Hn).
      rewrite Hs, Hu, String.eqb_refl.
      destruct (text_in (ev_text event) (messages state)) eqn:E; [|done].
      by apply text_in_spec in E. }
    set (w1 := append_message (ev_channel event) (ev_text event) w).
    assert (conversation_states w1 !! ev_channel event
            = Some (with_message (ev_text event) state)) as Hs1.
    { unfold w1. simpl. by rewrite lookup_alter_eq, Hs. }
    split.
    + destruct (process_conversation_frame json_loads py_repr r (ev_channel event)
                  (ev_user event) w1) as (_ & _ & [-> | (? & ents & _ & _ & ->)]).
      * eexists. split; [exact Hs1|done].
      * rewrite lookup_alter_eq, Hs1. eexists. split; [done|done].
    + apply (process_conversation_classifies json_loads py_repr r (ev_channel event)
               (ev_user event) w1 _ Hs1).
      simpl. by destruct (messages state).
  - intros Hin. exact (known_text_skipped r event w state Hs Hu Hin).
Qed.

(** C5, as the code has it. A message comes from a user other than the
    stored owner of the channel's conversation.  When it is a plain message
    (not from the bot, without subtype), the entry of the channel is
    replaced by a fresh one: it is owned by the new user, its history is the
    new message alone, it has no [processed], [editing] or
    [original_entities], and its [final_entities], if any, come from this
    turn's classifier answer; the classifier is called on the new message
    alone.  The result is the one the handler gives when the channel had no
    entry at all, the entries of the other channels are untouched, and the
    channels that have an entry are the same after as before: the new
    conversation takes the place of the old one, none is added, and a
    channel never has two.  When the message is the bot's own or carries a
    subtype, it is ignored: the store, the completed channels and the trace
    are as they were, and so is the owner's conversation. *)
Theorem new_speaker_replaces_conversation (r : replies) (event : message_event)
    (w : world) (state : conversation) :
  conversation_states w !! ev_channel event = Some state →
  ev_user event ≠ user_id state →
  let w' := on_message r (EventsApiMessage event) w in
  (ev_user event ≠ bot_user_id →
   ev_subtype event = None →
     (∃ state',
         conversation_states w' !! ev_channel event = Some state'
         ∧ user_id state' = ev_user event
         ∧ messages state' = [ev_text event]
         ∧ processed state' = None
         ∧ editing state' = None
         ∧ original_entities state' = None
         ∧ (final_entities state' = None
            ∨ ∃ llm_response entities,
                llm_reply r = Some llm_response
                ∧ dict_get "entities" (validate_llm_response json_loads llm_response)
                  = JObj entities
                ∧ final_entities state' = Some entities))
     ∧ (∀ other, other ≠ ev_channel event →
           conversation_states w' !! other = conversation_states w !! other)
     ∧ w' = on_message r (EventsApiMessage event) (del_conversation (ev_channel event) w)
     ∧ dom (conversation_states w') = dom (conversation_states w)
     ∧ (∀ state1 state2,
           conversation_states w' !! ev_channel event = Some state1 →
           conversation_states w' !! ev_channel event = Some state2 →
           state1 = state2)
     ∧ ∃ rest, trace w' = (trace w ++ Classify (ev_text event) :: rest)%list)
  ∧ (ev_user event = bot_user_id ∨ is_Some (ev_subtype event) →
     w' = w
     ∧ conversation_states w' !! ev_channel event = Some state).
Proof.
  intros Hs Hu w'. split.
  2:{ intros Hignored.
      assert (w' = w) as ->; [|done].
      unfold w', process_slack_events.
      destruct Hignored as [-> | [subtype ->]].
      - by rewrite String.eqb_refl.
      - by rewrite orb_true_r. }
  intros Hb Hn.
  set (fresh := fresh_conversation (ev_user event) (ev_text event)).
  set (w1 := set_states (<[ev_channel event := fresh]> (conversation_states w)) w).
  assert (w' = fst (process_conversation json_loads py_repr r (ev_channel event)
                      (ev_user event) w1)) as Hw'.
  { unfold w', process_slack_events. rewrite (guard_passes event Hb Hn), Hs.
    apply String.eqb_neq in Hu as ->. done. }
  assert (conversation_states w1 !! ev_channel event = Some fresh) as Hs1.
  { unfold w1. simpl. by rewrite lookup_insert_eq. }
  assert (dom (conversation_states w1) = dom (conversation_states w)) as Hdom.
  { unfold w1. simpl. rewrite dom_insert_L.
    apply subseteq_union_1_L, singleton_subseteq_l, elem_of_dom. by eexists. }
  split_and!.
  - rewrite Hw'.
    destruct (process_conversation_frame json_loads py_repr r (ev_channel event)
                (ev_user event) w1) as (_ & _ & [-> | (resp & ents & Hl & He & ->)]).
    + exists fresh. rewrite Hs1. repeat split; try done. by left.
    + exists (with_final_entities ents fresh). rewrite lookup_alter_eq, Hs1.
      repeat split; try done. right. by exists resp, ents.
  - intros other Ho. rewrite Hw'.
    destruct (process_conversation_frame json_loads py_repr r (ev_channel event)
                (ev_user event) w1) as (_ & _ & [-> | (? & ? & _ & _ & ->)]).
    + unfold w1. simpl. by rewrite lookup_insert_ne.
    + rewrite lookup_alter_ne by done. unfold w1. simpl. by rewrite lookup_insert_ne.
  - rewrite Hw'. unfold process_slack_events.
    rewrite (guard_passes event Hb Hn). simpl.
    rewrite lookup_delete_eq. unfold set_states. simpl.
    by rewrite insert_delete_eq.
  - rewrite Hw'.
    destruct (process_conversation_frame json_loads py_repr r (ev_channel event)
                (ev_user event) w1) as (_ & _ & [-> | (? & ? & _ & _ & ->)]).
    + exact Hdom.
    + by rewrite dom_alter_L.
  - intros state1 state2 H1 H2. rewrite H1 in H2. by injection H2.
  - rewrite Hw'.
    destruct (process_conversation_classifies json_loads py_repr r (ev_channel event)
                (ev_user event) w1 fresh Hs1 ltac:(done)) as (rest & ->).
    by exists rest.
Qed.

End Messages.

(** ** Button presses *)

Section Interactions.

Variable py_repr : json → string.

Local Abbreviation on_press := (handle_interaction py_repr).

(** A press in a channel without entry is acknowledged and nothing else. *)
Lemma press_without_entry (r : replies) (action channel user : string) (w : world) :
  conversation_states w !! channel = None →
  on_press r (Interactive action channel user) w = emit SocketAck w.
Proof. intros Hs. unfold handle_interaction. simpl. by rewrite Hs. Qed.

(** The press of the owner once [final_entities] has passed the test
    [not entities]. *)
Lemma owner_press (r : replies) (action channel : string) (w : world)
    (state : conversation) (entities : pydict) :
  conversation_states w !! channel = Some state →
  final_entities state = Some entities →
  entities ≠ [] →
  on_press r (Interactive action channel (user_id state)) w
  = let w := emit SocketAck w in
    if String.eqb action "jd_post_yes" then
      let w := emit (PostJob entities) w in
      match post_reply r with
      | Some (true, message) =>
          del_conversation channel
            (mark_completed channel
               (chat_postMessage channel "🎉 Job posted! Conversation ended."
                  (chat_postMessage channel
                     ("✅ Job posted successfully! Link: " +:+ message) w)))
      | Some (false, message) =>
          del_conversation channel
            (chat_postMessage channel ("❌ Error posting to LinkedIn: " +:+ message) w)
      | None =>
          del_conversation channel
            (chat_postMessage channel
               "❌ An error occurred while posting to LinkedIn. Please try again." w)
      end
    else if String.eqb action "jd_draft" then
      let w := emit (SaveJob entities) w in
      match draft_reply r with
      | Some true =>
          del_conversation channel
            (mark_completed channel
               (chat_postMessage channel "💾 Draft saved! Conversation ended."
                  (chat_postMessage channel "✅ Job saved as draft. Job ID: True" w)))
      | Some false | None =>
          del_conversation channel
            (chat_postMessage channel
               "❌ An error occurred while saving the draft. Please try again." w)
      end
    else if String.eqb action "jd_edit" then
      start_editing channel entities (chat_postMessage channel edit_prompt w)
    else if String.eqb action "jd_no" then
      del_conversation channel
        (chat_postMessage channel "🔄 Starting fresh. Please provide new job details:"
           (chat_postMessage channel "❌ Job posting cancelled." w))
    else del_conversation channel w.
Proof.
  intros Hs Hf He. unfold handle_interaction. simpl. rewrite Hs, String.eqb_refl, Hf.
  destruct entities as [|e es]; [done|]. repeat case_match; done.
Qed.

Ltac world_eq :=
  unfold del_conversation, mark_completed, chat_postMessage, emit, set_states;
  simpl; rewrite <- ?app_assoc; reflexivity.

(** The two success branches.  When the owner presses post or draft,
    [final_entities] is there and the collaborator succeeds, the engine
    sends the confirmation, then the closing message, marks the channel in
    [recently_completed] and removes the entry of the channel from the
    store.  The confirmation of a post ends with the link [post_job]
    returned; the one of a draft shows, under [Job ID:], the value
    [save_job_to_file] returned, which is [True]. *)
Theorem successful_action_completes (r : replies) (action channel : string)
    (w : world) (state : conversation) (entities : pydict) :
  conversation_states w !! channel = Some state →
  final_entities state = Some entities →
  entities ≠ [] →
  let w' := on_press r (Interactive action channel (user_id state)) w in
  (action = "jd_post_yes" → ∀ link, post_reply r = Some (true, link) →
     w' = {| conversation_states := delete channel (conversation_states w);
             recently_completed := <[channel := true]> (recently_completed w);
             trace := (trace w
                         ++ [SocketAck; PostJob entities;
                             PostText channel ("✅ Job posted successfully! Link: " +:+ link);
                             PostText channel "🎉 Job posted! Conversation ended."])%list |})
  ∧ (action = "jd_draft" → draft_reply r = Some true →
     w' = {| conversation_states := delete channel (conversation_states w);
             recently_completed := <[channel := true]> (recently_completed w);
             trace := (trace w
                         ++ [SocketAck; SaveJob entities;
                             PostText channel "✅ Job saved as draft. Job ID: True";
                             PostText channel "💾 Draft saved! Conversation ended."])%list |}).
Proof.
  intros Hs Hf He w'. unfold w'. rewrite (owner_press r action channel w state entities Hs Hf He).
  split.
  - intros -> link Hp. simpl. rewrite Hp. world_eq.
  - intros -> Hd. simpl. rewrite Hd. world_eq.
Qed.

(** C3, as the code has it. When the owner presses post or draft,
    [final_entities] is there and the collaborator fails (it returns a
    failure or raises), the engine sends an error message and then removes
    the entry of the channel from the store, without marking the channel in
    [recently_completed]; a later press of any button in the channel is
    acknowledged and otherwise ignored. *)
Theorem failed_action_ends_conversation (r : replies) (action channel : string)
    (w : world) (state : conversation) (entities : pydict) :
  conversation_states w !! channel = Some state →
  final_entities state = Some entities →
  entities ≠ [] →
  let w' := on_press r (Interactive action channel (user_id state)) w in
  let ended (sent : list effect) :=
    {| conversation_states := delete channel (conversation_states w);
       recently_completed := recently_completed w;
       trace := (trace w ++ SocketAck :: sent)%list |} in
  let ignored :=
    ∀ r2 action2 user2,
      on_press r2 (Interactive action2 channel user2) w' = emit SocketAck w' in
  (action = "jd_post_yes" → ∀ reason, post_reply r = Some (false, reason) →
     w' = ended [PostJob entities;
                 PostText channel ("❌ Error posting to LinkedIn: " +:+ reason)]
     ∧ ignored)
  ∧ (action = "jd_post_yes" → post_reply r = None →
     w' = ended [PostJob entities;
                 PostText channel
                   "❌ An error occurred while posting to LinkedIn. Please try again."]
     ∧ ignored)
  ∧ (action = "jd_draft" → draft_reply r = Some false ∨ draft_reply r = None →
     w' = ended [SaveJob entities;
                 PostText channel
                   "❌ An error occurred while saving the draft. Please try again."]
     ∧ ignored).
Proof.
  intros Hs Hf He w' ended ignored.
  assert (Hgone : ∀ sent, w' = ended sent → ignored).
  { intros sent Hw r2 action2 user2. apply press_without_entry.
    rewrite Hw. simpl. apply lookup_delete_eq. }
  assert (Hw' : w' = on_press r (Interactive action channel (user_id state)) w) by done.
  rewrite (owner_press r action channel w state entities Hs Hf He) in Hw'.
  split; [|split].
  - intros -> reason Hp. simpl in Hw'. rewrite Hp in Hw'.
    assert (w' = ended [PostJob entities;
                        PostText channel ("❌ Error posting to LinkedIn: " +:+ reason)]) as Hw.
    { rewrite Hw'. unfold ended. world_eq. }
    split; [exact Hw | exact (Hgone _ Hw)].
  - intros -> Hp. simpl in Hw'. rewrite Hp in Hw'.
    assert (w' = ended [PostJob entities;
                        PostText channel
                          "❌ An error occurred while posting to LinkedIn. Please try again."]) as Hw.
    { rewrite Hw'. unfold ended. world_eq. }
    split; [exact Hw | exact (Hgone _ Hw)].
  - intros -> Hd. simpl in Hw'.
    assert (w' = ended [SaveJob entities;
                        PostText channel
                          "❌ An error occurred while saving the draft. Please try again."]) as Hw.
    { rewrite Hw'. unfold ended. destruct Hd as [-> | ->]; world_eq. }
    split; [exact Hw | exact (Hgone _ Hw)].
Qed.

(** The press of the owner when [final_entities] is missing or empty: the
    notice is sent and the handler returns. *)
Lemma press_without_final_entities (r : replies) (action channel : string)
    (w : world) (state : conversation) :
  conversation_states w !! channel = Some state →
  final_entities state = None ∨ final_entities state = Some [] →
  on_press r (Interactive action channel (user_id state)) w
  = chat_postMessage channel lost_context_notice (emit SocketAck w).
Proof.
  intros Hs Hf. unfold handle_interaction. simpl. rewrite Hs, String.eqb_refl.
  by destruct Hf as [-> | ->].
Qed.

End Interactions.

(** ** Editing *)

Section Editing.

Variable json_loads : string → option json.
Variable py_repr : json → string.
Variable bot_user_id : string.

Local Abbreviation on_message := (process_slack_events json_loads py_repr bot_user_id).
Local Abbreviation on_press := (handle_interaction py_repr).
Local Abbreviation on_request := (dispatch json_loads py_repr bot_user_id).

Lemma turn_keeps_edit_state (r : replies) (channel user key : string)
    (w : world) (c : conversation) :
  conversation_states w !! key = Some c →
  ∃ c',
    conversation_states (fst (process_conversation json_loads py_repr r channel user w))
      !! key = Some c'
    ∧ same_edit_state c c'.
Proof.
  intros Hc.
  destruct (process_conversation_frame json_loads py_repr r channel user w)
    as (_ & _ & [-> | (? & ents & _ & _ & ->)]).
  - by exists c.
  - destruct (decide (channel = key)) as [->|Hne].
    + rewrite lookup_alter_eq, Hc. by eexists.
    + rewrite lookup_alter_ne by done. by exists c.
Qed.

Lemma message_keeps_edit_state (r : replies) (event : message_event)
    (channel : string) (w : world) (c : conversation) :
  conversation_states w !! channel = Some c →
  ev_channel event ≠ channel ∨ ev_user event = user_id c →
  ∃ c',
    conversation_states (on_message r (EventsApiMessage event) w) !! channel = Some c'
    ∧ same_edit_state c c'.
Proof.
  intros Hc Hev. unfold process_slack_events.
  destruct (_ || _); [by exists c|].
  destruct (decide (ev_channel event = channel)) as [Heq|Hne].
  - destruct Hev as [?|Hu]; [done|]. rewrite Heq, Hc, Hu, String.eqb_refl.
    destruct (negb _); [|by exists c].
    destruct (turn_keeps_edit_state r channel (user_id c) channel
                (append_message channel (ev_text event) w)
                (with_message (ev_text event) c)) as (c' & Hc' & Hsame).
    { simpl. by rewrite lookup_alter_eq, Hc. }
    by exists c'.
  - destruct (conversation_states w !! ev_channel event) as [state|];
      [destruct (String.eqb _ (user_id state)); [destruct (negb _)|]|];
      try (by exists c);
      apply turn_keeps_edit_state; simpl;
      by rewrite ?lookup_alter_ne, ?lookup_insert_ne.
Qed.

Lemma press_elsewhere (r : replies) (action channel' user channel : string) (w : world) :
  channel' ≠ channel →
  conversation_states (on_press r (Interactive action channel' user) w) !! channel
  = conversation_states w !! channel.
Proof.
  intros Hne. unfold handle_interaction.
  repeat case_match; simpl; by rewrite ?lookup_delete_ne, ?lookup_alter_ne.
Qed.

Lemma request_keeps_edit_state (r : replies) (req : request)
    (channel : string) (w : world) (c : conversation) :
  conversation_states w !! channel = Some c →
  leaves_going channel (user_id c) req = true →
  ∃ c',
    conversation_states (on_request r req w) !! channel = Some c'
    ∧ same_edit_state c c'.
Proof.
  intros Hc Hreq. destruct req as [event|action channel' user|].
  - unfold dispatch, handle_interaction.
    apply message_keeps_edit_state; [done|].
    simpl in Hreq. apply orb_true_iff in Hreq as [Hne|Hu].
    + left. apply negb_true_iff in Hne. by apply String.eqb_neq.
    + right. by apply String.eqb_eq.
  - simpl in Hreq. apply negb_true_iff, String.eqb_neq in Hreq.
    exists c. split; [|done]. unfold dispatch, process_slack_events.
    by rewrite (press_elsewhere r action channel' user channel w Hreq).
  - by exists c.
Qed.

Lemma run_keeps_edit_state (steps : list (replies * request))
    (channel : string) (w : world) (c : conversation) :
  conversation_states w !! channel = Some c →
  forallb (leaves_going channel (user_id c)) (map snd steps) = true →
  ∃ c',
    conversation_states (run json_loads py_repr bot_user_id steps w) !! channel = Some c'
    ∧ same_edit_state c c'.
Proof.
  revert w c. induction steps as [|[r req] steps IH]; intros w c Hc Hall.
  - by exists c.
  - simpl in Hall. apply andb_true_iff in Hall as [Hreq Hall].
    destruct (request_keeps_edit_state r req channel w c Hc Hreq) as (c1 & Hc1 & Hu & He & Ho).
    destruct (IH (on_request r req w) c1 Hc1) as (c2 & Hc2 & Hu2 & He2 & Ho2).
    { by rewrite Hu. }
    exists c2. split; [exact Hc2|]. unfold same_edit_state. by rewrite Hu2, He2, Ho2.
Qed.

(** C8. When the owner presses edit and [final_entities] is there, the
    engine sends the prompt for the new details and the entry of the channel
    stays in the store with the same owner, history and [final_entities],
    with [processed] cleared, [editing] set, and [original_entities] a copy
    of the entities.  From there on, through any requests that leave the
    conversation going, the next message of the owner that brings the
    classifier to a complete hiring request is answered with the edit form
    of the confirmation: for each of the five attributes the new value
    followed by [(was: old value)], the old values being those of the copy
    taken at the press.  What is shown for an attribute is the value the
    entities hold under its key: a string as it is, [None], [True] and
    [False] for null and the booleans, a whole number in decimal, and
    [N/A] when the key is missing; with strings for all five attributes on
    both sides, the text is the header and the five lines
    [  • *Label*: new (was: old)]. *)
Theorem edit_then_finalize_shows_old_values
    (r0 : replies) (steps : list (replies * request)) (r : replies)
    (event : message_event) (w : world) (state : conversation)
    (entities : pydict) (llm_response : string) (updated : pydict) (title : string) :
  conversation_states w !! ev_channel event = Some state →
  final_entities state = Some entities →
  entities ≠ [] →
  let channel := ev_channel event in
  let owner := user_id state in
  let edited := on_press r0 (Interactive "jd_edit" channel owner) w in
  let later := run json_loads py_repr bot_user_id steps edited in
  (∃ kept,
      conversation_states edited !! channel = Some kept
      ∧ user_id kept = owner
      ∧ messages kept = messages state
      ∧ final_entities kept = Some entities
      ∧ original_entities kept = Some entities
      ∧ processed kept = Some false
      ∧ editing kept = Some true
      ∧ recently_completed edited = recently_completed w
      ∧ trace edited = (trace w ++ [SocketAck; PostText channel edit_prompt])%list)
  ∧ (forallb (leaves_going channel owner) (map snd steps) = true →
     ev_user event = owner →
     owner ≠ bot_user_id →
     ev_subtype event = None →
     llm_reply r = Some llm_response →
     intent_is "hiring_request" (validate_llm_response json_loads llm_response) = true →
     dict_get "entities" (validate_llm_response json_loads llm_response) = JObj updated →
     (∀ k, In k follow_up_order → dict_get k updated ≠ JNull) →
     dict_get "job_title" updated = JStr title →
     blank title = false →
     ∃ current,
       conversation_states later !! channel = Some current
       ∧ (¬ In (ev_text event) (messages current) →
          ∃ rest,
            trace (on_request r (EventsApiMessage event) later)
            = (trace later
                 ++ Classify (join_lines (messages current ++ [ev_text event]))
                 :: PostText channel (edit_confirmation py_repr updated entities)
                 :: rest)%list))
  ∧ (∀ new : pydict,
       edit_confirmation py_repr new entities
       = "✏️ Here are the updated job details:" +:+ nl +:+
         join_lines
           [ "  • *Job Title*: " +:+ shown py_repr "job_title" new
               +:+ " (was: " +:+ shown py_repr "job_title" entities +:+ ")";
             "  • *Experience*: " +:+ shown py_repr "experience" new
               +:+ " (was: " +:+ shown py_repr "experience" entities +:+ ")";
             "  • *Skills*: " +:+ shown py_repr "skills" new
               +:+ " (was: " +:+ shown py_repr "skills" entities +:+ ")";
             "  • *Job Type*: " +:+ shown py_repr "job_type" new
               +:+ " (was: " +:+ shown py_repr "job_type" entities +:+ ")";
             "  • *Location*: " +:+ shown py_repr "location" new
               +:+ " (was: " +:+ shown py_repr "location" entities +:+ ")" ])
  ∧ (∀ (key : string) (d : pydict),
       shown py_repr key d
       = match dict_lookup key d with
         | None => "N/A"
         | Some (JStr text) => text
         | Some JNull => "None"
         | Some (JBool true) => "True"
         | Some (JBool false) => "False"
         | Some (JInt z) => pretty z
         | Some v => py_repr v
         end)
  ∧ (∀ (new : pydict)
       (new_title new_experience new_skills new_type new_location : string)
       (old_title old_experience old_skills old_type old_location : string),
       dict_lookup "job_title" new = Some (JStr new_title) →
       dict_lookup "experience" new = Some (JStr new_experience) →
       dict_lookup "skills" new = Some (JStr new_skills) →
       dict_lookup "job_type" new = Some (JStr new_type) →
       dict_lookup "location" new = Some (JStr new_location) →
       dict_lookup "job_title" entities = Some (JStr old_title) →
       dict_lookup "experience" entities = Some (JStr old_experience) →
       dict_lookup "skills" entities = Some (JStr old_skills) →
       dict_lookup "job_type" entities = Some (JStr old_type) →
       dict_lookup "location" entities = Some (JStr old_location) →
       edit_confirmation py_repr new entities
       = "✏️ Here are the updated job details:" +:+ nl +:+
         join_lines
           [ "  • *Job Title*: " +:+ new_title +:+ " (was: " +:+ old_title +:+ ")";
             "  • *Experience*: " +:+ new_experience
               +:+ " (was: " +:+ old_experience +:+ ")";
             "  • *Skills*: " +:+ new_skills +:+ " (was: " +:+ old_skills +:+ ")";
             "  • *Job Type*: " +:+ new_type +:+ " (was: " +:+ old_type +:+ ")";
             "  • *Location*: " +:+ new_location
               +:+ " (was: " +:+ old_location +:+ ")" ]).
Proof.
  intros Hs Hf He channel owner edited later.
  subst channel owner.
  assert (Hedited : edited
                    = start_editing (ev_channel event) entities
                        (chat_postMessage (ev_channel event) edit_prompt (emit SocketAck w))).
  { unfold edited.
    by rewrite (owner_press py_repr r0 "jd_edit" (ev_channel event) w state entities Hs Hf He). }
  assert (Hkept : conversation_states edited !! (ev_channel event)
                  = Some (edit_started entities state)).
  { rewrite Hedited. simpl. by rewrite lookup_alter_eq, Hs. }
  split; [|split; [|split; [done|split]]].
  3:{ intros key d. unfold shown, dict_get_or.
      destruct (dict_lookup key d) as [[| [] | | | | |]|]; done. }
  3:{ intros new ????? ????? Hn1 Hn2 Hn3 Hn4 Hn5 Ho1 Ho2 Ho3 Ho4 Ho5.
      unfold edit_confirmation, was_line, shown, dict_get_or, detail_labels.
      cbn [map fst snd].
      by rewrite Hn1, Hn2, Hn3, Hn4, Hn5, Ho1, Ho2, Ho3, Ho4, Ho5. }
  - exists (edit_started entities state). repeat split; try done.
    all: rewrite Hedited; simpl; rewrite <- ?app_assoc; done.
  - intros Hsteps Hu Hbot Hsub Hl Hi Hents Hall Ht Hb.
    destruct (run_keeps_edit_state steps (ev_channel event) edited (edit_started entities state)
                Hkept Hsteps) as (current & Hcur & Hown & Hed & Hor).
    simpl in Hown, Hed, Hor. fold later in Hcur.
    exists current. split; [exact Hcur|]. intros Hnew.
    assert (Hgo : on_request r (EventsApiMessage event) later
                  = fst (process_conversation json_loads py_repr r (ev_channel event) (ev_user event)
                           (append_message (ev_channel event) (ev_text event) later))).
    { unfold dispatch, handle_interaction, process_slack_events.
      rewrite guard_passes by (by rewrite ?Hu).
      rewrite Hcur, Hu, Hown, String.eqb_refl.
      destruct (text_in (ev_text event) (messages current)) eqn:E; [|done].
      by apply text_in_spec in E. }
    rewrite Hgo.
    rewrite (hiring_turn json_loads py_repr r (ev_channel event) (ev_user event)
               (append_message (ev_channel event) (ev_text event) later)
               (with_message (ev_text event) current) llm_response updated);
      try done.
    + cbv zeta.
      rewrite (first_missing_none updated Hall), Ht, (not_blank_truthy title Hb), Hb.
      unfold finalize. simpl. rewrite Hed, Hor. simpl.
      destruct (kwargs_bind updated); [destruct (jd_reply r)|]; trace_tail.
    + simpl. by rewrite lookup_alter_eq, Hcur.
    + simpl. by destruct (messages current).
Qed.

End Editing.

(** ** The theorems at the samples *)

(** C1 at three answers of the classifier to a first message: a title
    alone, all five attributes, and all five with a blank title. *)
Lemma hiring_request_turn_witness :
  let w := Samples.world_of [("C1", Samples.collecting "U1" ["I need a backend developer"])] in
  let asked := emit (Classify "I need a backend developer") w in
  process_conversation Samples.loads Samples.repr
    (Samples.answers (Some Samples.title_only_text) None) "C1" "U1" w
  = (chat_postMessage "C1"
       "What is the required level of experience (e.g., 2 years, Senior)?" asked,
     Returned)
  ∧ conversation_states
      (fst (process_conversation Samples.loads Samples.repr
              (Samples.answers (Some Samples.complete_text) (Some "We are hiring."))
              "C1" "U1" w)) !! "C1"
    = Some (Samples.confirming "U1" ["I need a backend developer"])
  ∧ process_conversation Samples.loads Samples.repr
      (Samples.answers (Some Samples.blank_title_text) (Some "We are hiring.")) "C1" "U1" w
    = (chat_postMessage "C1" title_clarification asked, Returned).
Proof.
  intros w asked.
  pose (state := Samples.collecting "U1" ["I need a backend developer"]).
  split; [|split].
  - pose proof (hiring_request_turn Samples.loads Samples.repr
                  (Samples.answers (Some Samples.title_only_text) None) "C1" "U1" w state
                  Samples.title_only_text
                  [("job_title", JStr "Backend Developer"); ("experience", JNull);
                   ("skills", JNull); ("job_type", JNull); ("location", JNull)]
                  ltac:(reflexivity) ltac:(discriminate) ltac:(reflexivity)
                  ltac:(reflexivity) ltac:(reflexivity)) as H.
    cbv zeta in H. destruct H as (H & _).
    destruct (H ["job_title"] "experience" ["skills"; "job_type"; "location"])
      as (question & Hq & Hres & _).
    + reflexivity.
    + intros k [<-|[]]. discriminate.
    + reflexivity.
    + injection Hq as <-. exact Hres.
  - pose proof (hiring_request_turn Samples.loads Samples.repr
                  (Samples.answers (Some Samples.complete_text) (Some "We are hiring."))
                  "C1" "U1" w state Samples.complete_text Samples.complete_entities
                  ltac:(reflexivity) ltac:(discriminate) ltac:(reflexivity)
                  ltac:(reflexivity) ltac:(reflexivity)) as H.
    cbv zeta in H. destruct H as (_ & H & _).
    destruct (H "Backend Developer") as (Hok & _).
    + intros k [<-|[<-|[<-|[<-|[<-|[]]]]]]; discriminate.
    + reflexivity.
    + reflexivity.
    + destruct (Hok "We are hiring." ltac:(reflexivity) ltac:(reflexivity)) as (_ & Hfinal).
      exact Hfinal.
  - pose proof (hiring_request_turn Samples.loads Samples.repr
                  (Samples.answers (Some Samples.blank_title_text) (Some "We are hiring."))
                  "C1" "U1" w state Samples.blank_title_text
                  (dict_set "job_title" (JStr "  ") Samples.complete_entities)
                  ltac:(reflexivity) ltac:(discriminate) ltac:(reflexivity)
                  ltac:(reflexivity) ltac:(reflexivity)) as H.
    cbv zeta in H. destruct H as (_ & _ & H & _).
    destruct (H "  ") as (Hres & _).
    + intros k [<-|[<-|[<-|[<-|[<-|[]]]]]]; discriminate.
    + reflexivity.
    + reflexivity.
    + exact Hres.
Defined.

(** C1 as stated fails, in two ways. The classifier gives all five
    attributes with a title that is not blank and the description generator
    raises: the engine sends the generation error, no message with buttons
    is sent and [final_entities] is not recorded. The same happens, with a
    generator that would answer, when the entities carry a sixth key, which
    the call of the generator does not accept. *)
Lemma generator_failure_sends_no_buttons :
  let w := Samples.world_of [("C1", Samples.collecting "U1" ["I need a backend developer"])] in
  let w' := fst (process_conversation Samples.loads Samples.repr
                   (Samples.answers (Some Samples.complete_text) None) "C1" "U1" w) in
  let w'' := fst (process_conversation Samples.loads Samples.repr
                    (Samples.answers (Some Samples.salary_text) (Some "We are hiring."))
                    "C1" "U1" w) in
  let with_salary := (Samples.complete_entities ++ [("salary", JStr "90k")])%list in
  (intent_is "hiring_request"
     (validate_llm_response Samples.loads Samples.complete_text) = true
   ∧ dict_get "entities" (validate_llm_response Samples.loads Samples.complete_text)
     = JObj Samples.complete_entities
   ∧ first_missing_entity Samples.complete_entities = None
   ∧ blank "Backend Developer" = false
   ∧ trace w'
     = [Classify "I need a backend developer";
        PostText "C1" (plain_confirmation Samples.repr Samples.complete_entities);
        PostText "C1" generating_notice;
        GenerateJD Samples.complete_entities;
        PostText "C1" generation_error]
   ∧ conversation_states w' !! "C1"
     = Some (Samples.collecting "U1" ["I need a backend developer"]))
  ∧ (intent_is "hiring_request"
       (validate_llm_response Samples.loads Samples.salary_text) = true
     ∧ dict_get "entities" (validate_llm_response Samples.loads Samples.salary_text)
       = JObj with_salary
     ∧ first_missing_entity with_salary = None
     ∧ dict_get "job_title" with_salary = JStr "Backend Developer"
     ∧ trace w''
       = [Classify "I need a backend developer";
          PostText "C1" (plain_confirmation Samples.repr with_salary);
          PostText "C1" generating_notice;
          PostText "C1" generation_error]
     ∧ conversation_states w'' !! "C1"
       = Some (Samples.collecting "U1" ["I need a backend developer"])).
Proof. repeat split; reflexivity. Qed.

(** C10 at a sample: the owner sends the first message of the history
    again after a second one. *)
Lemma repeated_text_is_ignored_witness :
  let w := Samples.world_of
             [("C1", Samples.collecting "U1"
                       ["I need a backend developer"; "3 years experience"])] in
  let req := Samples.message "U1" "C1" "I need a backend developer" in
  process_slack_events Samples.loads Samples.repr Samples.bot
    (Samples.answers (Some Samples.complete_text) None) req w = w
  ∧ dispatch Samples.loads Samples.repr Samples.bot
      (Samples.answers (Some Samples.complete_text) None) req w = w.
Proof.
  intros w req.
  apply (repeated_text_is_ignored Samples.loads Samples.repr Samples.bot
           (Samples.answers (Some Samples.complete_text) None)
           {| ev_user := "U1"; ev_channel := "C1";
              ev_text := "I need a backend developer"; ev_subtype := None |}
           w (Samples.collecting "U1" ["I need a backend developer"; "3 years experience"])).
  - reflexivity.
  - reflexivity.
  - simpl. by left.
Defined.

(** C4 as stated fails: the message differs from the last stored one and
    repeats an earlier one; it is not appended and the classifier is not
    called. *)
Lemma earlier_text_is_not_appended :
  let history := ["I need a backend developer"; "3 years experience"] in
  let w := Samples.world_of [("C1", Samples.collecting "U1" history)] in
  last history = Some "3 years experience"
  ∧ "I need a backend developer" ≠ "3 years experience"
  ∧ process_slack_events Samples.loads Samples.repr Samples.bot
      (Samples.answers (Some Samples.complete_text) None)
      (Samples.message "U1" "C1" "I need a backend developer") w
    = w.
Proof.
  intros history w. split; [reflexivity|]. split; [discriminate|reflexivity].
Qed.

(** C4 at a sample: the owner answers the first follow-up question. *)
Lemma owner_message_turn_witness :
  let w := Samples.world_of [("C1", Samples.collecting "U1" ["I need a backend developer"])] in
  let w' := process_slack_events Samples.loads Samples.repr Samples.bot
              (Samples.answers (Some Samples.title_only_text) None)
              (Samples.message "U1" "C1" "3 years experience") w in
  (∃ state',
      conversation_states w' !! "C1" = Some state'
      ∧ user_id state' = "U1"
      ∧ messages state' = ["I need a backend developer"; "3 years experience"])
  ∧ ∃ rest,
      trace w'
      = Classify (join_lines ["I need a backend developer"; "3 years experience"]) :: rest.
Proof.
  intros w w'.
  pose proof (owner_message_turn Samples.loads Samples.repr Samples.bot
                (Samples.answers (Some Samples.title_only_text) None)
                {| ev_user := "U1"; ev_channel := "C1";
                   ev_text := "3 years experience"; ev_subtype := None |}
                w (Samples.collecting "U1" ["I need a backend developer"])
                ltac:(reflexivity) ltac:(reflexivity) ltac:(discriminate)
                ltac:(reflexivity)) as H.
  cbv zeta in H. destruct H as (H & _). apply H.
  simpl. intros [E|[]]. discriminate.
Defined.

(** C5 as stated fails: a user other than the owner sends a message that
    carries a subtype, and the bot's own message comes back as an event;
    both are dropped at the top of the handler and the conversation of the
    owner stays as it was. *)
Lemma filtered_speaker_replaces_nothing :
  let w := Samples.world_of [("C1", Samples.collecting "U1" ["I need a backend developer"])] in
  let r := Samples.answers (Some Samples.complete_text) (Some "We are hiring.") in
  process_slack_events Samples.loads Samples.repr Samples.bot r
    (EventsApiMessage {| ev_user := "U2"; ev_channel := "C1";
                         ev_text := "Here is the role description";
                         ev_subtype := Some "file_share" |}) w
  = w
  ∧ process_slack_events Samples.loads Samples.repr Samples.bot r
      (Samples.message Samples.bot "C1" "What is the job title/role you're hiring for?") w
    = w
  ∧ conversation_states w !! "C1"
    = Some (Samples.collecting "U1" ["I need a backend developer"])
  ∧ "U2" ≠ "U1" ∧ Samples.bot ≠ "U1".
Proof.
  intros w r. repeat (split; [reflexivity|]). split; discriminate.
Qed.

(** C5 at a sample: a second user writes in a channel whose conversation
    waits for a button of the first one, and the conversation becomes the
    second user's; the same text sent with a subtype changes nothing. *)
Lemma new_speaker_replaces_conversation_witness :
  let w := Samples.world_of [("C1", Samples.confirming "U1" ["I need a backend developer"])] in
  let r := Samples.answers (Some Samples.title_only_text) None in
  let w' := process_slack_events Samples.loads Samples.repr Samples.bot r
              (Samples.message "U2" "C1" "We need a designer") w in
  (∃ state',
      conversation_states w' !! "C1" = Some state'
      ∧ user_id state' = "U2"
      ∧ messages state' = ["We need a designer"]
      ∧ processed state' = None
      ∧ editing state' = None
      ∧ original_entities state' = None)
  ∧ dom (conversation_states w') = dom (conversation_states w)
  ∧ (∃ rest, trace w' = Classify "We need a designer" :: rest)
  ∧ process_slack_events Samples.loads Samples.repr Samples.bot r
      (EventsApiMessage {| ev_user := "U2"; ev_channel := "C1";
                           ev_text := "We need a designer";
                           ev_subtype := Some "file_share" |}) w
    = w.
Proof.
  intros w r w'.
  pose proof (new_speaker_replaces_conversation Samples.loads Samples.repr Samples.bot r
                {| ev_user := "U2"; ev_channel := "C1";
                   ev_text := "We need a designer"; ev_subtype := None |}
                w (Samples.confirming "U1" ["I need a backend developer"])
                ltac:(reflexivity) ltac:(discriminate)) as H.
  pose proof (new_speaker_replaces_conversation Samples.loads Samples.repr Samples.bot r
                {| ev_user := "U2"; ev_channel := "C1";
                   ev_text := "We need a designer"; ev_subtype := Some "file_share" |}
                w (Samples.confirming "U1" ["I need a backend developer"])
                ltac:(reflexivity) ltac:(discriminate)) as H'.
  cbv zeta in H, H'.
  destruct H as (H & _).
  destruct (H ltac:(discriminate) eq_refl)
    as ((state' & Hs & Hu & Hm & Hp & He & Ho & _) & _ & _ & Hdom & _ & Hrest).
  destruct H' as (_ & H').
  destruct (H' (or_intror (mk_is_Some _ _ eq_refl))) as (Hsame & _).
  split; [|split; [exact Hdom|split; [exact Hrest|exact Hsame]]].
  exists state'. repeat split; assumption.
Defined.

(** The success branches at a sample: the owner presses post and LinkedIn
    accepts the post; the owner presses draft and the file is written. *)
Lemma successful_action_completes_witness :
  let w := Samples.world_of [("C1", Samples.confirming "U1" ["I need a backend developer"])] in
  handle_interaction Samples.repr (Samples.answers None None)
    (Interactive "jd_post_yes" "C1" "U1") w
  = {| conversation_states := delete "C1" (conversation_states w);
       recently_completed := <["C1" := true]> (recently_completed w);
       trace := [SocketAck; PostJob Samples.complete_entities;
                 PostText "C1"
                   "✅ Job posted successfully! Link: https://www.linkedin.com/feed/update/urn:li:share:1";
                 PostText "C1" "🎉 Job posted! Conversation ended."] |}
  ∧ handle_interaction Samples.repr (Samples.answers None None)
      (Interactive "jd_draft" "C1" "U1") w
    = {| conversation_states := delete "C1" (conversation_states w);
         recently_completed := <["C1" := true]> (recently_completed w);
         trace := [SocketAck; SaveJob Samples.complete_entities;
                   PostText "C1" "✅ Job saved as draft. Job ID: True";
                   PostText "C1" "💾 Draft saved! Conversation ended."] |}.
Proof.
  intros w.
  pose proof (successful_action_completes Samples.repr (Samples.answers None None)
                "jd_post_yes" "C1" w
                (Samples.confirming "U1" ["I need a backend developer"])
                Samples.complete_entities
                ltac:(reflexivity) ltac:(reflexivity) ltac:(discriminate)) as Hpost.
  pose proof (successful_action_completes Samples.repr (Samples.answers None None)
                "jd_draft" "C1" w
                (Samples.confirming "U1" ["I need a backend developer"])
                Samples.complete_entities
                ltac:(reflexivity) ltac:(reflexivity) ltac:(discriminate)) as Hdraft.
  cbv zeta in Hpost, Hdraft.
  destruct Hpost as (Hpost & _). destruct Hdraft as (_ & Hdraft).
  split.
  - exact (Hpost eq_refl "https://www.linkedin.com/feed/update/urn:li:share:1" eq_refl).
  - exact (Hdraft eq_refl eq_refl).
Defined.

(** C6 on the code. Two owners press draft, each on a complete
    conversation of a channel, and [save_job_to_file] writes both jobs to
    the file.  What it returns is [True] both times, not an identifier of
    the draft, and the confirmation shows that value: both owners are sent
    the same text, [Job ID: True], though their drafts differ.  The rest is
    as the claim has it: the channel is marked in [recently_completed] and
    its conversation is removed; a press of post shows the link that
    [post_job] returned. *)
Theorem draft_confirmation_shows_true :
  let analyst :=
    {| user_id := "U2"; messages := ["We need a data analyst"];
       final_entities := Some MoreSamples.second_draft;
       processed := None; editing := None; original_entities := None |} in
  let w := Samples.world_of [("C1", Samples.confirming "U1" ["I need a backend developer"]);
                             ("C2", analyst)] in
  let save := save_job_to_file MoreSamples.draft_loads MoreSamples.dumps (Disk false WriteOk) in
  let saved1 := save Samples.complete_entities None in
  let saved2 := save MoreSamples.second_draft (fst saved1) in
  let store_says (returned : bool) :=
    {| llm_reply := None; jd_reply := None; post_reply := None;
       draft_reply := Some returned |} in
  let w1 := handle_interaction Samples.repr (store_says (snd saved1))
              (Interactive "jd_draft" "C1" "U1") w in
  let w2 := handle_interaction Samples.repr (store_says (snd saved2))
              (Interactive "jd_draft" "C2" "U2") w1 in
  snd saved1 = true
  ∧ snd saved2 = true
  ∧ fst saved2
    = Some (MoreSamples.dumps (JArr [JObj Samples.complete_entities;
                                     JObj MoreSamples.second_draft]))
  ∧ Samples.complete_entities ≠ MoreSamples.second_draft
  ∧ trace w1
    = [SocketAck; SaveJob Samples.complete_entities;
       PostText "C1" "✅ Job saved as draft. Job ID: True";
       PostText "C1" "💾 Draft saved! Conversation ended."]
  ∧ trace w2
    = (trace w1
         ++ [SocketAck; SaveJob MoreSamples.second_draft;
             PostText "C2" "✅ Job saved as draft. Job ID: True";
             PostText "C2" "💾 Draft saved! Conversation ended."])%list
  ∧ recently_completed w2 !! "C1" = Some true
  ∧ recently_completed w2 !! "C2" = Some true
  ∧ conversation_states w2 !! "C1" = None
  ∧ conversation_states w2 !! "C2" = None
  ∧ trace (handle_interaction Samples.repr (Samples.answers None None)
             (Interactive "jd_post_yes" "C1" "U1") w)
    = [SocketAck; PostJob Samples.complete_entities;
       PostText "C1"
         "✅ Job posted successfully! Link: https://www.linkedin.com/feed/update/urn:li:share:1";
       PostText "C1" "🎉 Job posted! Conversation ended."].
Proof.
  intros analyst w save saved1 saved2 store_says w1 w2.
  split; [reflexivity|]. split; [reflexivity|]. split; [reflexivity|].
  split; [discriminate|].
  repeat (split; [reflexivity|]). reflexivity.
Qed.

(** C3 as stated fails: the owner presses post, LinkedIn refuses, and after
    the error message the channel has no conversation left; pressing post
    again is acknowledged and nothing else happens. *)
Lemma failed_post_removes_conversation :
  let w := Samples.world_of [("C1", Samples.confirming "U1" ["I need a backend developer"])] in
  let w' := handle_interaction Samples.repr Samples.failing
              (Interactive "jd_post_yes" "C1" "U1") w in
  conversation_states w !! "C1"
  = Some (Samples.confirming "U1" ["I need a backend developer"])
  ∧ trace w'
    = [SocketAck; PostJob Samples.complete_entities;
       PostText "C1" "❌ Error posting to LinkedIn: Failed: 401 - Unauthorized"]
  ∧ conversation_states w' !! "C1" = None
  ∧ handle_interaction Samples.repr (Samples.answers None None)
      (Interactive "jd_post_yes" "C1" "U1") w'
    = emit SocketAck w'.
Proof. intros w w'. repeat (split; [reflexivity|]). reflexivity. Qed.

(** C3 at a sample: the owner presses draft and the file cannot be
    written. *)
Lemma failed_action_ends_conversation_witness :
  let w := Samples.world_of [("C1", Samples.confirming "U1" ["I need a backend developer"])] in
  let w' := handle_interaction Samples.repr Samples.failing
              (Interactive "jd_draft" "C1" "U1") w in
  w' = {| conversation_states := delete "C1" (conversation_states w);
          recently_completed := recently_completed w;
          trace := [SocketAck; SaveJob Samples.complete_entities;
                    PostText "C1"
                      "❌ An error occurred while saving the draft. Please try again."] |}
  ∧ ∀ r2 action2 user2,
      handle_interaction Samples.repr r2 (Interactive action2 "C1" user2) w'
      = emit SocketAck w'.
Proof.
  intros w w'.
  pose proof (failed_action_ends_conversation Samples.repr Samples.failing
                "jd_draft" "C1" w
                (Samples.confirming "U1" ["I need a backend developer"])
                Samples.complete_entities
                ltac:(reflexivity) ltac:(reflexivity) ltac:(discriminate)) as H.
  cbv zeta in H. destruct H as (_ & _ & H).
  exact (H eq_refl (or_introl eq_refl)).
Defined.

(** C7 on the code. The owner presses post while the conversation has no
    [final_entities]: the engine sends the notice that asks to start over
    and returns; the entry of the channel is still in the store, with its
    history, so the next message of the owner continues it. *)
Theorem lost_context_keeps_conversation :
  let w := Samples.world_of [("C1", Samples.collecting "U1" ["I need a backend developer"])] in
  let w' := handle_interaction Samples.repr (Samples.answers None None)
              (Interactive "jd_post_yes" "C1" "U1") w in
  final_entities (Samples.collecting "U1" ["I need a backend developer"]) = None
  ∧ trace w' = [SocketAck; PostText "C1" lost_context_notice]
  ∧ conversation_states w' !! "C1"
    = Some (Samples.collecting "U1" ["I need a backend developer"])
  ∧ messages
      <$> conversation_states
            (process_slack_events Samples.loads Samples.repr Samples.bot
               (Samples.answers (Some Samples.title_only_text) None)
               (Samples.message "U1" "C1" "3 years experience") w') !! "C1"
    = Some ["I need a backend developer"; "3 years experience"].
Proof. intros w w'. repeat (split; [reflexivity|]). reflexivity. Qed.

(** C8 at a sample: the conversation holds a request for a data analyst;
    the owner presses edit, sends a first message that the classifier finds
    incomplete while another channel is busy, and then a message that makes
    the request one for a backend developer.  Each line of the answer shows
    the new value and, after [was:], the value held at the press. *)
Lemma edit_then_finalize_shows_old_values_witness :
  let before :=
    {| user_id := "U1"; messages := ["We need a data analyst"];
       final_entities := Some MoreSamples.second_draft;
       processed := None; editing := None; original_entities := None |} in
  let w := Samples.world_of [("C1", before)] in
  let edited := handle_interaction Samples.repr Samples.failing
                  (Interactive "jd_edit" "C1" "U1") w in
  let steps :=
    [ (Samples.answers (Some Samples.title_only_text) None,
       Samples.message "U1" "C1" "Please change the role");
      (Samples.answers (Some "hello") None, Samples.message "U7" "C2" "Good morning") ] in
  let later := run Samples.loads Samples.repr Samples.bot steps edited in
  conversation_states edited !! "C1"
  = Some {| user_id := "U1"; messages := ["We need a data analyst"];
            final_entities := Some MoreSamples.second_draft;
            processed := Some false; editing := Some true;
            original_entities := Some MoreSamples.second_draft |}
  ∧ trace edited = [SocketAck; PostText "C1" edit_prompt]
  ∧ ∃ rest,
      trace (dispatch Samples.loads Samples.repr Samples.bot
               (Samples.answers (Some Samples.complete_text) (Some "We are hiring."))
               (Samples.message "U1" "C1" "A backend developer, remote") later)
      = (trace later
           ++ Classify (join_lines ["We need a data analyst";
                                    "Please change the role";
                                    "A backend developer, remote"])
           :: PostText "C1"
                ("✏️ Here are the updated job details:" +:+ nl
                   +:+ "  • *Job Title*: Backend Developer (was: Data Analyst)" +:+ nl
                   +:+ "  • *Experience*: 3 years (was: Senior)" +:+ nl
                   +:+ "  • *Skills*: Node.js (was: SQL, Python)" +:+ nl
                   +:+ "  • *Job Type*: full-time (was: contract)" +:+ nl
                   +:+ "  • *Location*: Remote (was: Berlin)")
           :: rest)%list.
Proof.
  intros before w edited steps later.
  pose proof (edit_then_finalize_shows_old_values Samples.loads Samples.repr Samples.bot
                Samples.failing steps
                (Samples.answers (Some Samples.complete_text) (Some "We are hiring."))
                {| ev_user := "U1"; ev_channel := "C1";
                   ev_text := "A backend developer, remote"; ev_subtype := None |}
                w before MoreSamples.second_draft Samples.complete_text
                Samples.complete_entities "Backend Developer"
                ltac:(reflexivity) ltac:(reflexivity) ltac:(discriminate)) as H.
  cbv zeta in H. destruct H as (Hkept & H & _ & _ & Htext).
  split; [reflexivity|]. split; [reflexivity|].
  destruct H as (current & Hcur & Hnext); try reflexivity; try discriminate.
  { intros k [<-|[<-|[<-|[<-|[<-|[]]]]]]; discriminate. }
  assert (Hlater : conversation_states later !! "C1"
                   = Some (edit_started MoreSamples.second_draft
                             (with_message "Please change the role" before)))
    by reflexivity.
  unfold later, edited in Hlater. simpl ev_channel in Hcur. simpl user_id in Hcur.
  rewrite Hlater in Hcur. injection Hcur as <-.
  destruct Hnext as (rest & Hrest).
  { simpl. intros [E|[E|[]]]; discriminate. }
  rewrite (Htext Samples.complete_entities
             "Backend Developer" "3 years" "Node.js" "full-time" "Remote"
             "Data Analyst" "Senior" "SQL, Python" "contract" "Berlin"
             eq_refl eq_refl eq_refl eq_refl eq_refl
             eq_refl eq_refl eq_refl eq_refl eq_refl) in Hrest.
  exists rest. exact Hrest.
Defined.

(** ** The shape of a turn *)

Ltac all_addressed :=
  repeat (apply Forall_cons_2; [by simpl|]); apply Forall_nil_2.

Section TurnShape.

Variable json_loads : string → option json.
Variable py_repr : json → string.

Lemma complete_request_intro (entities : pydict) (s : string) :
  first_missing_entity entities = None →
  kwargs_bind entities = true →
  dict_get "job_title" entities = JStr s →
  blank s = false →
  complete_request entities = true.
Proof.
  intros H1 H2 H3 H4. unfold complete_request. by rewrite H1, H2, H3, H4.
Qed.

(** Everything a turn does, branch by branch: what it adds to the trace,
    whom it writes to, which collaborators it calls, and what it leaves in
    the store. *)
Lemma turn_shape (r : replies) (channel user : string) (w : world) :
  let res := process_conversation json_loads py_repr r channel user w in
  ∃ new,
    trace (fst res) = (trace w ++ new)%list
    ∧ recently_completed (fst res) = recently_completed w
    ∧ Forall (addressed_to channel) new
    ∧ forallb (λ e, negb (is_publish_call e)) new = true
    ∧ (snd res = Returned → new = [] ∨ existsb is_post_text new = true)
    ∧ (∀ e, snd res = Raised e → ∃ query, new = [Classify query])
    ∧ ((conversation_states (fst res) = conversation_states w
        ∧ existsb is_post_blocks new = false)
       ∨ ∃ entities description,
           complete_request entities = true
           ∧ conversation_states (fst res)
             = alter (with_final_entities entities) channel (conversation_states w)
           ∧ In (GenerateJD entities) new
           ∧ last new = Some (PostBlocks channel (message_blocks description)
                                "Job description generated.")).
Proof.
  unfold process_conversation, finalize.
  destruct (conversation_states w !! channel) as [state|];
    [|exists []; simpl; rewrite app_nil_r; repeat split; eauto; done].
  destruct (messages state) as [|m0 ms];
    [exists []; simpl; rewrite app_nil_r; repeat split; eauto; done|].
  destruct (llm_reply r) as [llm_response|]; cbv zeta.
  2:{ eexists. simpl. split; [reflexivity|]. repeat split; eauto; try done.
      all_addressed. }
  repeat case_match; simpl; rewrite <- ?app_assoc; simpl;
    (eexists; split; [reflexivity|]);
    (split; [done|]); (split; [all_addressed|]); (split; [done|]);
    (split; [first [by intros [=] | by intros _; right]|]);
    (split; [first [by intros ? [=] | by intros ? _; eauto]|]);
    try (by left).
  all: right; eexists _, _; split; [by eapply complete_request_intro|];
    split; [done|]; split; [simpl; tauto|done].
Qed.

End TurnShape.

Section TurnFacts.

Variable json_loads : string → option json.
Variable py_repr : json → string.

(** X1. A turn on a conversation with history first calls the classifier
    on the history joined by line feeds.  When it returns it has sent at
    least one message to the channel; when it raises (the classifier call
    fails, or the title is neither a string nor falsy) it has sent nothing
    at all. *)
Theorem turn_replies_or_raises (r : replies) (channel user : string)
    (w : world) (state : conversation) :
  conversation_states w !! channel = Some state →
  messages state ≠ [] →
  let res := process_conversation json_loads py_repr r channel user w in
  ∃ rest,
    trace (fst res)
    = (trace w ++ Classify (join_lines (messages state)) :: rest)%list
    ∧ Forall (addressed_to channel) rest
    ∧ (snd res = Returned → existsb is_post_text rest = true)
    ∧ (∀ e, snd res = Raised e → rest = []).
Proof.
  intros Hs Hm res.
  destruct (turn_shape json_loads py_repr r channel user w)
    as (new & Hnew & _ & Haddr & _ & Hret & Hraise & _).
  destruct (process_conversation_classifies json_loads py_repr r channel user w state Hs Hm)
    as (rest & Hrest).
  fold res in Hnew, Hret, Hraise, Hrest.
  rewrite Hrest in Hnew. apply app_inv_head in Hnew. subst new.
  exists rest. split; [exact Hrest|]. split; [|split].
  - by apply Forall_cons_1 in Haddr as [_ ?].
  - intros Hr. by destruct (Hret Hr).
  - intros e He. destruct (Hraise e He) as (query & Hq). by injection Hq.
Qed.

(** X2. A turn changes the store in one way only: it assigns
    [final_entities] of its channel, and it does so exactly when the last
    thing it sends is the description with the buttons, after a call of the
    generator with the same entities.  The entities it records are complete:
    no attribute is null, the keys are the five attributes, the title is a
    string that is not blank.  [recently_completed] is never touched. *)
Theorem buttons_come_with_final_entities (r : replies) (channel user : string) (w : world) :
  let w' := fst (process_conversation json_loads py_repr r channel user w) in
  recently_completed w' = recently_completed w
  ∧ ∃ new,
      trace w' = (trace w ++ new)%list
      ∧ ((conversation_states w' = conversation_states w
          ∧ existsb is_post_blocks new = false)
         ∨ ∃ entities description,
             complete_request entities = true
             ∧ conversation_states w'
               = alter (with_final_entities entities) channel (conversation_states w)
             ∧ In (GenerateJD entities) new
             ∧ last new = Some (PostBlocks channel (message_blocks description)
                                  "Job description generated.")).
Proof.
  intros w'.
  destruct (turn_shape json_loads py_repr r channel user w)
    as (new & Hnew & Hrc & _ & _ & _ & _ & Hstore).
  split; [exact Hrc|]. exists new. split; [exact Hnew | exact Hstore].
Qed.

End TurnFacts.

(** ** The shape of a request *)

Section RequestShape.

Variable json_loads : string → option json.
Variable py_repr : json → string.
Variable bot_user_id : string.

Local Abbreviation on_message := (process_slack_events json_loads py_repr bot_user_id).
Local Abbreviation on_press := (handle_interaction py_repr).
Local Abbreviation on_request := (dispatch json_loads py_repr bot_user_id).

(** What a press does, branch by branch. *)
Lemma press_shape (r : replies) (action channel user : string) (w : world) :
  let w' := on_press r (Interactive action channel user) w in
  ∃ new,
    trace w' = (trace w ++ SocketAck :: new)%list
    ∧ Forall (addressed_to channel) new
    ∧ forallb (λ e, negb (is_model_call e)) new = true
    ∧ (recently_completed w' = recently_completed w
       ∨ recently_completed w' = <[channel := true]> (recently_completed w))
    ∧ (conversation_states w' = conversation_states w
       ∨ conversation_states w' = delete channel (conversation_states w)
       ∨ ∃ state entities,
           conversation_states w !! channel = Some state
           ∧ final_entities state = Some entities
           ∧ conversation_states w'
             = alter (edit_started entities) channel (conversation_states w)).
Proof.
  unfold handle_interaction.
  destruct (conversation_states (emit SocketAck w) !! channel) as [state|] eqn:Hs;
    [|exists []; repeat split; eauto; done].
  simpl in Hs.
  repeat case_match; simpl; rewrite <- ?app_assoc; simpl;
    (eexists; split; [reflexivity|]);
    (split; [all_addressed|]); (split; [done|]);
    (split; [by eauto|]); eauto 10.
Qed.

(** What a message does: nothing, or a turn on a store in which the
    channel's entry has been extended or replaced. *)
Lemma message_shape (r : replies) (event : message_event) (w : world) :
  on_message r (EventsApiMessage event) w = w
  ∨ ∃ entry,
      on_message r (EventsApiMessage event) w
      = fst (process_conversation json_loads py_repr r (ev_channel event) (ev_user event)
               (set_states (<[ev_channel event := entry]> (conversation_states w)) w))
      ∧ ev_user event ≠ bot_user_id
      ∧ ev_subtype event = None
      ∧ user_id entry = ev_user event
      ∧ ((∃ state, conversation_states w !! ev_channel event = Some state
                   ∧ user_id state = ev_user event
                   ∧ ¬ In (ev_text event) (messages state)
                   ∧ entry = with_message (ev_text event) state)
         ∨ ((∀ state, conversation_states w !! ev_channel event = Some state →
                      user_id state ≠ ev_user event)
            ∧ entry = fresh_conversation (ev_user event) (ev_text event))).
Proof.
  unfold process_slack_events.
  destruct (String.eqb (ev_user event) bot_user_id) eqn:Hb; [by left|].
  destruct (ev_subtype event) as [sub|] eqn:Hsub; [by left|]. simpl.
  apply String.eqb_neq in Hb.
  destruct (conversation_states w !! ev_channel event) as [state|] eqn:Hs.
  - destruct (String.eqb (ev_user event) (user_id state)) eqn:Hu.
    + apply String.eqb_eq in Hu.
      destruct (text_in (ev_text event) (messages state)) eqn:Ht; [by left|].
      right. exists (with_message (ev_text event) state). simpl.
      split.
      { unfold append_message, set_states. do 3 f_equal.
        apply map_eq. intros k. destruct (decide (ev_channel event = k)) as [<-|].
        - by rewrite lookup_alter_eq, lookup_insert_eq, Hs.
        - by rewrite lookup_alter_ne, lookup_insert_ne. }
      repeat split; try done. left. exists state. repeat split; try done.
      intros Hin. apply text_in_spec in Hin. congruence.
    + apply String.eqb_neq in Hu. right.
      exists (fresh_conversation (ev_user event) (ev_text event)).
      repeat split; try done. right. split; [|done].
      intros state' [= <-]. congruence.
  - right. exists (fresh_conversation (ev_user event) (ev_text event)).
    repeat split; try done. right. by split.
Qed.

End RequestShape.

Section RequestFacts.

Variable json_loads : string → option json.
Variable py_repr : json → string.
Variable bot_user_id : string.

Local Abbreviation on_message := (process_slack_events json_loads py_repr bot_user_id).
Local Abbreviation on_press := (handle_interaction py_repr).
Local Abbreviation on_request := (dispatch json_loads py_repr bot_user_id).

Lemma dispatch_message (r : replies) (event : message_event) (w : world) :
  on_request r (EventsApiMessage event) w = on_message r (EventsApiMessage event) w.
Proof. done. Qed.

Lemma dispatch_press (r : replies) (action channel user : string) (w : world) :
  on_request r (Interactive action channel user) w
  = on_press r (Interactive action channel user) w.
Proof. done. Qed.


(** X4. The collaborators are split by the kind of request: a message
    event can call the classifier and the description generator but never
    the LinkedIn poster or the draft file, and it is never acknowledged on
    the socket; a press can call the poster or the draft file but never the
    classifier or the generator. *)
Theorem collaborators_by_request_kind (r : replies) (req : request) (w : world) :
  ∃ new,
    trace (on_request r req w) = (trace w ++ new)%list
    ∧ match req with
      | EventsApiMessage _ =>
          forallb (λ e, negb (is_publish_call e)) new = true
      | Interactive _ _ _ =>
          ∃ rest, new = SocketAck :: rest
                  ∧ forallb (λ e, negb (is_model_call e)) rest = true
      | OtherRequest => new = []
      end.
Proof.
  destruct req as [event|action channel user|].
  - rewrite dispatch_message.
    destruct (message_shape json_loads py_repr bot_user_id r event w)
      as [-> | (entry & -> & _)].
    + exists []. by rewrite app_nil_r.
    + destruct (turn_shape json_loads py_repr r (ev_channel event) (ev_user event)
                  (set_states (<[ev_channel event := entry]> (conversation_states w)) w))
        as (new & Hnew & _ & _ & Hpub & _).
      by exists new.
  - rewrite dispatch_press.
    destruct (press_shape py_repr r action channel user w) as (new & Hnew & _ & Hmodel & _).
    exists (SocketAck :: new). split; [done|]. by exists new.
  - exists []. by rewrite app_nil_r.
Qed.

Lemma turn_ignores_completed (r : replies) (channel user : string)
    (m : gmap string bool) (w : world) :
  process_conversation json_loads py_repr r channel user (with_completed m w)
  = (with_completed m (fst (process_conversation json_loads py_repr r channel user w)),
     snd (process_conversation json_loads py_repr r channel user w)).
Proof.
  unfold process_conversation, finalize. simpl.
  repeat case_match; reflexivity.
Qed.

Lemma message_ignores_completed (r : replies) (event : message_event)
    (m : gmap string bool) (w : world) :
  on_message r (EventsApiMessage event) (with_completed m w)
  = with_completed m (on_message r (EventsApiMessage event) w).
Proof.
  unfold process_slack_events. simpl.
  destruct (_ || _); [done|].
  destruct (conversation_states w !! ev_channel event) as [state|];
    [destruct (String.eqb _ _); [destruct (negb _); [|done]|]|].
  all: match goal with
       | |- fst (process_conversation _ _ _ _ _ ?w1)
            = with_completed _ (fst (process_conversation _ _ _ _ _ ?w2)) =>
           change w1 with (with_completed m w2)
       end;
       by rewrite turn_ignores_completed.
Qed.

(** X5. [recently_completed] is written and never read: with any other
    content of it, a request leaves the same conversations in the store and
    makes the same calls in the same order.  In particular a channel that
    is marked as completed is treated like any other channel. *)
Theorem completed_marker_never_read (r : replies) (req : request)
    (m : gmap string bool) (w : world) :
  conversation_states (on_request r req (with_completed m w))
  = conversation_states (on_request r req w)
  ∧ trace (on_request r req (with_completed m w)) = trace (on_request r req w).
Proof.
  destruct req as [event|action channel user|]; [| |done].
  - by rewrite !dispatch_message, message_ignores_completed.
  - rewrite !dispatch_press. unfold handle_interaction. simpl.
    repeat case_match; done.
Qed.

(** X6. A channel is marked in [recently_completed] by one thing only, a
    press of post or draft that succeeded, and at that moment its
    conversation is removed; no request ever removes a mark. *)
Theorem completed_marker_set_on_success (r : replies) (req : request) (w : world) :
  let w' := on_request r req w in
  recently_completed w' = recently_completed w
  ∨ ∃ action channel user,
      req = Interactive action channel user
      ∧ (action = "jd_post_yes" ∧ (∃ link, post_reply r = Some (true, link))
         ∨ action = "jd_draft" ∧ draft_reply r = Some true)
      ∧ recently_completed w' = <[channel := true]> (recently_completed w)
      ∧ conversation_states w' !! channel = None.
Proof.
  destruct req as [event|action channel user|]; [| |by left].
  - left. cbv zeta. rewrite dispatch_message.
    destruct (message_shape json_loads py_repr bot_user_id r event w)
      as [-> | (entry & -> & _)]; [done|].
    by destruct (turn_shape json_loads py_repr r (ev_channel event) (ev_user event)
                   (set_states (<[ev_channel event := entry]> (conversation_states w)) w))
      as (new & _ & -> & _).
  - cbv zeta. rewrite dispatch_press. unfold handle_interaction. simpl.
    repeat case_match; simpl; try (by left); right; exists action, channel, user;
      (split; [done|]); (split; [|split; [done|apply lookup_delete_eq]]).
    + left. split; [by apply String.eqb_eq|]. eauto.
    + right. split; [by apply String.eqb_eq|]. done.
Qed.

End RequestFacts.

(** ** What holds in every state the bot can reach *)

Section Reachable.

Variable json_loads : string → option json.
Variable py_repr : json → string.
Variable bot_user_id : string.

Local Abbreviation on_message := (process_slack_events json_loads py_repr bot_user_id).
Local Abbreviation on_press := (handle_interaction py_repr).
Local Abbreviation on_request := (dispatch json_loads py_repr bot_user_id).
Local Abbreviation sound := (sound_conversation bot_user_id).

Lemma sound_fresh (user text : string) :
  user ≠ bot_user_id → sound (fresh_conversation user text).
Proof.
  intros Hu. unfold sound_conversation. simpl.
  split_and!; [done|apply NoDup_singleton|done|done|by left].
Qed.

Lemma sound_with_message (text : string) (c : conversation) :
  sound c → ¬ In text (messages c) → sound (with_message text c).
Proof.
  intros (Hm & Hd & Hu & Hf & He) Hnew. unfold sound_conversation. simpl.
  split_and!; [|  |done|done|done].
  - by destruct (messages c).
  - apply NoDup_app. split; [done|]. split; [|apply NoDup_singleton].
    intros x Hx Hx'. apply list_elem_of_singleton in Hx' as ->.
    by apply list_elem_of_In in Hx.
Qed.

Lemma sound_with_final_entities (entities : pydict) (c : conversation) :
  sound c → complete_request entities = true → sound (with_final_entities entities c).
Proof.
  intros (Hm & Hd & Hu & Hf & He) Hc. unfold sound_conversation. simpl.
  split_and!; [done|done|done| |].
  - by intros e [= <-].
  - destruct He as [?|(? & ? & ? & ?)]; [by left|right]. split_and!; eauto.
Qed.

Lemma sound_edit_started (entities : pydict) (c : conversation) :
  sound c → final_entities c = Some entities → sound (edit_started entities c).
Proof.
  intros (Hm & Hd & Hu & Hf & He) Hfe. unfold sound_conversation. simpl.
  split_and!; [done|done|done|done|].
  right. split_and!; eauto.
Qed.

Lemma sound_alter (f : conversation → conversation) (k : string)
    (m : gmap string conversation) :
  map_Forall (λ _ c, sound c) m →
  (∀ c, m !! k = Some c → sound (f c)) →
  map_Forall (λ _ c, sound c) (alter f k m).
Proof.
  intros Hm Hf i c. destruct (decide (k = i)) as [<-|Hne].
  - rewrite lookup_alter_eq. destruct (m !! k) as [c0|] eqn:E; [|done].
    intros [= <-]. by apply Hf.
  - rewrite lookup_alter_ne by done. apply Hm.
Qed.

Lemma message_keeps_sound (r : replies) (event : message_event) (w : world) :
  sound_store bot_user_id w →
  sound_store bot_user_id (on_message r (EventsApiMessage event) w).
Proof.
  intros Hw.
  destruct (message_shape json_loads py_repr bot_user_id r event w)
    as [-> | (entry & -> & Hbot & _ & Hown & Hentry)]; [done|].
  assert (sound entry) as Hsound.
  { destruct Hentry as [(state & Hs & Hu & Hnew & ->) | (_ & ->)].
    - apply sound_with_message; [|done]. by apply (Hw _ _ Hs).
    - by apply sound_fresh. }
  set (w1 := set_states (<[ev_channel event := entry]> (conversation_states w)) w).
  assert (sound_store bot_user_id w1) as Hw1.
  { unfold sound_store, w1. simpl. by apply map_Forall_insert_2. }
  destruct (turn_shape json_loads py_repr r (ev_channel event) (ev_user event) w1)
    as (new & _ & _ & _ & _ & _ & _ & [[Hcs _] | (e & d & He & Hcs & _)]).
  - unfold sound_store. by rewrite Hcs.
  - unfold sound_store. rewrite Hcs. apply sound_alter; [done|].
    intros c Hc. apply sound_with_final_entities; [|done]. by apply (Hw1 _ _ Hc).
Qed.

Lemma press_keeps_sound (r : replies) (action channel user : string) (w : world) :
  sound_store bot_user_id w →
  sound_store bot_user_id (on_press r (Interactive action channel user) w).
Proof.
  intros Hw.
  destruct (press_shape py_repr r action channel user w)
    as (new & _ & _ & _ & _ & [Hcs | [Hcs | (state & e & Hs & Hf & Hcs)]]);
    unfold sound_store; rewrite Hcs.
  - done.
  - by apply map_Forall_delete.
  - apply sound_alter; [done|]. intros c Hc. rewrite Hs in Hc. injection Hc as <-.
    apply sound_edit_started; [|done]. by apply (Hw _ _ Hs).
Qed.

Lemma request_keeps_sound (r : replies) (req : request) (w : world) :
  sound_store bot_user_id w → sound_store bot_user_id (on_request r req w).
Proof.
  destruct req as [event|action channel user|]; [| |done].
  - apply message_keeps_sound.
  - apply press_keeps_sound.
Qed.

(** What a press hands to the poster or to the draft file is the
    [final_entities] of the conversation. *)
Lemma press_publishes_final (r : replies) (action channel user : string) (w : world) :
  ∃ new,
    trace (on_press r (Interactive action channel user) w) = (trace w ++ new)%list
    ∧ Forall (λ e, match e with
                   | PostJob d | SaveJob d =>
                       ∃ state, conversation_states w !! channel = Some state
                                ∧ final_entities state = Some d
                   | _ => True
                   end) new.
Proof.
  unfold handle_interaction.
  destruct (conversation_states (emit SocketAck w) !! channel) as [state|] eqn:Hs;
    [|eexists; split; [reflexivity|]; by repeat (apply Forall_cons_2; [done|])].
  simpl in Hs.
  repeat case_match; simpl; rewrite <- ?app_assoc; simpl;
    (eexists; split; [reflexivity|]);
    repeat (apply Forall_cons_2; [by eauto|]); apply Forall_nil_2.
Qed.

Lemma request_keeps_publishing_complete (r : replies) (req : request) (w : world) :
  sound_store bot_user_id w →
  Forall publishes_complete (trace w) →
  Forall publishes_complete (trace (on_request r req w)).
Proof.
  intros Hw Ht. destruct req as [event|action channel user|]; [| |done].
  - rewrite dispatch_message.
    destruct (message_shape json_loads py_repr bot_user_id r event w)
      as [-> | (entry & -> & _)]; [done|].
    destruct (turn_shape json_loads py_repr r (ev_channel event) (ev_user event)
                (set_states (<[ev_channel event := entry]> (conversation_states w)) w))
      as (new & -> & _ & _ & Hnew & _).
    simpl. apply Forall_app. split; [done|].
    apply Forall_forall. intros e He.
    assert (negb (is_publish_call e) = true) as Hne.
    { rewrite forallb_forall in Hnew. apply Hnew. by apply list_elem_of_In. }
    by destruct e.
  - rewrite dispatch_press.
    destruct (press_publishes_final r action channel user w) as (new & -> & Hnew).
    apply Forall_app. split; [done|].
    eapply Forall_impl; [exact Hnew|]. intros e He.
    destruct e; try done; destruct He as (state & Hs & Hf);
      destruct (Hw _ _ Hs) as (_ & _ & _ & Hcomplete & _); by apply Hcomplete.
Qed.

Lemma run_keeps_invariants (steps : list (replies * request)) (w : world) :
  sound_store bot_user_id w →
  Forall publishes_complete (trace w) →
  sound_store bot_user_id (run json_loads py_repr bot_user_id steps w)
  ∧ Forall publishes_complete (trace (run json_loads py_repr bot_user_id steps w)).
Proof.
  revert w. induction steps as [|[r req] steps IH]; intros w Hw Ht; [done|].
  apply IH.
  - by apply request_keeps_sound.
  - by apply request_keeps_publishing_complete.
Qed.

Lemma complete_request_elim (entities : pydict) :
  complete_request entities = true →
  (∀ k, In k follow_up_order → dict_get k entities ≠ JNull)
  ∧ kwargs_bind entities = true
  ∧ ∃ title, dict_get "job_title" entities = JStr title ∧ blank title = false.
Proof.
  unfold complete_request. intros H.
  apply andb_true_iff in H as [H Ht]. apply andb_true_iff in H as [Hm Hk].
  split; [|split; [done|]].
  - intros k Hk' Hnull.
    destruct (first_missing_entity entities) eqn:E; [done|].
    unfold first_missing_entity in E.
    pose proof (List.find_none _ _ E k Hk') as Hn. simpl in Hn.
    rewrite Hnull in Hn. done.
  - destruct (dict_get "job_title" entities); try done.
    eexists. split; [done|]. by apply negb_true_iff.
Qed.

(** X7. In every state the bot reaches from its start, through any
    requests and any answers of the collaborators, each conversation in the
    store has a history that is not empty and holds no text twice, and an
    owner that is not the bot; its [final_entities], when present, have all
    five attributes filled in, no other key, and a title that is a string
    and not blank; and [processed], [editing] and [original_entities] are
    either all missing or set together, to [False], [True] and a complete
    copy, in a conversation that has [final_entities]. *)
Theorem reachable_store_sound (steps : list (replies * request))
    (channel : string) (c : conversation) :
  conversation_states (run json_loads py_repr bot_user_id steps initial_world) !! channel
  = Some c →
  messages c ≠ []
  ∧ NoDup (messages c)
  ∧ user_id c ≠ bot_user_id
  ∧ (∀ e, final_entities c = Some e → complete_request e = true)
  ∧ ((processed c = None ∧ editing c = None ∧ original_entities c = None)
     ∨ (processed c = Some false ∧ editing c = Some true
        ∧ is_Some (final_entities c)
        ∧ ∃ o, original_entities c = Some o ∧ complete_request o = true)).
Proof.
  intros Hc.
  destruct (run_keeps_invariants steps initial_world) as [Hsound _].
  - intros k x Hx. simpl in Hx. by rewrite lookup_empty in Hx.
  - apply Forall_nil_2.
  - exact (Hsound _ _ Hc).
Qed.

(** X8. In every run of the bot from its start, whatever is handed to the
    LinkedIn poster or written to the draft file is a complete request: none
    of the five attributes is null, there is no other key, and the title is
    a string that is not blank. *)
Theorem published_requests_are_complete (steps : list (replies * request))
    (details : pydict) :
  In (PostJob details) (trace (run json_loads py_repr bot_user_id steps initial_world))
  ∨ In (SaveJob details) (trace (run json_loads py_repr bot_user_id steps initial_world)) →
  (∀ k, In k follow_up_order → dict_get k details ≠ JNull)
  ∧ kwargs_bind details = true
  ∧ ∃ title, dict_get "job_title" details = JStr title ∧ blank title = false.
Proof.
  intros Hin. apply complete_request_elim.
  destruct (run_keeps_invariants steps initial_world) as [_ Htrace].
  - intros k x Hx. simpl in Hx. by rewrite lookup_empty in Hx.
  - apply Forall_nil_2.
  - rewrite Forall_forall in Htrace.
    destruct Hin as [Hin|Hin]; apply list_elem_of_In in Hin;
      exact (Htrace _ Hin).
Qed.

End Reachable.

(** X7 at a sample: a first message that the classifier finds complete. *)
Lemma reachable_store_sound_witness :
  let steps :=
    [ (Samples.answers (Some Samples.complete_text) (Some "We are hiring."),
       Samples.message "U1" "C1" "I need a backend developer") ] in
  conversation_states (run Samples.loads Samples.repr Samples.bot steps initial_world) !! "C1"
  = Some (Samples.confirming "U1" ["I need a backend developer"])
  ∧ NoDup ["I need a backend developer"]
  ∧ complete_request Samples.complete_entities = true.
Proof.
  intros steps.
  assert (conversation_states (run Samples.loads Samples.repr Samples.bot steps initial_world)
            !! "C1"
          = Some (Samples.confirming "U1" ["I need a backend developer"])) as Hc
    by reflexivity.
  split; [exact Hc|].
  destruct (reachable_store_sound Samples.loads Samples.repr Samples.bot steps "C1" _ Hc)
    as (_ & Hd & _ & Hf & _).
  split; [exact Hd|]. by apply Hf.
Defined.

(** X8 at a sample: the owner posts the request of the first message. *)
Lemma published_requests_are_complete_witness :
  let steps :=
    [ (Samples.answers (Some Samples.complete_text) (Some "We are hiring."),
       Samples.message "U1" "C1" "I need a backend developer");
      (Samples.answers None None, Interactive "jd_post_yes" "C1" "U1") ] in
  In (PostJob Samples.complete_entities)
     (trace (run Samples.loads Samples.repr Samples.bot steps initial_world))
  ∧ kwargs_bind Samples.complete_entities = true.
Proof.
  intros steps.
  assert (In (PostJob Samples.complete_entities)
             (trace (run Samples.loads Samples.repr Samples.bot steps initial_world))) as Hin.
  { vm_compute. tauto. }
  split; [exact Hin|].
  destruct (published_requests_are_complete Samples.loads Samples.repr Samples.bot
              steps Samples.complete_entities (or_introl Hin)) as (_ & Hk & _).
  exact Hk.
Defined.

(** ** Edges of the two handlers *)

Section ValidatorShape.

Variable json_loads : string → option json.

(** X9. Whatever the classifier returns, text that is not JSON included,
    the validator's result has an [intent] field and an [entities] field
    that is an object holding the five attributes: the engine never looks
    up a missing key in it. *)
Theorem validate_always_well_formed (llm_response : string) :
  dict_mem "intent" (validate_llm_response json_loads llm_response) = true
  ∧ ∃ entities,
      dict_lookup "entities" (validate_llm_response json_loads llm_response)
      = Some (JObj entities)
      ∧ ∀ k, In k required_entities → is_Some (dict_lookup k entities).
Proof.
  assert (Hfb : dict_mem "intent" fallback_response = true
                ∧ ∃ entities,
                    dict_lookup "entities" fallback_response = Some (JObj entities)
                    ∧ ∀ k, In k required_entities → is_Some (dict_lookup k entities)).
  { split; [done|]. exists all_null. split; [done|].
    intros k [<-|[<-|[<-|[<-|[<-|[]]]]]]; simpl; eauto. }
  unfold validate_llm_response.
  destruct (json_loads llm_response) as [[| | | | | |data]|]; try exact Hfb.
  destruct (dict_mem "intent" data) eqn:Hi; simpl; [|exact Hfb].
  destruct (dict_lookup "entities" data) as [[| | | | | |entities]|] eqn:He;
    try exact Hfb.
  split.
  - apply dict_mem_lookup. rewrite dict_lookup_set_ne by done.
    by apply dict_mem_lookup.
  - exists (fill_required entities). split; [apply dict_lookup_set_eq|].
    intros k Hk. rewrite lookup_fill_required.
    destruct (dict_lookup k entities); [eauto|].
    assert (existsb (String.eqb k) required_entities = true) as ->; [|eauto].
    apply existsb_exists. exists k. by rewrite String.eqb_refl.
Qed.

End ValidatorShape.

Section PressEdges.

Variable py_repr : json → string.

Local Abbreviation on_press := (handle_interaction py_repr).

(** X10. Once the owner presses a button on a conversation that has
    [final_entities], every action but edit ends the conversation, whatever
    the collaborators answer: a post or draft that succeeds, one that fails
    or raises, a rejection, and an action id the handler does not know all
    remove the entry of the channel.  An unknown action id does so without
    sending anything. *)
Theorem press_ends_conversation_unless_edit (r : replies) (action channel : string)
    (w : world) (state : conversation) (entities : pydict) :
  conversation_states w !! channel = Some state →
  final_entities state = Some entities →
  entities ≠ [] →
  action ≠ "jd_edit" →
  let w' := on_press r (Interactive action channel (user_id state)) w in
  conversation_states w' = delete channel (conversation_states w)
  ∧ (action ≠ "jd_post_yes" → action ≠ "jd_draft" → action ≠ "jd_no" →
     trace w' = (trace w ++ [SocketAck])%list
     ∧ recently_completed w' = recently_completed w)
  ∧ (action = "jd_no" →
     trace w' = (trace w ++ [SocketAck;
                             PostText channel "❌ Job posting cancelled.";
                             PostText channel
                               "🔄 Starting fresh. Please provide new job details:"])%list
     ∧ recently_completed w' = recently_completed w).
Proof.
  intros Hs Hf He Hne w'. unfold w'.
  rewrite (owner_press py_repr r action channel w state entities Hs Hf He). cbv zeta.
  apply String.eqb_neq in Hne. rewrite Hne.
  split; [|split].
  - repeat case_match; done.
  - intros H1 H2 H3. apply String.eqb_neq in H1, H2, H3. by rewrite H1, H2, H3.
  - intros ->. simpl. by rewrite <- !app_assoc.
Qed.

(** X11. A press by anyone but the stored owner, and a press in a channel
    that has no conversation, is acknowledged on the socket and has no
    other effect: nothing is sent, no collaborator is called, and the store
    and the completed channels stay as they were. *)
Theorem foreign_press_is_ignored (r : replies) (action channel user : string) (w : world) :
  (∀ state, conversation_states w !! channel = Some state → user_id state ≠ user) →
  on_press r (Interactive action channel user) w = emit SocketAck w.
Proof.
  intros Hown. unfold handle_interaction. simpl.
  destruct (conversation_states w !! channel) as [state|] eqn:Hs; [|done].
  specialize (Hown state eq_refl).
  assert (String.eqb user (user_id state) = false) as ->; [|done].
  apply String.eqb_neq. congruence.
Qed.

End PressEdges.

Section MessageEdges.

Variable json_loads : string → option json.
Variable py_repr : json → string.
Variable bot_user_id : string.

Local Abbreviation on_message := (process_slack_events json_loads py_repr bot_user_id).

(** X12. When the classifier call raises during the turn of a new message
    of the owner, the handler swallows the exception after the message has
    been appended: nothing is sent, the store differs only by the appended
    message, and the same text sent again is then dropped as a duplicate,
    with no classifier call and no reply. *)
Theorem classifier_failure_blocks_retry (r : replies) (event : message_event)
    (w : world) (state : conversation) :
  conversation_states w !! ev_channel event = Some state →
  ev_user event = user_id state →
  ev_user event ≠ bot_user_id →
  ev_subtype event = None →
  ¬ In (ev_text event) (messages state) →
  llm_reply r = None →
  let w' := on_message r (EventsApiMessage event) w in
  w' = emit (Classify (join_lines (messages state ++ [ev_text event])))
         (append_message (ev_channel event) (ev_text event) w)
  ∧ conversation_states w' !! ev_channel event
    = Some (with_message (ev_text event) state)
  ∧ ∀ r2, on_message r2 (EventsApiMessage event) w' = w'.
Proof.
  intros Hs Hu Hb Hn Hnew Hl w'.
  assert (Hw' : w' = emit (Classify (join_lines (messages state ++ [ev_text event])))
                       (append_message (ev_channel event) (ev_text event) w)).
  { unfold w', process_slack_events. rewrite (guard_passes _ event Hb Hn).
    rewrite Hs, Hu, String.eqb_refl.
    destruct (text_in (ev_text event) (messages state)) eqn:E;
      [by apply text_in_spec in E|].
    simpl. unfold process_conversation. simpl.
    rewrite lookup_alter_eq, Hs. simpl. rewrite Hl.
    by destruct (messages state). }
  assert (Hc : conversation_states w' !! ev_channel event
               = Some (with_message (ev_text event) state)).
  { rewrite Hw'. simpl. by rewrite lookup_alter_eq, Hs. }
  split; [exact Hw'|]. split; [exact Hc|].
  intros r2.
  apply (known_text_skipped json_loads py_repr bot_user_id r2 event w' _ Hc Hu).
  simpl. apply in_or_app. right. by left.
Qed.

(** X13. When the classifier reports a hiring request in which no
    attribute is null and the title is a value that is truthy and not a
    string (a number, [true], a list or an object that is not empty), the
    turn raises [AttributeError] at [strip]: the classifier has been called,
    nothing is sent to the channel, and the store is as it was. *)
Theorem non_string_title_raises (r : replies) (channel user : string) (w : world)
    (state : conversation) (llm_response : string) (entities : pydict) :
  conversation_states w !! channel = Some state →
  messages state ≠ [] →
  llm_reply r = Some llm_response →
  intent_is "hiring_request" (validate_llm_response json_loads llm_response) = true →
  dict_get "entities" (validate_llm_response json_loads llm_response) = JObj entities →
  (∀ k, In k follow_up_order → dict_get k entities ≠ JNull) →
  truthy (dict_get "job_title" entities) = true →
  (∀ s, dict_get "job_title" entities ≠ JStr s) →
  process_conversation json_loads py_repr r channel user w
  = (emit (Classify (join_lines (messages state))) w, Raised AttributeError).
Proof.
  intros Hs Hm Hl Hi He Hall Ht Hstr.
  rewrite (hiring_turn json_loads py_repr r channel user w state llm_response entities
             Hs Hm Hl Hi He).
  cbv zeta. rewrite (first_missing_none entities Hall), Ht. simpl.
  destruct (dict_get "job_title" entities) eqn:E; try done.
  by destruct (Hstr s).
Qed.

Lemma turn_keeps_history (r : replies) (channel user : string)
    (w : world) (entry : conversation) :
  conversation_states w !! channel = Some entry →
  ∃ c,
    conversation_states (fst (process_conversation json_loads py_repr r channel user w))
      !! channel = Some c
    ∧ user_id c = user_id entry
    ∧ messages c = messages entry.
Proof.
  intros Hc.
  destruct (process_conversation_frame json_loads py_repr r channel user w)
    as (_ & _ & [-> | (? & ents & _ & _ & ->)]).
  - by exists entry.
  - rewrite lookup_alter_eq, Hc. by eexists.
Qed.

(** X14. After a plain message (not from the bot, without subtype) has
    been handled, the channel has a conversation, the sender owns it, and
    the text is in its history: the sender either continued a conversation
    of their own, repeated a text of it, or took the channel over. *)
Theorem plain_message_leaves_sender_owning (r : replies) (event : message_event)
    (w : world) :
  ev_user event ≠ bot_user_id →
  ev_subtype event = None →
  ∃ c,
    conversation_states (on_message r (EventsApiMessage event) w) !! ev_channel event
    = Some c
    ∧ user_id c = ev_user event
    ∧ In (ev_text event) (messages c).
Proof.
  intros Hb Hn. unfold process_slack_events. rewrite (guard_passes _ event Hb Hn).
  assert (Hfresh :
    ∃ c,
      conversation_states
        (fst (process_conversation json_loads py_repr r (ev_channel event) (ev_user event)
                (set_states (<[ev_channel event :=
                                 fresh_conversation (ev_user event) (ev_text event)]>
                               (conversation_states w)) w)))
        !! ev_channel event = Some c
      ∧ user_id c = ev_user event
      ∧ In (ev_text event) (messages c)).
  { destruct (turn_keeps_history r (ev_channel event) (ev_user event)
                (set_states (<[ev_channel event :=
                                 fresh_conversation (ev_user event) (ev_text event)]>
                               (conversation_states w)) w)
                (fresh_conversation (ev_user event) (ev_text event)))
      as (c & Hc & Hu & Hm).
    { simpl. apply lookup_insert_eq. }
    exists c. split; [exact Hc|]. rewrite Hu, Hm. split; [done|by left]. }
  destruct (conversation_states w !! ev_channel event) as [state|] eqn:Hs;
    [|exact Hfresh].
  destruct (String.eqb (ev_user event) (user_id state)) eqn:Hu; [|exact Hfresh].
  apply String.eqb_eq in Hu.
  destruct (text_in (ev_text event) (messages state)) eqn:Ht; simpl.
  - exists state. split; [done|]. split; [done|]. by apply text_in_spec.
  - destruct (turn_keeps_history r (ev_channel event) (ev_user event)
                (append_message (ev_channel event) (ev_text event) w)
                (with_message (ev_text event) state))
      as (c & Hc & Hu' & Hm).
    { simpl. by rewrite lookup_alter_eq, Hs. }
    exists c. split; [exact Hc|]. rewrite Hu', Hm. split; [done|].
    simpl. apply in_or_app. right. by left.
Qed.

End MessageEdges.

(** ** The edges at the samples *)

(** X1 at a sample: a first message that gives the title alone. *)
Lemma turn_replies_or_raises_witness :
  let w := Samples.world_of [("C1", Samples.collecting "U1" ["I need a backend developer"])] in
  let res := process_conversation Samples.loads Samples.repr
               (Samples.answers (Some Samples.title_only_text) None) "C1" "U1" w in
  ∃ rest,
    trace (fst res) = Classify "I need a backend developer" :: rest
    ∧ existsb is_post_text rest = true.
Proof.
  intros w res.
  destruct (turn_replies_or_raises Samples.loads Samples.repr
              (Samples.answers (Some Samples.title_only_text) None) "C1" "U1" w
              (Samples.collecting "U1" ["I need a backend developer"])
              ltac:(reflexivity) ltac:(discriminate))
    as (rest & Ht & _ & Hr & _).
  exists rest. split; [exact Ht|]. apply Hr. reflexivity.
Defined.

(** X10 at a sample: the owner's press carries an action id that the
    handler does not know. *)
Lemma press_ends_conversation_unless_edit_witness :
  let w := Samples.world_of [("C1", Samples.confirming "U1" ["I need a backend developer"])] in
  let w' := handle_interaction Samples.repr (Samples.answers None None)
              (Interactive "jd_share" "C1" "U1") w in
  conversation_states w' = delete "C1" (conversation_states w)
  ∧ trace w' = [SocketAck].
Proof.
  intros w w'.
  destruct (press_ends_conversation_unless_edit Samples.repr (Samples.answers None None)
              "jd_share" "C1" w (Samples.confirming "U1" ["I need a backend developer"])
              Samples.complete_entities
              ltac:(reflexivity) ltac:(reflexivity) ltac:(discriminate) ltac:(discriminate))
    as (Hcs & Hsilent & _).
  split; [exact Hcs|].
  by destruct (Hsilent ltac:(discriminate) ltac:(discriminate) ltac:(discriminate)).
Defined.

(** X11 at a sample: another user presses post on the owner's
    conversation. *)
Lemma foreign_press_is_ignored_witness :
  let w := Samples.world_of [("C1", Samples.confirming "U1" ["I need a backend developer"])] in
  handle_interaction Samples.repr (Samples.answers None None)
    (Interactive "jd_post_yes" "C1" "U2") w
  = emit SocketAck w.
Proof.
  intros w.
  apply (foreign_press_is_ignored Samples.repr (Samples.answers None None)
           "jd_post_yes" "C1" "U2" w).
  intros state Hs.
  assert (conversation_states w !! "C1"
          = Some (Samples.confirming "U1" ["I need a backend developer"])) as Hc
    by reflexivity.
  rewrite Hc in Hs. injection Hs as <-. discriminate.
Defined.

(** X12 at a sample: the classifier call raises on the owner's second
    message. *)
Lemma classifier_failure_blocks_retry_witness :
  let w := Samples.world_of [("C1", Samples.collecting "U1" ["I need a backend developer"])] in
  let req := Samples.message "U1" "C1" "3 years experience" in
  let w' := process_slack_events Samples.loads Samples.repr Samples.bot
              Samples.failing req w in
  trace w' = [Classify (join_lines ["I need a backend developer"; "3 years experience"])]
  ∧ process_slack_events Samples.loads Samples.repr Samples.bot
      (Samples.answers (Some Samples.complete_text) (Some "We are hiring.")) req w'
    = w'.
Proof.
  intros w req w'.
  destruct (classifier_failure_blocks_retry Samples.loads Samples.repr Samples.bot
              Samples.failing
              {| ev_user := "U1"; ev_channel := "C1";
                 ev_text := "3 years experience"; ev_subtype := None |}
              w (Samples.collecting "U1" ["I need a backend developer"])
              ltac:(reflexivity) ltac:(reflexivity) ltac:(discriminate) ltac:(reflexivity))
    as (Hw' & _ & Hretry).
  - simpl. intros [E|[]]. discriminate.
  - reflexivity.
  - split; [exact (f_equal trace Hw')|]. apply Hretry.
Defined.

(** X13 at a sample: the classifier gives the number 5 as title. *)
Lemma non_string_title_raises_witness :
  let w := Samples.world_of [("C1", Samples.collecting "U1" ["I need a backend developer"])] in
  process_conversation MoreSamples.loads Samples.repr
    (Samples.answers (Some MoreSamples.numeric_title_text) (Some "We are hiring."))
    "C1" "U1" w
  = (emit (Classify "I need a backend developer") w, Raised AttributeError).
Proof.
  intros w.
  apply (non_string_title_raises MoreSamples.loads Samples.repr
           (Samples.answers (Some MoreSamples.numeric_title_text) (Some "We are hiring."))
           "C1" "U1" w (Samples.collecting "U1" ["I need a backend developer"])
           MoreSamples.numeric_title_text MoreSamples.numeric_title_entities);
    try reflexivity; try discriminate.
  intros k [<-|[<-|[<-|[<-|[<-|[]]]]]]; discriminate.
Defined.

(** X14 at a sample: the first message the bot ever gets. *)
Lemma plain_message_leaves_sender_owning_witness :
  ∃ c,
    conversation_states
      (process_slack_events Samples.loads Samples.repr Samples.bot
         (Samples.answers (Some Samples.title_only_text) None)
         (Samples.message "U1" "C1" "I need a backend developer") initial_world) !! "C1"
    = Some c
    ∧ user_id c = "U1"
    ∧ In "I need a backend developer" (messages c).
Proof.
  apply (plain_message_leaves_sender_owning Samples.loads Samples.repr Samples.bot
           (Samples.answers (Some Samples.title_only_text) None)
           {| ev_user := "U1"; ev_channel := "C1";
              ev_text := "I need a backend developer"; ev_subtype := None |}
           initial_world); [discriminate|reflexivity].
Defined.

(** ** The description shown in Slack *)

Lemma remove_double_star_head (c : ascii) (rest : string) :
  c ≠ "*"%char →
  remove_double_star (String c rest) = String c (remove_double_star rest).
Proof.
  intros Hc. simpl. destruct rest as [|c2 rest2]; [done|].
  by apply Ascii.eqb_neq in Hc as ->.
Qed.

Lemma remove_double_star_no_pair_bounded (n : nat) (s : string) :
  (String.length s ≤ n)%nat →
  is_infix "**" (remove_double_star s) = false.
Proof.
  revert s. induction n as [|n IH]; intros s Hn.
  - by destruct s; [|simpl in Hn; lia].
  - destruct s as [|c rest]; [done|].
    destruct rest as [|c2 rest2].
    { simpl. by rewrite andb_false_r. }
    simpl in Hn.
    change (remove_double_star (String c (String c2 rest2)))
      with (if (Ascii.eqb c "*" && Ascii.eqb c2 "*")%bool
            then remove_double_star rest2
            else String c (remove_double_star (String c2 rest2))).
    destruct (Ascii.eqb c "*") eqn:Hc; [destruct (Ascii.eqb c2 "*") eqn:Hc2|]; simpl andb;
      cbv iota.
    + apply IH. lia.
    + assert (is_infix "**" (remove_double_star (String c2 rest2)) = false) as Hrest
        by (apply IH; simpl; lia).
      apply Ascii.eqb_neq in Hc2.
      rewrite (remove_double_star_head c2 rest2 Hc2) in Hrest |- *.
      apply Ascii.eqb_neq in Hc2.
      cbn [is_infix starts_with] in Hrest |- *.
      rewrite (Ascii.eqb_sym "*" c2), Hc2 in Hrest |- *. simpl in Hrest |- *.
      by rewrite andb_false_r.
    + assert (is_infix "**" (remove_double_star (String c2 rest2)) = false) as Hrest
        by (apply IH; simpl; lia).
      cbn [is_infix starts_with]. by rewrite (Ascii.eqb_sym "*" c), Hc.
Qed.

(** X15. The text [process_conversation] puts in the section block, the
    description with every ['**'] replaced by nothing, holds no ['**'] any
    more, whatever the generator returned: a run of stars keeps at most one
    star. *)
Theorem cleaned_description_has_no_double_star (job_description : string) :
  is_infix "**" (remove_double_star job_description) = false.
Proof.
  apply (remove_double_star_no_pair_bounded (String.length job_description)). lia.
Qed.

(** ** linkedin_poster.post_job *)

Section PosterFacts.

Variable py_repr : json → string.

(** X16. [post_job] sends a request exactly when both
    [LINKEDIN_ACCESS_TOKEN] and [PERSON_URN] are set to strings that are not
    empty, and it reports success exactly when, in addition, LinkedIn
    answers with status 201; the link it then returns ends in the
    [x-restli-id] header, or in [unknown] when the header is missing.  In
    every other case it returns [False] with the reason: the credentials
    message, the status and body, or the text of the exception. *)
Theorem post_job_outcome (environ : string → option string) (answer : http_outcome)
    (job_details : pydict) :
  let credentials :=
    env_truthy (environ "LINKEDIN_ACCESS_TOKEN") && env_truthy (environ "PERSON_URN") in
  let res := post_job py_repr environ answer job_details in
  (is_Some (fst res) ↔ credentials = true)
  ∧ (fst (snd res) = true
     ↔ credentials = true ∧ ∃ restli_id text, answer = HttpResponse 201 restli_id text)
  ∧ (credentials = false → snd res = (false, credentials_not_found))
  ∧ (credentials = true →
     match answer with
     | HttpResponse status_code restli_id text =>
         if status_code =? 201
         then snd res = (true, "https://www.linkedin.com/feed/update/"
                                 +:+ default "unknown" restli_id)
         else snd res = (false, "Failed: " +:+ pretty status_code +:+ " - " +:+ text)
     | HttpRaises message => snd res = (false, message)
     end).
Proof.
  intros credentials res. unfold res, post_job. fold credentials.
  destruct credentials; simpl;
    [destruct answer as [status_code restli_id text|message];
       [destruct (status_code =? 201) eqn:E|]|]; simpl.
  - apply Z.eqb_eq in E as ->.
    split; [split; [done|intros _; by eexists]|].
    split; [split; [eauto|done]|]. split; [done|]. intros _. done.
  - split; [split; [done|intros _; by eexists]|].
    split; [split; [done|]|].
    + intros (_ & ? & ? & [= -> _ _]). done.
    + split; [done|]. intros _. done.
  - split; [split; [done|intros _; by eexists]|].
    split; [split; [done|by intros (_ & ? & ? & [=])]|]. done.
  - split; [split; [by intros [? ?]|done]|].
    split; [split; [done|by intros [? _]]|]. done.
Qed.

(** X17. The owner's press of post, with the answer of [post_job] as the
    answer of the poster: the conversation is removed in every case; the
    channel is marked as completed and the link is sent when the
    credentials are set and LinkedIn answers 201, and otherwise the owner is
    sent the reason after [Error posting to LinkedIn] and nothing is
    marked. *)
Theorem post_press_with_poster (environ : string → option string)
    (answer : http_outcome) (r : replies) (channel : string) (w : world)
    (state : conversation) (entities : pydict) :
  conversation_states w !! channel = Some state →
  final_entities state = Some entities →
  entities ≠ [] →
  post_reply r = Some (snd (post_job py_repr environ answer entities)) →
  let w' := handle_interaction py_repr r
              (Interactive "jd_post_yes" channel (user_id state)) w in
  let credentials :=
    env_truthy (environ "LINKEDIN_ACCESS_TOKEN") && env_truthy (environ "PERSON_URN") in
  conversation_states w' = delete channel (conversation_states w)
  ∧ (∀ restli_id text,
       credentials = true → answer = HttpResponse 201 restli_id text →
       recently_completed w' = <[channel := true]> (recently_completed w)
       ∧ trace w'
         = (trace w
              ++ [SocketAck; PostJob entities;
                  PostText channel
                    ("✅ Job posted successfully! Link: https://www.linkedin.com/feed/update/"
                       +:+ default "unknown" restli_id);
                  PostText channel "🎉 Job posted! Conversation ended."])%list)
  ∧ (fst (snd (post_job py_repr environ answer entities)) = false →
     recently_completed w' = recently_completed w
     ∧ trace w'
       = (trace w
            ++ [SocketAck; PostJob entities;
                PostText channel
                  ("❌ Error posting to LinkedIn: "
                     +:+ snd (snd (post_job py_repr environ answer entities)))])%list).
Proof.
  intros Hs Hf He Hp w' credentials. unfold w'.
  rewrite (owner_press py_repr r "jd_post_yes" channel w state entities Hs Hf He).
  cbv zeta. rewrite Hp. simpl String.eqb. cbv iota.
  destruct (post_job py_repr environ answer entities) as [sent [success message]] eqn:Hres.
  simpl snd. simpl fst.
  split; [by destruct success|]. split.
  - intros restli_id text Hc ->. unfold post_job in Hres. fold credentials in Hres.
    rewrite Hc in Hres. simpl in Hres. injection Hres as _ <- <-.
    simpl. by rewrite <- !app_assoc.
  - intros ->. simpl. by rewrite <- !app_assoc.
Qed.

End PosterFacts.

(** X17 at a sample: the person URN is not set. *)
Lemma post_press_with_poster_witness :
  let w := Samples.world_of [("C1", Samples.confirming "U1" ["I need a backend developer"])] in
  let environ := λ name : string,
    if String.eqb name "LINKEDIN_ACCESS_TOKEN" then Some "token" else None in
  let r := {| llm_reply := None; jd_reply := None;
              post_reply := Some (false, credentials_not_found);
              draft_reply := None |} in
  let w' := handle_interaction Samples.repr r (Interactive "jd_post_yes" "C1" "U1") w in
  conversation_states w' = delete "C1" (conversation_states w)
  ∧ trace w'
    = [SocketAck; PostJob Samples.complete_entities;
       PostText "C1"
         "❌ Error posting to LinkedIn: LinkedIn credentials (LINKEDIN_ACCESS_TOKEN or PERSON_URN) not found."].
Proof.
  intros w environ r w'.
  destruct (post_press_with_poster Samples.repr environ (HttpRaises "unreachable") r
              "C1" w (Samples.confirming "U1" ["I need a backend developer"])
              Samples.complete_entities
              ltac:(reflexivity) ltac:(reflexivity) ltac:(discriminate) ltac:(reflexivity))
    as (Hcs & _ & Hfail).
  split; [exact Hcs|]. by destruct (Hfail eq_refl).
Defined.

(** ** state_manager.save_job_to_file *)

Section DraftFacts.

Variable json_loads : string → option json.
Variable json_dumps : json → string.

Local Abbreviation save := (save_job_to_file json_loads json_dumps).

Lemma unreadable_file_kept (d : disk) (entities : pydict) (text : string) :
  read_raises d = true ∨ (∀ jobs, json_loads text ≠ Some (JArr jobs)) →
  save d entities (Some text) = (Some text, false).
Proof.
  intros Hbad. unfold save_job_to_file.
  destruct (read_raises d); [done|].
  destruct Hbad as [?|Hbad]; [done|].
  destruct (json_loads text) as [[| | | | |jobs|]|] eqn:E; try done.
  by destruct (Hbad jobs).
Qed.

(** X18. A drafts file that cannot be read, that does not hold JSON, or
    whose top level is not a list, is never written to: the call returns
    [False] and the file keeps its text, whatever the write would have
    done. *)
Theorem save_job_keeps_unreadable_file (d : disk) (entities : pydict) (text : string) :
  read_raises d = true ∨ (∀ jobs, json_loads text ≠ Some (JArr jobs)) →
  save d entities (Some text) = (Some text, false).
Proof. apply unreadable_file_kept. Qed.

(** X19. [save_job_to_file] returns [True] exactly when the jobs could be
    loaded (there is no file yet, or the file reads as a JSON list) and the
    write went through; the file then holds the list that was loaded with
    the new job added at the end.  When it returns [False] the file is as it
    was, unless [json.dump] raised after the file had been opened for
    writing. *)
Theorem save_job_returns_true_iff_written (d : disk) (entities : pydict)
    (file : option string) :
  let res := save d entities file in
  (snd res = true
   ↔ write_answer d = WriteOk
     ∧ ∃ jobs,
         (file = None ∧ jobs = []
          ∨ ∃ text, file = Some text ∧ read_raises d = false
                    ∧ json_loads text = Some (JArr jobs))
         ∧ fst res = Some (json_dumps (JArr (jobs ++ [JObj entities]))))
  ∧ (snd res = false →
     (∀ left_behind, write_answer d ≠ DumpRaises left_behind) →
     fst res = file).
Proof.
  intros res. unfold res, save_job_to_file.
  destruct file as [text|].
  - destruct (read_raises d) eqn:Hr.
    { split; [|done]. split; [done|].
      intros (_ & jobs & [[? _]|(? & _ & ? & _)] & _); done. }
    destruct (json_loads text) as [[| | | | |jobs|]|] eqn:E;
      try (split; [|done]; split; [done|];
           intros (_ & ? & [[? _]|(? & [= <-] & _ & ?)] & _); congruence).
    destruct (write_answer d) as [| |left_behind] eqn:Hw; simpl.
    + split; [|done]. split; [|done]. intros _. split; [done|].
      exists jobs. split; [|done]. right. by exists text.
    + split; [|done]. split; [done|]. by intros [? _].
    + split; [split; [done|by intros [? _]]|]. intros _ Hne. by destruct (Hne left_behind).
  - destruct (write_answer d) as [| |left_behind] eqn:Hw; simpl.
    + split; [|done]. split; [|done]. intros _. split; [done|].
      exists []. split; [by left|done].
    + split; [|done]. split; [done|]. by intros [? _].
    + split; [split; [done|by intros [? _]]|]. intros _ Hne. by destruct (Hne left_behind).
Qed.

Lemma save_jobs_from (drafts : list pydict) (old : list json) (file : option string)
    (returned : list bool) :
  (file = None ∧ old = []
   ∨ ∃ text, file = Some text ∧ json_loads text = Some (JArr old)) →
  (∀ k, (0 < k < length drafts)%nat →
        json_loads (json_dumps (JArr (old ++ (JObj <$> take k drafts))))
        = Some (JArr (old ++ (JObj <$> take k drafts)))) →
  foldl (λ acc entities,
           let saved := save (Disk false WriteOk) entities (fst acc) in
           (fst saved, (snd acc ++ [snd saved])%list))
        (file, returned) drafts
  = (match drafts with
     | [] => file
     | _ => Some (json_dumps (JArr (old ++ (JObj <$> drafts))))
     end,
     (returned ++ replicate (length drafts) true)%list).
Proof.
  revert old file returned.
  induction drafts as [|e rest IH]; intros old file returned Hfile Hread.
  - simpl. by rewrite app_nil_r.
  - cbn [foldl fst snd].
    assert (save (Disk false WriteOk) e file
            = (Some (json_dumps (JArr (old ++ [JObj e]))), true)) as Hsave.
    { unfold save_job_to_file. simpl.
      destruct Hfile as [[-> ->] | (text & -> & ->)]; done. }
    rewrite Hsave. cbn [fst snd].
    destruct rest as [|e2 rest'].
    + simpl. done.
    + rewrite (IH (old ++ [JObj e])%list).
      * cbn [length replicate]. rewrite <- !app_assoc. simpl. done.
      * right. eexists. split; [done|].
        specialize (Hread 1%nat ltac:(simpl; lia)). simpl in Hread. exact Hread.
      * intros k Hk. specialize (Hread (S k) ltac:(simpl in *; lia)).
        simpl in Hread. rewrite <- !app_assoc. simpl. exact Hread.
Qed.

(** X20. Drafts saved one after the other on a disk that works end up in
    the file in the order they were saved, after the jobs that were there:
    provided each text written is read back as the list it was written
    from, every call returns [True] and the file holds the old jobs followed
    by all the new ones. *)
Theorem save_jobs_appends_in_order (drafts : list pydict) (old : list json)
    (file : option string) :
  drafts ≠ [] →
  (file = None ∧ old = []
   ∨ ∃ text, file = Some text ∧ json_loads text = Some (JArr old)) →
  (∀ k, (0 < k < length drafts)%nat →
        json_loads (json_dumps (JArr (old ++ (JObj <$> take k drafts))))
        = Some (JArr (old ++ (JObj <$> take k drafts)))) →
  save_jobs json_loads json_dumps drafts file
  = (Some (json_dumps (JArr (old ++ (JObj <$> drafts)))),
     replicate (length drafts) true).
Proof.
  intros Hne Hfile Hread. unfold save_jobs.
  etrans; [exact (save_jobs_from drafts old file [] Hfile Hread)|].
  by destruct drafts.
Qed.

End DraftFacts.

(** X18 at a sample: the drafts file holds an object instead of a list. *)
Lemma save_job_keeps_unreadable_file_witness :
  save_job_to_file Samples.loads MoreSamples.dumps (Disk false WriteOk)
    Samples.complete_entities (Some "{}")
  = (Some "{}", false).
Proof.
  apply (save_job_keeps_unreadable_file Samples.loads MoreSamples.dumps
           (Disk false WriteOk) Samples.complete_entities "{}").
  right. intros jobs. discriminate.
Defined.

(** X20 at a sample: two drafts saved into a directory that has no drafts
    file yet. *)
Lemma save_jobs_appends_in_order_witness :
  save_jobs MoreSamples.draft_loads MoreSamples.dumps
    [Samples.complete_entities; MoreSamples.second_draft] None
  = (Some (MoreSamples.dumps
             (JArr [JObj Samples.complete_entities; JObj MoreSamples.second_draft])),
     [true; true]).
Proof.
  apply (save_jobs_appends_in_order MoreSamples.draft_loads MoreSamples.dumps
           [Samples.complete_entities; MoreSamples.second_draft] [] None).
  - discriminate.
  - by left.
  - intros k Hk. simpl in Hk. assert (k = 1%nat) as -> by lia. reflexivity.
Defined.

(** ** vertex_search_rag.perform_vertex_ai_search_rag *)

Lemma truthy_or_empty (v : json) : truthy (or_empty v) = truthy v.
Proof. unfold or_empty. by destruct (truthy v) eqn:E. Qed.

Section RagFacts.

Variable py_repr : json → string.

Lemma formatted_part_spec (doc_data : pydict) :
  match formatted_part py_repr doc_data with
  | Some part => truthy (dict_get "content" doc_data) = true ∧ part ≠ ""
  | None => truthy (dict_get "content" doc_data) = false
  end.
Proof.
  unfold formatted_part. rewrite truthy_or_empty.
  by destruct (truthy (dict_get "content" doc_data)).
Qed.

Lemma parts_empty_iff (documents : list pydict) :
  omap (formatted_part py_repr) documents = []
  ↔ ∀ doc_data, In doc_data documents → truthy (dict_get "content" doc_data) = false.
Proof.
  induction documents as [|d documents IH]; simpl; [done|].
  pose proof (formatted_part_spec d) as Hd.
  destruct (formatted_part py_repr d) as [part|].
  - split; [done|]. intros H. destruct Hd as [Hd _].
    rewrite (H d) in Hd by (by left). done.
  - rewrite IH. split.
    + intros H doc [<-|Hin]; [done|by apply H].
    + intros H doc Hin. apply H. by right.
Qed.

(** X21. [perform_vertex_ai_search_rag] gives a request to
    [client.search] exactly when both [GOOGLE_CLOUD_PROJECT_ID] and
    [GOOGLE_CLOUD_DATA_STORE_ID] are set to strings that are not empty and
    no exception is raised while the client, the serving path and the
    request are built; that request is for the global location, the
    default serving config, the query text and three results.  It returns
    a text that is not empty exactly when the variables are set, the search
    succeeds and some document found has a truthy [content]; unset
    variables, a credentials error or any other exception, before the
    search or at it, and documents without content all give the empty
    string. *)
Theorem rag_text_iff_content_retrieved (environ : string → option string)
    (answer : search_outcome) (query_text : string) :
  let configured :=
    env_truthy (environ "GOOGLE_CLOUD_PROJECT_ID")
    && env_truthy (environ "GOOGLE_CLOUD_DATA_STORE_ID") in
  let res := perform_vertex_ai_search_rag py_repr environ answer query_text in
  (is_Some (fst res) ↔ configured = true ∧ search_called answer = true)
  ∧ (∀ request, fst res = Some request →
       request
       = {| sr_api_endpoint := "global-discoveryengine.googleapis.com";
            sr_project := default "" (environ "GOOGLE_CLOUD_PROJECT_ID");
            sr_location := "global";
            sr_data_store := default "" (environ "GOOGLE_CLOUD_DATA_STORE_ID");
            sr_serving_config := "default_config";
            sr_query := query_text;
            sr_page_size := 3 |})
  ∧ (snd res ≠ ""
     ↔ configured = true
       ∧ ∃ documents,
           answer = SearchResults documents
           ∧ ∃ doc_data, In doc_data documents
                         ∧ truthy (dict_get "content" doc_data) = true)
  ∧ (snd res ≠ "" → is_Some (fst res)).
Proof.
  intros configured res. unfold res, perform_vertex_ai_search_rag.
  rewrite <- negb_andb. fold configured.
  destruct configured; simpl.
  2:{ split_and!; [split; [by intros [? ?]|by intros [? _]]|done| |done].
      split; [done|]. by intros [? _]. }
  destruct answer as [documents|[]|[]]; simpl.
  - pose proof (parts_empty_iff documents) as Hempty.
    destruct (omap (formatted_part py_repr) documents) as [|part parts] eqn:Hparts; simpl.
    + split_and!; [split; [done|intros _; by eexists]|by intros ? [= <-]| |done].
      split; [done|]. intros (_ & docs & [= <-] & d & Hin & Ht).
      rewrite (proj1 Hempty eq_refl d Hin) in Ht. done.
    + assert (In part (omap (formatted_part py_repr) documents)) as Hin
        by (rewrite Hparts; by left).
      apply list_elem_of_In, list_elem_of_omap in Hin as (d & Hd & Hf).
      pose proof (formatted_part_spec d) as Hs. rewrite Hf in Hs.
      destruct Hs as [Ht Hp].
      split_and!; [split; [done|intros _; by eexists]|by intros ? [= <-]|
                   |intros _; by eexists].
      split.
      * intros _. split; [done|]. exists documents. split; [done|].
        exists d. split; [by apply list_elem_of_In|done].
      * intros _. destruct part as [|c part']; [done|]. simpl. by destruct parts.
  - split_and!; [split; [by intros [? ?]|by intros [_ ?]]|done| |done].
    split; [done|]. by intros (_ & ? & [=] & _).
  - split_and!; [split; [done|intros _; by eexists]|by intros ? [= <-]| |done].
    split; [done|]. by intros (_ & ? & [=] & _).
  - split_and!; [split; [by intros [? ?]|by intros [_ ?]]|done| |done].
    split; [done|]. by intros (_ & ? & [=] & _).
  - split_and!; [split; [done|intros _; by eexists]|by intros ? [= <-]| |done].
    split; [done|]. by intros (_ & ? & [=] & _).
Qed.

End RagFacts.

(** X21 at a sample: with both variables set, missing credentials stop the
    call while the client is built, so no search is asked for; when the
    search answers with a document that has content, the text is not
    empty. *)
Lemma rag_text_iff_content_retrieved_witness :
  let environ (name : string) :=
    if String.eqb name "GOOGLE_CLOUD_PROJECT_ID" then Some "gdg-jobs"
    else if String.eqb name "GOOGLE_CLOUD_DATA_STORE_ID" then Some "company-docs"
    else None in
  let document : pydict :=
    [("title", JStr "Tech stack"); ("content", JStr "We build with Node.js.")] in
  ¬ is_Some (fst (perform_vertex_ai_search_rag Samples.repr environ
                    (CredentialsFail BeforeSearch) "Backend Developer"))
  ∧ is_Some (fst (perform_vertex_ai_search_rag Samples.repr environ
                    (SearchRaises AtSearch) "Backend Developer"))
  ∧ snd (perform_vertex_ai_search_rag Samples.repr environ
           (SearchResults [document]) "Backend Developer") ≠ "".
Proof.
  intros environ document. split; [|split].
  - intros Hsent.
    apply (proj1 (rag_text_iff_content_retrieved Samples.repr environ
                    (CredentialsFail BeforeSearch) "Backend Developer")) in Hsent.
    destruct Hsent as [_ Hcalled]. discriminate Hcalled.
  - apply (proj1 (rag_text_iff_content_retrieved Samples.repr environ
                    (SearchRaises AtSearch) "Backend Developer")).
    split; reflexivity.
  - apply (proj1 (proj2 (proj2 (rag_text_iff_content_retrieved Samples.repr environ
                                  (SearchResults [document]) "Backend Developer")))).
    split; [reflexivity|]. exists [document]. split; [reflexivity|].
    exists document. split; [by left|reflexivity].
Defined.

(** ** job_description_agent *)

Lemma py_len_app (a b : string) : py_len (a +:+ b) = (py_len a + py_len b)%nat.
Proof.
  induction a as [|c a IH]; simpl; [done|].
  destruct (is_continuation c); simpl; by rewrite IH.
Qed.

Lemma py_len_take_chars (n : nat) (s : string) :
  py_len (take_chars n s) = Nat.min n (py_len s).
Proof.
  revert n. induction s as [|c s IH]; intros n; simpl.
  - by destruct n.
  - destruct (is_continuation c) eqn:Hc; simpl.
    + by rewrite Hc, IH.
    + destruct n as [|n]; simpl; [done|]. by rewrite Hc, IH.
Qed.

(** X22. The company knowledge is all from the files or all defaults: when
    [load_company_knowledge] returns, either the three files were read and
    it returns their texts, or it returns the three default texts; a file
    that is missing makes it drop what it has read from the files before
    it. *)
Theorem knowledge_is_files_or_defaults (read : string → read_outcome) :
  (∀ k, load_company_knowledge read = Some k →
        k = default_knowledge
        ∨ (read "gdg-cloud/tech_stack.txt" = FileText (tech_stack k)
           ∧ read "gdg-cloud/role_levels.txt" = FileText (role_levels k)
           ∧ read "gdg-cloud/job_description_backend.txt" = FileText (job_template k)))
  ∧ (∀ stack,
       read "gdg-cloud/tech_stack.txt" = FileText stack →
       read "gdg-cloud/role_levels.txt" = FileNotFound
       ∨ (∃ levels, read "gdg-cloud/role_levels.txt" = FileText levels)
         ∧ read "gdg-cloud/job_description_backend.txt" = FileNotFound →
       load_company_knowledge read = Some default_knowledge).
Proof.
  unfold load_company_knowledge. split.
  - intros k.
    destruct (read "gdg-cloud/tech_stack.txt") as [stack| |];
      [|intros [= <-]; by left|done].
    destruct (read "gdg-cloud/role_levels.txt") as [levels| |];
      [|intros [= <-]; by left|done].
    destruct (read "gdg-cloud/job_description_backend.txt") as [template| |];
      [|intros [= <-]; by left|done].
    intros [= <-]. by right.
  - intros stack -> [-> | [[levels ->] ->]]; done.
Qed.

Section GeneratorFacts.

Variable py_repr : json → string.

(** X23. The description that [generate_job_description] makes from the
    model's text is the stripped text when that has at most 2500
    characters, and otherwise its first 2500 characters followed by three
    dots: it never has more than 2503 characters, and has exactly 2503 when
    it was cut. *)
Theorem description_is_capped (read : string → read_outcome)
    (environ : string → option string) (search : search_outcome) (text : string)
    (job_title experience skills job_type location : json) (g : generation) :
  generate_job_description py_repr read environ search (Some text)
    job_title experience skills job_type location = Some g →
  (py_len (gen_description g) ≤ 2503)%nat
  ∧ ((py_len (py_strip text) ≤ 2500)%nat → gen_description g = py_strip text)
  ∧ ((2500 < py_len (py_strip text))%nat →
     gen_description g = take_chars 2500 (py_strip text) +:+ "..."
     ∧ py_len (gen_description g) = 2503%nat).
Proof.
  unfold generate_job_description.
  destruct (load_company_knowledge read) as [k|]; [|done].
  intros [= <-]. cbn [gen_description]. unfold cap_description.
  destruct (2500 <? py_len (py_strip text))%nat eqn:E.
  - apply Nat.ltb_lt in E.
    assert (py_len (take_chars 2500 (py_strip text) +:+ "...") = 2503%nat) as Hlen.
    { rewrite py_len_app, py_len_take_chars.
      change (py_len "...") with 3%nat. lia. }
    split; [lia|]. split; [lia|]. done.
  - apply Nat.ltb_ge in E. split; [lia|]. split; [done|lia].
Qed.

(** X24. [generate_job_description] raises in one case only, when a
    knowledge file is there and reading it fails before any of the three is
    found missing.  In every other case it returns, and when the model call
    fails what it returns is the fixed fallback text built from the five
    attributes, whatever the search gave. *)
Theorem generator_raises_only_on_unreadable_knowledge (read : string → read_outcome)
    (environ : string → option string) (search : search_outcome)
    (model : option string) (job_title experience skills job_type location : json) :
  let res := generate_job_description py_repr read environ search model
               job_title experience skills job_type location in
  (res = None
   ↔ read "gdg-cloud/tech_stack.txt" = ReadFails
     ∨ (∃ stack, read "gdg-cloud/tech_stack.txt" = FileText stack)
       ∧ (read "gdg-cloud/role_levels.txt" = ReadFails
          ∨ (∃ levels, read "gdg-cloud/role_levels.txt" = FileText levels)
            ∧ read "gdg-cloud/job_description_backend.txt" = ReadFails))
  ∧ (∀ g, res = Some g → model = None →
          gen_description g
          = fallback_description py_repr job_title experience skills job_type location).
Proof.
  intros res. unfold res, generate_job_description, load_company_knowledge. split.
  - destruct (read "gdg-cloud/tech_stack.txt") as [stack| |];
      [|split; [done|by intros [?|[[? ?] _]]] | split; [by left|done]].
    destruct (read "gdg-cloud/role_levels.txt") as [levels| |];
      [|split; [done|by intros [?|[_ [?|[[? ?] _]]]]]
       |split; [intros _; right; eauto|done]].
    destruct (read "gdg-cloud/job_description_backend.txt") as [template| |].
    + split; [done|]. by intros [?|[_ [?|[_ ?]]]].
    + split; [done|]. by intros [?|[_ [?|[_ ?]]]].
    + split; [|done]. intros _. right. split; [eauto|]. right. eauto.
  - intros g Hg ->.
    destruct (read "gdg-cloud/tech_stack.txt");
      destruct (read "gdg-cloud/role_levels.txt");
      destruct (read "gdg-cloud/job_description_backend.txt");
      first [done | by injection Hg as <-].
Qed.

End GeneratorFacts.

(** X23 at a sample: a short answer of the model with blanks around it,
    when the knowledge files are missing and the search is not set up. *)
Lemma description_is_capped_witness :
  ∃ g,
    generate_job_description Samples.repr (λ _, FileNotFound) (λ _, None) (SearchRaises BeforeSearch)
      (Some "  We are hiring.  ")
      (JStr "Backend Developer") (JStr "3 years") (JStr "Node.js")
      (JStr "full-time") (JStr "Remote")
    = Some g
    ∧ gen_description g = "We are hiring.".
Proof.
  eexists. split; [reflexivity|].
  refine (proj1 (proj2 (description_is_capped Samples.repr (λ _, FileNotFound) (λ _, None)
                          (SearchRaises BeforeSearch) "  We are hiring.  "
                          (JStr "Backend Developer") (JStr "3 years") (JStr "Node.js")
                          (JStr "full-time") (JStr "Remote") _ eq_refl)) _).
  change (py_len (py_strip "  We are hiring.  ")) with 14%nat. lia.
Defined.

(** ** llm_agent *)

Section ClassifierFacts.

Variable py_repr : json → string.
Variable py_lower : string → string.
Variable experience_pattern : string → bool.
Variable json_loads : string → option json.
Variable json_dumps : option Z → json → string.

Local Abbreviation check := (validate_entities py_lower experience_pattern).

Lemma validated_field_some (v : json) (keep : string → bool) (out : json) :
  validated_field v keep = Some out →
  (truthy v = false ∧ out = JNull)
  ∨ ∃ s, v = JStr s ∧ s ≠ ""
         ∧ (out = JNull ∧ keep s = false ∨ out = JStr (py_strip s) ∧ keep s = true).
Proof.
  unfold validated_field. destruct (truthy v) eqn:Ht.
  - destruct v as [| | | |s| |]; try done. intros [= <-]. right. exists s.
    split; [done|]. split; [by destruct s|].
    destruct (keep s); [by right|by left].
  - intros [= <-]. by left.
Qed.

Lemma validated_field_shape (v : json) (keep : string → bool) (out : json) :
  validated_field v keep = Some out →
  (out = JNull ∨ ∃ s, v = JStr s ∧ s ≠ "" ∧ out = JStr (py_strip s))
  ∧ (truthy v = false → out = JNull).
Proof.
  intros H. apply validated_field_some in H.
  destruct H as [[Hf ->] | (s & -> & Hne & [[-> _] | [-> _]])].
  - split; [by left|done].
  - split; [by left|done].
  - split; [right; by exists s|]. simpl. intros Hf.
    apply negb_false_iff, String.eqb_eq in Hf. done.
Qed.

Lemma validated_field_none (v : json) (keep : string → bool) :
  validated_field v keep = None ↔ truthy v = true ∧ ∀ s, v ≠ JStr s.
Proof.
  unfold validated_field. destruct (truthy v) eqn:Ht.
  - destruct v as [| | | |s| |]; split; try done; try (by intros [_ H]);
      intros [_ H]; by destruct (H s).
  - split; [done|]. by intros [? _].
Qed.

Lemma validate_entities_keys (entities validated : pydict) :
  check entities = Some validated →
  fst <$> validated = required_entities ∧ kwargs_bind validated = true.
Proof.
  unfold validate_entities. intros H.
  destruct (validated_field (dict_get "job_title" entities) _) as [v1|]; [|done].
  destruct (validated_field (dict_get "experience" entities) _) as [v2|]; [|done].
  destruct (validated_field (dict_get "skills" entities) _) as [v3|]; [|done].
  destruct (validated_field (dict_get "job_type" entities) _) as [v4|]; [|done].
  destruct (validated_field (dict_get "location" entities) _) as [v5|]; [|done].
  simpl in H. by injection H as <-.
Qed.

(** X25. When [validate_entities] returns, its result has exactly the
    five attributes as keys, in the fixed order, whatever other keys the
    model gave, so it binds to the parameters of the description generator;
    each value is null or the stripped text of a string the model gave for
    that attribute, and an attribute that was missing, null or empty comes
    out null. *)
Theorem validate_entities_shape (entities validated : pydict) :
  check entities = Some validated →
  fst <$> validated = required_entities
  ∧ kwargs_bind validated = true
  ∧ ∀ k, In k required_entities →
         (dict_get k validated = JNull
          ∨ ∃ s, dict_get k entities = JStr s ∧ s ≠ ""
                 ∧ dict_get k validated = JStr (py_strip s))
         ∧ (truthy (dict_get k entities) = false → dict_get k validated = JNull).
Proof.
  unfold validate_entities. intros H.
  destruct (validated_field (dict_get "job_title" entities) _) as [v1|] eqn:H1; [|done].
  destruct (validated_field (dict_get "experience" entities) _) as [v2|] eqn:H2; [|done].
  destruct (validated_field (dict_get "skills" entities) _) as [v3|] eqn:H3; [|done].
  destruct (validated_field (dict_get "job_type" entities) _) as [v4|] eqn:H4; [|done].
  destruct (validated_field (dict_get "location" entities) _) as [v5|] eqn:H5; [|done].
  simpl in H. injection H as <-.
  split; [done|]. split; [done|].
  intros k [<-|[<-|[<-|[<-|[<-|[]]]]]].
  - exact (validated_field_shape _ _ _ H1).
  - exact (validated_field_shape _ _ _ H2).
  - exact (validated_field_shape _ _ _ H3).
  - exact (validated_field_shape _ _ _ H4).
  - exact (validated_field_shape _ _ _ H5).
Qed.

(** X26. [validate_entities] raises exactly when one of the five
    attributes has a value that is truthy and not a string (a number that is
    not zero, [true], a list or an object that is not empty); values under
    other keys are never looked at. *)
Theorem validate_entities_raises_iff (entities : pydict) :
  check entities = None
  ↔ ∃ k, In k required_entities
         ∧ truthy (dict_get k entities) = true
         ∧ ∀ s, dict_get k entities ≠ JStr s.
Proof.
  unfold validate_entities. split.
  - intros H.
    destruct (validated_field (dict_get "job_title" entities) _) as [v1|] eqn:H1;
      [|apply validated_field_none in H1; exists "job_title"; split; [simpl; tauto|done]].
    destruct (validated_field (dict_get "experience" entities) _) as [v2|] eqn:H2;
      [|apply validated_field_none in H2; exists "experience"; split; [simpl; tauto|done]].
    destruct (validated_field (dict_get "skills" entities) _) as [v3|] eqn:H3;
      [|apply validated_field_none in H3; exists "skills"; split; [simpl; tauto|done]].
    destruct (validated_field (dict_get "job_type" entities) _) as [v4|] eqn:H4;
      [|apply validated_field_none in H4; exists "job_type"; split; [simpl; tauto|done]].
    destruct (validated_field (dict_get "location" entities) _) as [v5|] eqn:H5;
      [|apply validated_field_none in H5; exists "location"; split; [simpl; tauto|done]].
    done.
  - intros (k & Hk & Ht & Hs).
    assert (∀ keep, validated_field (dict_get k entities) keep = None) as Hnone.
    { intros keep. by apply validated_field_none. }
    destruct Hk as [<-|[<-|[<-|[<-|[<-|[]]]]]].
    + by rewrite Hnone.
    + destruct (validated_field (dict_get "job_title" entities) _); [simpl|done].
      by rewrite Hnone.
    + destruct (validated_field (dict_get "job_title" entities) _); [simpl|done].
      destruct (validated_field (dict_get "experience" entities) _); [simpl|done].
      by rewrite Hnone.
    + destruct (validated_field (dict_get "job_title" entities) _); [simpl|done].
      destruct (validated_field (dict_get "experience" entities) _); [simpl|done].
      destruct (validated_field (dict_get "skills" entities) _); [simpl|done].
      by rewrite Hnone.
    + destruct (validated_field (dict_get "job_title" entities) _); [simpl|done].
      destruct (validated_field (dict_get "experience" entities) _); [simpl|done].
      destruct (validated_field (dict_get "skills" entities) _); [simpl|done].
      destruct (validated_field (dict_get "job_type" entities) _); [simpl|done].
      by rewrite Hnone.
Qed.

End ClassifierFacts.

(** ** The classifier and the engine together *)

Section EndToEnd.

Variable py_repr : json → string.
Variable py_lower : string → string.
Variable experience_pattern : string → bool.
Variable json_loads : string → option json.
Variable json_dumps : option Z → json → string.

Local Abbreviation classify :=
  (process_with_adk_agent py_repr py_lower experience_pattern json_loads json_dumps).

Lemma validate_intent_with_nulls (intent text : string) :
  json_loads text = Some (intent_with_nulls intent) →
  validate_llm_response json_loads text
  = [("intent", JStr intent); ("entities", JObj all_null)].
Proof. intros H. unfold validate_llm_response. by rewrite H. Qed.

(** X27. The engine with [process_with_adk_agent] as its classifier, when
    the model call fails.  If the text of the exception mentions a quota (in
    any case) or holds 429, the owner gets the notice about the API limit.
    Otherwise the intent is guessed from the whole history: if it holds one
    of the hiring keywords the bot asks for the job title, and if not it
    answers that it detected no hiring request.  In all three cases nothing
    is recorded in the store. *)
Theorem model_failure_end_to_end (read : string → read_outcome)
    (environ : string → option string) (search : search_outcome) (message : string)
    (r : replies) (channel user : string) (w : world) (state : conversation)
    (cls : classification) :
  conversation_states w !! channel = Some state →
  messages state ≠ [] →
  classify read environ search (ModelRaises message) (join_lines (messages state)) ""
  = Some cls →
  llm_reply r = Some (cls_output cls) →
  json_loads (json_dumps None (intent_with_nulls "quota_exceeded"))
  = Some (intent_with_nulls "quota_exceeded") →
  json_loads (json_dumps None (intent_with_nulls "hiring_request"))
  = Some (intent_with_nulls "hiring_request") →
  json_loads (json_dumps None (intent_with_nulls "not_hiring"))
  = Some (intent_with_nulls "not_hiring") →
  process_conversation json_loads py_repr r channel user w
  = (chat_postMessage channel
       (if is_infix "quota" (py_lower message) || is_infix "429" message
        then quota_notice
        else if simple_hiring_detection py_lower (join_lines (messages state))
             then "What is the job title/role you're hiring for?"
             else not_hiring_notice)
       (emit (Classify (join_lines (messages state))) w),
     Returned).
Proof.
  intros Hs Hm Hcls Hl Hq Hh Hn.
  unfold process_with_adk_agent in Hcls.
  destruct (load_company_knowledge read) as [k|]; [|done].
  injection Hcls as <-. cbn [cls_output] in Hl.
  unfold process_conversation. rewrite Hs.
  destruct (messages state) as [|m0 ms] eqn:Hms; [done|].
  rewrite Hl. cbv zeta. unfold on_exception, keyword_answer.
  destruct (is_infix "quota" (py_lower message) || is_infix "429" message).
  - by rewrite (validate_intent_with_nulls "quota_exceeded" _ Hq).
  - destruct (simple_hiring_detection py_lower _).
    + by rewrite (validate_intent_with_nulls "hiring_request" _ Hh).
    + by rewrite (validate_intent_with_nulls "not_hiring" _ Hn).
Qed.

End EndToEnd.

(** X27 at a sample: the model is down and the owner writes that they need
    a developer. *)
Lemma model_failure_end_to_end_witness :
  let w := Samples.world_of [("C1", Samples.collecting "U1" ["I need a backend developer"])] in
  let r := Samples.answers (Some (MoreSamples.intent_text "hiring_request")) None in
  process_conversation MoreSamples.answer_loads Samples.repr r "C1" "U1" w
  = (chat_postMessage "C1" "What is the job title/role you're hiring for?"
       (emit (Classify "I need a backend developer") w),
     Returned).
Proof.
  intros w r.
  exact (model_failure_end_to_end Samples.repr MoreSamples.lower (λ _, false)
           MoreSamples.answer_loads MoreSamples.answer_dumps
           (λ _, FileNotFound) (λ _, None) (SearchRaises BeforeSearch) "503 service unavailable"
           r "C1" "U1" w (Samples.collecting "U1" ["I need a backend developer"])
           _ eq_refl ltac:(discriminate) eq_refl eq_refl eq_refl eq_refl eq_refl).
Defined.

Lemma fill_required_complete (entities : pydict) :
  (∀ k, In k required_entities → dict_mem k entities = true) →
  fill_required entities = entities.
Proof.
  intros H. unfold fill_required. simpl.
  rewrite !H; simpl; tauto.
Qed.

Lemma intent_is_set_entities (name : string) (v : json) (data : pydict) :
  intent_is name (dict_set "entities" v data) = intent_is name data.
Proof. unfold intent_is, dict_get. by rewrite dict_lookup_set_ne. Qed.

Lemma dict_set_twice (k : string) (v : json) (d : pydict) :
  dict_set k v (dict_set k v d) = dict_set k v d.
Proof.
  induction d as [|[k' v'] d IH]; simpl.
  - by rewrite String.eqb_refl.
  - destruct (String.eqb k k') eqn:E; simpl; rewrite E; [done|by rewrite IH].
Qed.

Section ClassifiedRequests.

Variable py_repr : json → string.
Variable py_lower : string → string.
Variable experience_pattern : string → bool.
Variable json_loads : string → option json.
Variable json_dumps : option Z → json → string.

Local Abbreviation classify :=
  (process_with_adk_agent py_repr py_lower experience_pattern json_loads json_dumps).

(** X28. A hiring request that comes out of [process_with_adk_agent] from
    a text of the model reaches the engine with exactly the five attributes
    that [validate_entities] returned: whatever other keys the model put in
    [entities], the validator of the engine adds nothing and the entities
    bind to the parameters of the description generator.  The text passed
    between the two is assumed to be read back as the value it was written
    from. *)
Theorem classified_request_binds (read : string → read_outcome)
    (environ : string → option string) (search : search_outcome)
    (text query context : string) (cls : classification)
    (data entities validated : pydict) :
  classify read environ search (ModelText text) query context = Some cls →
  json_loads (cleaned_response (py_strip text)) = Some (JObj data) →
  intent_is "hiring_request" data = true →
  dict_get "entities" data = JObj entities →
  validate_entities py_lower experience_pattern entities = Some validated →
  json_loads (json_dumps (Some 2) (JObj (dict_set "entities" (JObj validated) data)))
  = Some (JObj (dict_set "entities" (JObj validated) data)) →
  cls_output cls = json_dumps (Some 2) (JObj (dict_set "entities" (JObj validated) data))
  ∧ intent_is "hiring_request" (validate_llm_response json_loads (cls_output cls)) = true
  ∧ dict_get "entities" (validate_llm_response json_loads (cls_output cls))
    = JObj validated
  ∧ fst <$> validated = required_entities
  ∧ kwargs_bind validated = true.
Proof.
  intros Hcls Hdata Hintent Hents Hval Hback.
  assert (dict_mem "intent" data = true) as Hmi.
  { unfold intent_is, dict_get in Hintent. apply dict_mem_lookup.
    destruct (dict_lookup "intent" data); [eauto|done]. }
  pose proof (dict_get_obj_mem _ _ _ Hents) as Hme.
  assert (cls_output cls
          = json_dumps (Some 2) (JObj (dict_set "entities" (JObj validated) data))) as Hout.
  { unfold process_with_adk_agent in Hcls.
    destruct (load_company_knowledge read) as [k|]; [|done].
    injection Hcls as <-. cbn [cls_output].
    by rewrite Hdata, Hmi, Hme, Hintent, Hents, Hval. }
  destruct (validate_entities_keys py_lower experience_pattern entities validated Hval)
    as (Hkeys & Hbind).
  assert (∀ k, In k required_entities → dict_mem k validated = true) as Hall.
  { unfold kwargs_bind in Hbind. apply andb_true_iff in Hbind as [Hb _].
    rewrite forallb_forall in Hb. exact Hb. }
  assert (validate_llm_response json_loads (cls_output cls)
          = dict_set "entities" (JObj validated) data) as Hv.
  { unfold validate_llm_response. rewrite Hout, Hback.
    assert (dict_mem "intent" (dict_set "entities" (JObj validated) data) = true) as ->.
    { apply dict_mem_lookup. rewrite dict_lookup_set_ne by done.
      by apply dict_mem_lookup. }
    simpl. rewrite dict_lookup_set_eq, (fill_required_complete validated Hall).
    apply dict_set_twice. }
  split; [exact Hout|]. rewrite Hv. split; [by rewrite intent_is_set_entities|].
  split; [unfold dict_get; by rewrite dict_lookup_set_eq|]. done.
Qed.

End ClassifiedRequests.

(** X28 at a sample: the model gives a title and nothing else. *)
Lemma classified_request_binds_witness :
  ∃ cls,
    process_with_adk_agent Samples.repr MoreSamples.lower (λ _, false)
      MoreSamples.pipeline_loads (λ _, MoreSamples.print_json)
      (λ _, FileNotFound) (λ _, None) (SearchRaises BeforeSearch)
      (ModelText Samples.title_only_text) "I need a backend developer" ""
    = Some cls
    ∧ dict_get "entities"
        (validate_llm_response MoreSamples.pipeline_loads (cls_output cls))
      = JObj [("job_title", JStr "Backend Developer"); ("experience", JNull);
              ("skills", JNull); ("job_type", JNull); ("location", JNull)].
Proof.
  eexists. split; [reflexivity|].
  refine (proj1 (proj2 (proj2
    (classified_request_binds Samples.repr MoreSamples.lower (λ _, false)
       MoreSamples.pipeline_loads (λ _, MoreSamples.print_json)
       (λ _, FileNotFound) (λ _, None) (SearchRaises BeforeSearch)
       Samples.title_only_text "I need a backend developer" "" _
       [("intent", JStr "hiring_request");
        ("entities", JObj [("job_title", JStr "Backend Developer")])]
       [("job_title", JStr "Backend Developer")]
       [("job_title", JStr "Backend Developer"); ("experience", JNull);
        ("skills", JNull); ("job_type", JNull); ("location", JNull)]
       eq_refl _ _ _ _ _)))); reflexivity.
Defined.

(** X25 at a sample: the model adds a salary and pads the title. *)
Lemma validate_entities_shape_witness :
  validate_entities MoreSamples.lower (λ _, false)
    [("job_title", JStr "  Backend Developer "); ("salary", JStr "90k");
     ("skills", JStr "")]
  = Some [("job_title", JStr "Backend Developer"); ("experience", JNull);
          ("skills", JNull); ("job_type", JNull); ("location", JNull)]
  ∧ kwargs_bind [("job_title", JStr "Backend Developer"); ("experience", JNull);
                 ("skills", JNull); ("job_type", JNull); ("location", JNull)] = true.
Proof.
  assert (validate_entities MoreSamples.lower (λ _, false)
            [("job_title", JStr "  Backend Developer "); ("salary", JStr "90k");
             ("skills", JStr "")]
          = Some [("job_title", JStr "Backend Developer"); ("experience", JNull);
                  ("skills", JNull); ("job_type", JNull); ("location", JNull)]) as H
    by reflexivity.
  split; [exact H|].
  exact (proj1 (proj2 (validate_entities_shape MoreSamples.lower (λ _, false) _ _ H))).
Defined.

(** ** [strip] and [blank] *)

Lemma lstrip_blank_bounded (n : nat) (s : string) :
  (String.length s ≤ n)%nat →
  blank (lstrip s) = blank s ∧ (lstrip s = "" ↔ blank s = true).
Proof.
  revert s. induction n as [|n IH]; intros s Hn.
  - destruct s; [done|simpl in Hn; lia].
  - destruct s as [|c rest]; [done|]. simpl in Hn.
    cbn [lstrip blank].
    destruct (ascii_space c) eqn:Hc; [apply IH; lia|].
    destruct rest as [|c2 rest2].
    { cbn [blank]. rewrite Hc. split; [done|]. split; done. }
    simpl in Hn.
    destruct ((byte_of c =? 194) && ((byte_of c2 =? 133) || (byte_of c2 =? 160)))%N eqn:H2;
      [apply IH; lia|].
    destruct rest2 as [|c3 rest3].
    { cbn [blank]. rewrite Hc, H2. split; [done|]. split; done. }
    simpl in Hn. cbv zeta.
    match goal with
    | |- context [if ?b then lstrip rest3 else _] => destruct b eqn:H3
    end; [apply IH; lia|].
    cbn [blank]. rewrite Hc, H2. cbv zeta. rewrite H3. split; [done|]. split; done.
Qed.

Lemma rstrip_empty (s : string) : rstrip s = "" ↔ blank s = true.
Proof.
  destruct s as [|c rest]; [done|].
  change (rstrip (String c rest))
    with (if blank (String c rest) then EmptyString else String c (rstrip rest)).
  by destruct (blank (String c rest)).
Qed.

(** X29. The test that [process_conversation] makes on the title,
    [job_title.strip() == ""], holds exactly for the texts made of
    whitespace only (the empty text among them): stripping a text leaves
    nothing exactly when every character of it is one that [str.strip]
    removes. *)
Theorem strip_empty_iff_blank (s : string) :
  py_strip s = "" ↔ blank s = true.
Proof.
  unfold py_strip. rewrite rstrip_empty.
  destruct (lstrip_blank_bounded (String.length s) s) as [-> _]; [lia|done].
Qed.

(** ** The draft button and the drafts file *)

Section DraftPress.

Variable py_repr : json → string.
Variable json_loads : string → option json.
Variable json_dumps : json → string.

(** X30. The owner's press of draft, with the value of
    [save_job_to_file] as the answer of the draft store: the conversation is
    removed in every case.  When the save returns [True] the file holds the
    jobs with the new one at the end, the channel is marked as completed,
    and the job id shown to the owner is the text [True].  When it returns
    [False] the owner is sent the error message and nothing is marked; if
    the file was there and could not be read as a list, it is untouched. *)
Theorem draft_press_with_file (d : disk) (file : option string) (r : replies)
    (channel : string) (w : world) (state : conversation) (entities : pydict) :
  conversation_states w !! channel = Some state →
  final_entities state = Some entities →
  entities ≠ [] →
  let saved := save_job_to_file json_loads json_dumps d entities file in
  draft_reply r = Some (snd saved) →
  let w' := handle_interaction py_repr r
              (Interactive "jd_draft" channel (user_id state)) w in
  conversation_states w' = delete channel (conversation_states w)
  ∧ (snd saved = true →
     recently_completed w' = <[channel := true]> (recently_completed w)
     ∧ trace w'
       = (trace w
            ++ [SocketAck; SaveJob entities;
                PostText channel "✅ Job saved as draft. Job ID: True";
                PostText channel "💾 Draft saved! Conversation ended."])%list)
  ∧ (snd saved = false →
     recently_completed w' = recently_completed w
     ∧ trace w'
       = (trace w
            ++ [SocketAck; SaveJob entities;
                PostText channel
                  "❌ An error occurred while saving the draft. Please try again."])%list)
  ∧ (∀ text, file = Some text → (∀ jobs, json_loads text ≠ Some (JArr jobs)) →
             saved = (Some text, false)).
Proof.
  intros Hs Hf He saved Hd w'. unfold w'.
  rewrite (owner_press py_repr r "jd_draft" channel w state entities Hs Hf He).
  cbv zeta. rewrite Hd. simpl String.eqb. cbv iota.
  split; [by destruct (snd saved)|]. split; [|split].
  - intros ->. simpl. by rewrite <- !app_assoc.
  - intros ->. simpl. by rewrite <- !app_assoc.
  - intros text -> Hbad. unfold saved.
    apply unreadable_file_kept. by right.
Qed.

End DraftPress.

(** X30 at a sample: the drafts file holds an object instead of a list. *)
Lemma draft_press_with_file_witness :
  let w := Samples.world_of [("C1", Samples.confirming "U1" ["I need a backend developer"])] in
  let w' := handle_interaction Samples.repr Samples.failing
              (Interactive "jd_draft" "C1" "U1") w in
  conversation_states w' = delete "C1" (conversation_states w)
  ∧ save_job_to_file Samples.loads MoreSamples.dumps (Disk false WriteOk)
      Samples.complete_entities (Some "{}")
    = (Some "{}", false).
Proof.
  intros w w'.
  destruct (draft_press_with_file Samples.repr Samples.loads MoreSamples.dumps
              (Disk false WriteOk) (Some "{}") Samples.failing "C1" w
              (Samples.confirming "U1" ["I need a backend developer"])
              Samples.complete_entities
              ltac:(reflexivity) ltac:(reflexivity) ltac:(discriminate) ltac:(reflexivity))
    as (Hcs & _ & _ & Hfile).
  split; [exact Hcs|]. apply Hfile; [reflexivity|]. intros jobs. discriminate.
Defined.
